(** * bigiq_utility_license_assignment: a shallow embedding

    The module [plugins/modules/bigiq_utility_license_assignment.py] manages
    the assignment of a utility license offering to a BIG-IP through the REST
    interface of a BIG-IQ.  This development embeds the module's classes
    ([ModuleParameters], [UsableChanges], [ModuleManager]) as functions over
    Python values and an explicit model of the REST client, and proves the
    properties of the license assignment reconciler against them.

    Python values are dynamically typed: [pyval] is the fragment of them that
    JSON documents and module arguments are made of (numbers are integers).
    Exceptions are values of [exn]; a computation that talks to the BIG-IQ
    runs in the monad [M], which threads the responses still to come, the
    manager's [changes] attribute, and records every request together with
    its response.  A property of a Python class is a function of the object:
    it is evaluated again each time it is read, and so are the requests it
    makes.

    [Difference], [should_update] and [_update_changed_options] are not
    embedded: [exec_module] never reaches them. *)

From Stdlib Require Import ZArith List String Ascii Bool Lia.
Import ListNotations.

Local Open Scope string_scope.
Local Open Scope list_scope.
Local Open Scope Z_scope.

(** ** Python values *)

#[warnings="-register-all"]
Inductive pyval : Type :=
| PNone
| PBool (b : bool)
| PInt (n : Z)
| PStr (s : string)
| PList (l : list pyval)
| PDict (d : list (string * pyval)).

(** A [dict] with string keys, in insertion order. *)
Definition dict := list (string * pyval).

Inductive index : Type :=
| IStr (k : string)
| IInt (i : Z).

(** [F5ModuleError] is the module's own exception (module_utils.common); the
    other three are the built-in exceptions a subscript can raise. *)
Inductive exn : Type :=
| F5ModuleError (msg : pyval)
| KeyError (k : index)
| IndexError
| TypeError.

Inductive result (A : Type) : Type :=
| Ret (a : A)
| Raise (e : exn)
| Starved.
Arguments Ret {A} a.
Arguments Raise {A} e.
Arguments Starved {A}.

Fixpoint dict_get (d : dict) (k : string) : option pyval :=
  match d with
  | [] => None
  | (k', v) :: d' => if String.eqb k' k then Some v else dict_get d' k
  end.

(** [d[k] = v]: replaces the value of an existing key, else appends. *)
Fixpoint dict_set (d : dict) (k : string) (v : pyval) : dict :=
  match d with
  | [] => [(k, v)]
  | (k', v') :: d' =>
      if String.eqb k' k then (k, v) :: d' else (k', v') :: dict_set d' k v
  end.

(** [d.update(other)] *)
Definition dict_update (d other : dict) : dict :=
  fold_left (fun acc kv => dict_set acc (fst kv) (snd kv)) other d.

(** [d.pop(k, default)], keeping the dictionary only. *)
Definition dict_pop (d : dict) (k : string) : dict :=
  filter (fun kv => negb (String.eqb (fst kv) k)) d.

Fixpoint string_nth (s : string) (n : nat) : option ascii :=
  match s, n with
  | EmptyString, _ => None
  | String c _, O => Some c
  | String _ s', S n' => string_nth s' n'
  end.

(** Position [i] of a sequence of length [len], Python style: a negative
    index counts from the end. *)
Definition seq_index (len i : Z) : option nat :=
  let j := if i <? 0 then i + len else i in
  if (j <? 0) || (len <=? j) then None else Some (Z.to_nat j).

(** [v[i]] *)
Definition subscript (v : pyval) (i : index) : result pyval :=
  match v, i with
  | PDict d, IStr k =>
      match dict_get d k with Some x => Ret x | None => Raise (KeyError i) end
  | PDict _, IInt _ => Raise (KeyError i)
  | PList l, IInt n =>
      match seq_index (Z.of_nat (List.length l)) n with
      | Some j => match nth_error l j with Some x => Ret x | None => Raise IndexError end
      | None => Raise IndexError
      end
  | PList _, IStr _ => Raise TypeError
  | PStr s, IInt n =>
      match seq_index (Z.of_nat (String.length s)) n with
      | Some j =>
          match string_nth s j with
          | Some c => Ret (PStr (String c EmptyString))
          | None => Raise IndexError
          end
      | None => Raise IndexError
      end
  | PStr _, IStr _ => Raise TypeError
  | PNone, _ | PBool _, _ | PInt _, _ => Raise TypeError
  end.

(** Truth value of an object, as tested by [if] and [not]. *)
Definition truthy (v : pyval) : bool :=
  match v with
  | PNone => false
  | PBool b => b
  | PInt n => negb (n =? 0)
  | PStr s => negb (String.eqb s EmptyString)
  | PList l => match l with [] => false | _ => true end
  | PDict d => match d with [] => false | _ => true end
  end.

(** [v == n] for an integer literal [n]: [True == 1] and [False == 0]. *)
Definition py_eq_int (v : pyval) (n : Z) : bool :=
  match v with
  | PInt m => m =? n
  | PBool b => (if b then 1 else 0) =? n
  | _ => false
  end.

(** [v == s] for a string literal [s]. *)
Definition py_eq_str (v : pyval) (s : string) : bool :=
  match v with
  | PStr t => String.eqb t s
  | _ => false
  end.

(** [v is None] *)
Definition is_None (v : pyval) : bool :=
  match v with PNone => true | _ => false end.

(** [a == b]: numbers and booleans compare by value ([True == 1]), lists
    item by item, dictionaries key by key whatever the order of their
    entries (the keys of a dictionary are distinct). *)
Fixpoint py_eqb (a b : pyval) {struct a} : bool :=
  match a, b with
  | PNone, PNone => true
  | PBool x, PBool y => Bool.eqb x y
  | PInt x, PInt y => x =? y
  | PBool x, PInt y => (if x then 1 else 0) =? y
  | PInt x, PBool y => x =? (if y then 1 else 0)
  | PStr x, PStr y => String.eqb x y
  | PList l, PList l' =>
      (fix items (l l' : list pyval) {struct l} : bool :=
         match l, l' with
         | [], [] => true
         | x :: l, y :: l' => py_eqb x y && items l l'
         | _, _ => false
         end) l l'
  | PDict d, PDict d' =>
      (List.length d =? List.length d')%nat
      && (fix entries (d : list (string * pyval)) {struct d} : bool :=
            match d with
            | [] => true
            | (k, v) :: d =>
                match dict_get d' k with
                | Some v' => py_eqb v v'
                | None => false
                end && entries d
            end) d
  | _, _ => false
  end.

Definition of_opt_str (o : option string) : pyval :=
  match o with Some s => PStr s | None => PNone end.

Definition of_opt_int (o : option Z) : pyval :=
  match o with Some n => PInt n | None => PNone end.

Definition of_opt_bool (o : option bool) : pyval :=
  match o with Some b => PBool b | None => PNone end.

(** ** What the module imports

    [is_valid_ip] lives in module_utils/ipaddress.py and [str] is the Python
    builtin that [str.format] applies to an argument that is not a string;
    neither is part of the module, so both are parameters of the model. *)
Record externals : Type := {
  is_valid_ip : string -> bool;
  str : pyval -> string
}.

(** ["...{0}...".format(v)] for one replacement field. *)
Definition format_field (ext : externals) (v : pyval) : string :=
  match v with
  | PStr s => s
  | _ => str ext v
  end.

(** The pieces of a formatted template, joined. *)
Definition format (pieces : list string) : string := String.concat EmptyString pieces.
Arguments format : simpl never.

(** ** The REST client

    [F5Client] (module_utils/client.py) is not part of the module.  All the
    module relies on is that [get], [post] and [delete] return a dictionary
    with a ['code'] and the ['contents'] of the answer; what the BIG-IQ
    answers is not in the module's hands, so a run is given the answers in
    the order the requests will be made. *)

Inductive method : Type := GET | POST | DELETE.

(** Where in the module a request is issued.  The label is ghost state: the
    client never sees it. *)
Inductive call_site : Type :=
| devices_query      (* ModuleParameters.device_reference *)
| offerings_query    (* ModuleParameters.offering_id *)
| members_query      (* ModuleParameters.member_id *)
| member_read        (* ModuleManager.exists *)
| member_poll        (* ModuleManager.wait_for_device_to_be_licensed *)
| members_create     (* ModuleManager.create_on_device *)
| member_delete.     (* ModuleManager.remove_from_device *)

Record request : Type := {
  meth : method;
  site : call_site;
  uri : string;
  data : option dict
}.

Record response : Type := {
  code : Z;
  contents : pyval
}.

Definition exchange : Type := request * response.

(** [self.changes] is an instance of one of two classes. *)
Inductive changes_obj : Type :=
| UsableChanges_ (_values : dict)
| Changes_ (_values : dict).

(** The state a run threads: the responses the BIG-IQ will give to the
    requests still to come, in order, and the manager's [changes]. *)
Record mstate : Type := {
  pending : list response;
  changes : changes_obj
}.

(** The outcome of running a computation: its result, the exchanges it had
    with the BIG-IQ in order, and the state it leaves.  [Starved] is the
    result of a computation that needs a response when [pending] is empty:
    it is still waiting. *)
Record ran (A : Type) : Type := Ran {
  res : result A;
  trace : list exchange;
  final : mstate
}.
Arguments Ran {A} res trace final.
Arguments res {A} r.
Arguments trace {A} r.
Arguments final {A} r.

Definition M (A : Type) : Type := mstate -> ran A.

Class Monad (m : Type -> Type) : Type := {
  ret : forall {A}, A -> m A;
  bind : forall {A B}, m A -> (A -> m B) -> m B
}.

Notation "x <- c ;; k" := (bind c (fun x => k))
  (at level 61, c at next level, right associativity).
Notation "c ;; k" := (bind c (fun _ => k))
  (at level 61, right associativity).

Definition result_bind {A B} (r : result A) (f : A -> result B) : result B :=
  match r with
  | Ret a => f a
  | Raise e => Raise e
  | Starved => Starved
  end.

#[global] Instance Monad_result : Monad result :=
  {| ret := @Ret; bind := @result_bind |}.

Definition M_ret {A} (a : A) : M A := fun s => Ran (Ret a) [] s.

Definition M_bind {A B} (c : M A) (f : A -> M B) : M B := fun s =>
  match c s with
  | Ran (Ret a) t s1 =>
      match f a s1 with Ran r t' s2 => Ran r (t ++ t') s2 end
  | Ran (Raise e) t s1 => Ran (Raise e) t s1
  | Ran Starved t s1 => Ran Starved t s1
  end.

#[global] Instance Monad_M : Monad M :=
  {| ret := @M_ret; bind := @M_bind |}.

Definition raise {A} (e : exn) : M A := fun s => Ran (Raise e) [] s.

(** A computation that makes no request. *)
Definition lift {A} (r : result A) : M A := fun s => Ran r [] s.

Definition get_changes : M changes_obj := fun s => Ran (Ret (changes s)) [] s.

Definition set_changes (c : changes_obj) : M unit := fun s =>
  Ran (Ret tt) [] {| pending := pending s; changes := c |}.

(** One round trip: the request is sent and the next pending response is its
    answer. *)
Definition send (rq : request) : M response := fun s =>
  match pending s with
  | [] => Ran Starved [] s
  | r :: rest => Ran (Ret r) [(rq, r)] {| pending := rest; changes := changes s |}
  end.

Module client.
Definition get (at_ : call_site) (uri : string) : M response :=
  send {| meth := GET; site := at_; uri := uri; data := None |}.
Definition post (at_ : call_site) (uri : string) (data : dict) : M response :=
  send {| meth := POST; site := at_; uri := uri; data := Some data |}.
Definition delete (at_ : call_site) (uri : string) (data : dict) : M response :=
  send {| meth := DELETE; site := at_; uri := uri; data := Some data |}.
End client.

(** [response['code'] in codes] *)
Definition code_in (r : response) (codes : list Z) : bool :=
  existsb (Z.eqb (code r)) codes.
Arguments code_in : simpl never.

(** ** The parameter classes *)

(** Modelled from the spec: [AnsibleF5Parameters], the base class of
    [Parameters] (module_utils/common.py, not part of the module).  The spec
    calls a change set "a small attribute map" read by "dynamic attribute
    lookup": the store [_values] maps a name to a value and reads [None]
    for a name that was never set; an attribute without a property of its own
    reads from the store; [_filter_params] drops the entries that are [None];
    the constructor stores [params] under the names [api_map] gives them. *)
Module AnsibleF5Parameters.

Definition __getattr__ (_values : dict) (item : string) : pyval :=
  match dict_get _values item with
  | Some v => v
  | None => PNone
  end.

Definition _filter_params (params : dict) : dict :=
  filter (fun kv => negb (is_None (snd kv))) params.

Definition map_key (api_map : list (string * string)) (k : string) : string :=
  match find (fun kv => String.eqb (fst kv) k) api_map with
  | Some kv => snd kv
  | None => k
  end.

Definition new (api_map : list (string * string)) (params : dict) : dict :=
  fold_left (fun _values kv => dict_set _values (map_key api_map (fst kv)) (snd kv))
            params [].

Definition api_params (api_map : list (string * string))
    (api_attributes : list string) (getattr : string -> pyval) : dict :=
  _filter_params
    (map (fun api_attribute => (api_attribute, getattr (map_key api_map api_attribute)))
         api_attributes).

End AnsibleF5Parameters.

Module Parameters.

Definition api_map : list (string * string) :=
  [ ("deviceReference", "device_reference");
    ("deviceAddress", "device_address");
    ("httpsPort", "device_port");
    ("unitOfMeasure", "unit_of_measure") ].

Definition api_attributes : list string :=
  [ "deviceReference"; "deviceAddress"; "httpsPort"; "managed"; "unitOfMeasure" ].

Definition returnables : list string :=
  [ "device_address"; "device_reference"; "device_username"; "device_password";
    "device_port"; "managed"; "unit_of_measure" ].

Definition updatables : list string :=
  [ "device_reference"; "device_address"; "device_username"; "device_password";
    "device_port"; "managed"; "unit_of_measure" ].

(** [to_return], for a class whose attributes read through [getattr]. *)
Definition to_return (getattr : string -> pyval) : dict :=
  AnsibleF5Parameters._filter_params
    (map (fun returnable => (returnable, getattr returnable)) returnables).

Definition api_params (getattr : string -> pyval) : dict :=
  AnsibleF5Parameters.api_params api_map api_attributes getattr.

Definition new (params : dict) : dict := AnsibleF5Parameters.new api_map params.

End Parameters.

(** [Changes] and [ReportableChanges] add nothing to [Parameters]. *)
Module Changes.

Definition getattr (_values : dict) (name : string) : pyval :=
  AnsibleF5Parameters.__getattr__ _values name.

End Changes.

Module UsableChanges.

Definition device_port (_values : dict) : pyval :=
  if truthy (AnsibleF5Parameters.__getattr__ _values "managed") then PNone
  else AnsibleF5Parameters.__getattr__ _values "device_port".

Definition device_username (_values : dict) : pyval :=
  if truthy (AnsibleF5Parameters.__getattr__ _values "managed") then PNone
  else AnsibleF5Parameters.__getattr__ _values "device_username".

Definition device_password (_values : dict) : pyval :=
  if truthy (AnsibleF5Parameters.__getattr__ _values "managed") then PNone
  else AnsibleF5Parameters.__getattr__ _values "device_password".

Definition device_reference (_values : dict) : pyval :=
  if negb (truthy (AnsibleF5Parameters.__getattr__ _values "managed")) then PNone
  else AnsibleF5Parameters.__getattr__ _values "device_reference".

Definition device_address (_values : dict) : pyval :=
  if truthy (AnsibleF5Parameters.__getattr__ _values "managed") then PNone
  else AnsibleF5Parameters.__getattr__ _values "device_address".

Definition managed (_values : dict) : pyval := PNone.

Definition getattr (_values : dict) (name : string) : pyval :=
  if String.eqb name "device_port" then device_port _values
  else if String.eqb name "device_username" then device_username _values
  else if String.eqb name "device_password" then device_password _values
  else if String.eqb name "device_reference" then device_reference _values
  else if String.eqb name "device_address" then device_address _values
  else if String.eqb name "managed" then managed _values
  else AnsibleF5Parameters.__getattr__ _values name.

End UsableChanges.

(** Attribute lookup on [self.changes], by its class. *)
Definition changes_getattr (c : changes_obj) : string -> pyval :=
  match c with
  | UsableChanges_ v => UsableChanges.getattr v
  | Changes_ v => Changes.getattr v
  end.

(** ** Module arguments

    The arguments as [AnsibleModule] hands them over, typed by the module's
    [argument_spec]: [key], [offering] and [device] are required strings,
    [managed] is a bool, [device_port] an int, the others strings; an
    argument that was not given is [None]. *)
Record params : Type := {
  _key : string;
  _offering : string;
  _device : string;
  _managed : option bool;
  _device_port : option Z;
  _device_username : option string;
  _device_password : option string;
  _unit_of_measure : option string;
  _state : string
}.

(** [re.match] of a pattern that is a sequence of character classes: the
    pattern has to match a prefix of the string. *)
Fixpoint re_match (pattern : list (ascii -> bool)) (s : string) : bool :=
  match pattern with
  | [] => true
  | cls :: pattern' =>
      match s with
      | EmptyString => false
      | String c s' => cls c && re_match pattern' s'
      end
  end.

(** [[A-Za-z0-9]] *)
Definition alnum (c : ascii) : bool :=
  let n := Z.of_nat (nat_of_ascii c) in
  ((65 <=? n) && (n <=? 90)) || ((97 <=? n) && (n <=? 122))
  || ((48 <=? n) && (n <=? 57)).

Definition hyphen (c : ascii) : bool := Ascii.eqb c "-"%char.

Module ModuleParameters.
Section Properties.

Variable ext : externals.
Variable want : params.

Definition device_password : pyval :=
  if is_None (of_opt_str (_device_password want)) then PNone
  else of_opt_str (_device_password want).

Definition device_username : pyval :=
  if is_None (of_opt_str (_device_username want)) then PNone
  else of_opt_str (_device_username want).

Definition device_is_address : bool :=
  if is_valid_ip ext (_device want) then true else false.

Definition device_address : pyval :=
  if device_is_address then PStr (_device want) else PNone.

Definition device_port : pyval :=
  if is_None (of_opt_int (_device_port want)) then PNone
  else of_opt_int (_device_port want).

(** [[A-Za-z0-9]{8}-[A-Za-z0-9]{4}-[A-Za-z0-9]{4}-[A-Za-z0-9]{4}-[A-Za-z0-9]{12}] *)
Definition pattern : list (ascii -> bool) :=
  repeat alnum 8 ++ [hyphen] ++ repeat alnum 4 ++ [hyphen] ++ repeat alnum 4
  ++ [hyphen] ++ repeat alnum 4 ++ [hyphen] ++ repeat alnum 12.

Definition device_is_id : bool :=
  if re_match pattern (_device want) then true else false.

Definition device_is_name : bool :=
  if negb device_is_address && negb device_is_id then true else false.

Definition managed : pyval := of_opt_bool (_managed want).

(** [response['code'] == 200 and response['contents']['totalItems'] == 0] *)
Definition no_items (response : response) : result bool :=
  if code response =? 200 then
    totalItems <- subscript (contents response) (IStr "totalItems") ;;
    ret (py_eq_int totalItems 0)
  else ret false.

(** [response['contents']['items'][0][field]] *)
Definition first_item (response : response) (field : string) : result pyval :=
  items <- subscript (contents response) (IStr "items") ;;
  item <- subscript items (IInt 0) ;;
  subscript item (IStr field).

(** What [device_reference] makes of the response to its query. *)
Definition device_reference_of (response : response) : result pyval :=
  if negb (code_in response [200; 201; 202]) then
    Raise (F5ModuleError (contents response))
  else
    empty <- no_items response ;;
    if (empty : bool) then
      Raise (F5ModuleError (PStr "No device with the specified address was found."))
    else
      id <- first_item response "uuid" ;;
      ret (PDict
        [("link", PStr (format
           ["https://localhost/mgmt/shared/resolver/device-groups/cm-bigip-allBigIpDevices/devices/";
            format_field ext id]))]).

(** The [if]/[elif] chain that opens [device_reference]: it picks the
    filter of the device query, or raises. *)
Definition device_reference_filter : result string :=
  if device_is_address then
    (* This range lookup is how you do lookups for single IP addresses. *)
    Ret (format ["address+eq+'"; _device want; "..."; _device want; "'"])
  else if device_is_name then
    Ret (format ["hostname+eq+'"; _device want; "'"])
  else if device_is_id then
    Ret (format ["uuid+eq+'"; _device want; "'"])
  else
    Raise (F5ModuleError
             (PStr (format ["Unknown device format '"; _device want; "'"]))).

Definition device_reference : M pyval :=
  if negb (truthy managed) then ret PNone
  else
    filter <- lift device_reference_filter ;;
    let uri := format
      ["/mgmt/shared/resolver/device-groups/cm-bigip-allBigIpDevices/devices/?$filter=";
       filter; "&$top=1"] in
    response <- client.get devices_query uri ;;
    lift (device_reference_of response).

(** What [offering_id] makes of the response to its query. *)
Definition offering_id_of (response : response) : result pyval :=
  if negb (code_in response [200; 201; 202]) then
    Raise (F5ModuleError (contents response))
  else
    empty <- no_items response ;;
    if (empty : bool) then
      Raise (F5ModuleError (PStr "No offering with the specified name was found."))
    else first_item response "id".

Definition offering_id : M pyval :=
  let filter := format ["(name+eq+'"; _offering want; "')"] in
  let uri := format
    ["/mgmt/cm/device/licensing/pool/utility/licenses/"; _key want;
     "/offerings?$filter="; filter; "&$top=1"] in
  response <- client.get offerings_query uri ;;
  lift (offering_id_of response).

(** What [member_id] makes of the response to its query. *)
Definition member_id_of (response : response) : result pyval :=
  if negb (code_in response [200; 201; 202]) then
    Raise (F5ModuleError (contents response))
  else
    empty <- no_items response ;;
    if (empty : bool) then ret PNone
    else first_item response "id".

(** The [if]/[elif] chain that opens [member_id]. *)
Definition member_id_filter : result string :=
  if device_is_address then
    Ret (format ["deviceAddress+eq+'"; _device want; "..."; _device want; "'"])
  else if device_is_name then
    Ret (format ["deviceName+eq+'"; _device want; "'"])
  else if device_is_id then
    Ret (format ["deviceMachineId+eq+'"; _device want; "'"])
  else
    Raise (F5ModuleError
             (PStr (format ["Unknown device format '"; _device want; "'"]))).

Definition member_id : M pyval :=
  filter <- lift member_id_filter ;;
  offering_id <- offering_id ;;
  let uri := format
    ["/mgmt/cm/device/licensing/pool/utility/licenses/"; _key want;
     "/offerings/"; format_field ext offering_id; "/members/?$filter="; filter] in
  response <- client.get members_query uri ;;
  lift (member_id_of response).

(** [getattr(self.want, name)] for the names of [returnables]; any other
    name reads the arguments' store. *)
Definition getattr (name : string) : M pyval :=
  if String.eqb name "device_address" then ret device_address
  else if String.eqb name "device_reference" then device_reference
  else if String.eqb name "device_username" then ret device_username
  else if String.eqb name "device_password" then ret device_password
  else if String.eqb name "device_port" then ret device_port
  else if String.eqb name "managed" then ret managed
  else if String.eqb name "unit_of_measure" then ret (of_opt_str (_unit_of_measure want))
  else if String.eqb name "key" then ret (PStr (_key want))
  else if String.eqb name "offering" then ret (PStr (_offering want))
  else if String.eqb name "device" then ret (PStr (_device want))
  else if String.eqb name "state" then ret (PStr (_state want))
  else ret PNone.

End Properties.
End ModuleParameters.

(** ** The difference between what is wanted and what is there *)

Module Difference.
Section Compare.

Variable ext : externals.
Variable want : params.

(** [have] is an [ApiParameters]: it has no property of its own, so every
    attribute reads its store, given here. *)
Variable have : dict.

Definition __default (param : string) : M pyval :=
  attr1 <- ModuleParameters.getattr ext want param ;;
  let attr2 := AnsibleF5Parameters.__getattr__ have param in
  if negb (py_eqb attr1 attr2) then ret attr1
  else ret PNone.

(** [compare], for the names of [updatables]: the class has no attribute of
    such a name, so [getattr(self, param)] raises [AttributeError] and the
    answer is that of [__default]. *)
Definition compare (param : string) : M pyval := __default param.

End Compare.
End Difference.

(** ** The manager *)

(** [for x in xs: acc = body x acc] *)
Fixpoint for_each {A S : Type} (xs : list A) (body : A -> S -> M S) (acc : S) : M S :=
  match xs with
  | [] => ret acc
  | x :: xs' => acc' <- body x acc ;; for_each xs' body acc'
  end.

(** The [while count < 3] loop of [wait_for_device_to_be_licensed].  Every
    iteration takes one response, so the loop is defined by recursion on
    the responses to come; it is [Starved] when they run out while [count]
    is still below 3. *)
Fixpoint poll (rq : request) (count : Z) (script : list response)
  : result unit * list exchange * list response :=
  if count <? 3 then
    match script with
    | [] => (Starved, [], [])
    | response :: rest =>
        if negb (code_in response [200; 201; 202]) then
          (Raise (F5ModuleError (contents response)), [(rq, response)], rest)
        else
          match subscript (contents response) (IStr "status") with
          | Ret status =>
              let count' := if py_eq_str status "LICENSED" then count + 1 else 0 in
              let '(r, t, rest') := poll rq count' rest in
              (r, (rq, response) :: t, rest')
          | Raise e => (Raise e, [(rq, response)], rest)
          | Starved => (Starved, [(rq, response)], rest)
          end
    end
  else (Ret tt, [], script).

(** The loop as a computation: it takes its responses from [pending]. *)
Definition polling (rq : request) (count : Z) : M unit := fun s =>
  let '(r, t, rest) := poll rq count (pending s) in
  Ran r t {| pending := rest; changes := changes s |}.

Module ModuleManager.
Section Manager.

Variable ext : externals.
Variable want : params.
Variable check_mode : bool.

Definition _set_changed_options : M unit :=
  changed <-
    for_each Parameters.returnables
      (fun key (changed : dict) =>
         v <- ModuleParameters.getattr ext want key ;;
         if negb (is_None v) then
           v' <- ModuleParameters.getattr ext want key ;;
           ret (dict_set changed key v')
         else ret changed)
      [] ;;
  if truthy (PDict changed) then set_changes (Changes_ (Parameters.new changed))
  else ret tt.

(** [self.have] is given: the manager creates it as an empty
    [ApiParameters] and never assigns it again. *)
Definition _update_changed_options (have : dict) : M bool :=
  let updatables := Parameters.updatables in
  changed <-
    for_each updatables
      (fun k (changed : dict) =>
         change <- Difference.compare ext want have k ;;
         if is_None change then ret changed
         else
           match change with
           | PDict d => ret (dict_update changed d)
           | _ => ret (dict_set changed k change)
           end)
      [] ;;
  if truthy (PDict changed) then
    set_changes (Changes_ (Parameters.new changed)) ;;
    ret true
  else ret false.

Definition should_update (have : dict) : M bool :=
  result <- _update_changed_options have ;;
  if (result : bool) then ret true else ret false.

Definition exists_ : M bool :=
  member_id <- ModuleParameters.member_id ext want ;;
  if is_None member_id then ret false
  else
    offering_id <- ModuleParameters.offering_id want ;;
    member_id <- ModuleParameters.member_id ext want ;;
    let uri := format
      ["/mgmt/cm/device/licensing/pool/utility/licenses/"; _key want;
       "/offerings/"; format_field ext offering_id;
       "/members/"; format_field ext member_id] in
    response <- client.get member_read uri ;;
    if code response =? 404 then ret false
    else if negb (code_in response [200; 201; 202]) then
      raise (F5ModuleError (contents response))
    else ret true.

Definition create_on_device : M bool :=
  changes <- get_changes ;;
  let params := Parameters.api_params (changes_getattr changes) in
  offering_id <- ModuleParameters.offering_id want ;;
  let uri := format
    ["/mgmt/cm/device/licensing/pool/utility/licenses/"; _key want;
     "/offerings/"; format_field ext offering_id; "/members/"] in
  let params :=
    if negb (truthy (ModuleParameters.managed want)) then
      dict_set (dict_set params "username" (ModuleParameters.device_username want))
               "password" (ModuleParameters.device_password want)
    else params in
  response <- client.post members_create uri params ;;
  if negb (code_in response [200; 201; 202]) then
    raise (F5ModuleError (contents response))
  else ret true.

Definition wait_for_device_to_be_licensed : M unit :=
  let count := 0 in
  offering_id <- ModuleParameters.offering_id want ;;
  member_id <- ModuleParameters.member_id ext want ;;
  let uri := format
    ["/mgmt/cm/device/licensing/pool/utility/licenses/"; _key want;
     "/offerings/"; format_field ext offering_id;
     "/members/"; format_field ext member_id] in
  polling {| meth := GET; site := member_poll; uri := uri; data := None |} count.

Definition create : M bool :=
  _set_changed_options ;;
  (if negb (truthy (ModuleParameters.managed want)) then
     if is_None (ModuleParameters.device_username want) then
       raise (F5ModuleError (PStr
         "You must specify a 'device_username' when working with unmanaged devices."))
     else if is_None (ModuleParameters.device_password want) then
       raise (F5ModuleError (PStr
         "You must specify a 'device_password' when working with unmanaged devices."))
     else ret tt
   else ret tt) ;;
  if check_mode then ret true
  else
    create_on_device ;;
    found <- exists_ ;;
    if negb found then
      raise (F5ModuleError (PStr "Failed to license the remote device."))
    else
      wait_for_device_to_be_licensed ;;
      ret true.

Definition present : M bool :=
  found <- exists_ ;;
  if (found : bool) then ret false else create.

Definition remove_from_device : M unit :=
  offering_id <- ModuleParameters.offering_id want ;;
  member_id <- ModuleParameters.member_id ext want ;;
  let uri := format
    ["/mgmt/cm/device/licensing/pool/utility/licenses/"; _key want;
     "/offerings/"; format_field ext offering_id;
     "/members/"; format_field ext member_id] in
  params <-
    (if negb (truthy (ModuleParameters.managed want)) then
       changes <- get_changes ;;
       let params := dict_update [] (Parameters.api_params (changes_getattr changes)) in
       member_id <- ModuleParameters.member_id ext want ;;
       let params := dict_set params "id" member_id in
       let params := dict_set params "username" (ModuleParameters.device_username want) in
       let params := dict_set params "password" (ModuleParameters.device_password want) in
       ret params
     else ret []) ;;
  client.delete member_delete uri params ;;
  ret tt.

Definition remove : M bool :=
  _set_changed_options ;;
  if check_mode then ret true
  else
    remove_from_device ;;
    found <- exists_ ;;
    if (found : bool) then
      raise (F5ModuleError (PStr "Failed to delete the resource."))
    else ret true.

Definition absent : M bool :=
  found <- exists_ ;;
  if (found : bool) then remove else ret false.

(** [result.pop('__warnings', [])]; the result never holds that key, so no
    deprecation is announced. *)
Definition _announce_deprecations (result : dict) : dict :=
  dict_pop result "__warnings".

Definition exec_module : M dict :=
  let state := _state want in
  changed <-
    (if String.eqb state "present" then present
     else if String.eqb state "absent" then absent
     else ret false) ;;
  changes <- get_changes ;;
  let reportable := Parameters.new (Parameters.to_return (changes_getattr changes)) in
  let changes := Parameters.to_return (Changes.getattr reportable) in
  let result := dict_update [] changes in
  let result := dict_update result [("changed", PBool changed)] in
  ret (_announce_deprecations result).

End Manager.

(** [ModuleManager(module=..., connection=...)]: [changes] starts as an empty
    [UsableChanges]; [script] is what the BIG-IQ will answer. *)
Definition init (script : list response) : mstate :=
  {| pending := script; changes := UsableChanges_ [] |}.

End ModuleManager.

Arguments ModuleParameters.offering_id_of : simpl never.
Arguments ModuleParameters.member_id_of : simpl never.
Arguments ModuleParameters.device_reference_of : simpl never.
Arguments ModuleParameters.member_id_filter : simpl never.
Arguments ModuleParameters.device_reference_filter : simpl never.

(** * Vocabulary of the statements *)



(** The body of a request holds a value under [name]. *)
Definition holds (body : dict) (name : string) : bool :=
  match dict_get body name with
  | Some v => negb (is_None v)
  | None => false
  end.

(** The two field groups in a body sent to the API, under the names of
    [api_map]: the managed group is the device reference, the unmanaged
    group is the address, port and credentials of the device. *)
Definition managed_group_sent (body : dict) : bool :=
  holds body "deviceReference".

Definition unmanaged_group_sent (body : dict) : bool :=
  holds body "deviceAddress" || holds body "httpsPort"
  || holds body "username" || holds body "password".

(** The bodies of the POST requests of a trace. *)
Definition posted (t : list exchange) : list (option dict) :=
  map (fun x : exchange => data (fst x))
      (filter (fun x : exchange => match meth (fst x) with POST => true | _ => false end) t).

(** The two field groups as the properties of [UsableChanges] read them:
    the managed group is the device reference, the unmanaged group is the
    address, port and credentials of the device. *)
Definition managed_group_populated (_values : dict) : bool :=
  negb (is_None (UsableChanges.device_reference _values)).

Definition unmanaged_group_populated (_values : dict) : bool :=
  negb (is_None (UsableChanges.device_port _values))
  || negb (is_None (UsableChanges.device_username _values))
  || negb (is_None (UsableChanges.device_password _values))
  || negb (is_None (UsableChanges.device_address _values)).

(** Every exchange of a computation satisfies [P], from whatever state it
    is run. *)
Definition only (P : exchange -> Prop) {A : Type} (m : M A) : Prop :=
  forall s, Forall P (trace (m s)).

(** An exchange that [stops] relates to an exception ends the computation
    with that exception, from whatever state it is run: it is the last
    exchange of the trace and the exception is the result. *)
Definition halts_on (stops : exchange -> exn -> Prop) {A : Type} (m : M A) : Prop :=
  forall s x e, In x (trace (m s)) -> stops x e ->
    res (m s) = Raise e /\ exists before, trace (m s) = before ++ [x].

Definition is_get (x : exchange) : Prop := meth (fst x) = GET.

(** A query answered 200 with [totalItems == 0]. *)
Definition empty_result (r : response) : Prop :=
  code r = 200
  /\ exists total, subscript (contents r) (IStr "totalItems") = Ret total
                   /\ py_eq_int total 0 = true.

Definition no_offering : exn :=
  F5ModuleError (PStr "No offering with the specified name was found.").

(** The offerings query came back empty. *)
Definition offering_missing (x : exchange) (e : exn) : Prop :=
  site (fst x) = offerings_query /\ empty_result (snd x) /\ e = no_offering.

(** What a run shows once the text of its requests is set aside: for each
    exchange the method, the place in the module that made the call, and the
    response. *)
Definition event : Type := (method * call_site * response)%type.

Definition erase (x : exchange) : event := (meth (fst x), site (fst x), snd x).

Definition observation (A : Type) : Type := (result A * list event * mstate)%type.

Definition observe {A : Type} (r : ran A) : observation A :=
  (res r, map erase (trace r), final r).

(** Sequencing, on observations. *)
Definition then_observe {A B : Type} (o : observation A)
    (k : A -> mstate -> observation B) : observation B :=
  match o with
  | (Ret a, t, s1) => let '(r, t', s2) := k a s1 in (r, t ++ t', s2)
  | (Raise e, t, s1) => (Raise e, t, s1)
  | (Starved, t, s1) => (Starved, t, s1)
  end.

(** A lookup that yields something. *)
Definition found (lookup : response -> result pyval) (r : response) : Prop :=
  exists id, lookup r = Ret id.

(** The five lookups [exists] makes before it reads the member: the offering
    and the member for the test [member_id is None], which has to find a
    member, then the offering, and the offering and the member again, for
    the URI. *)
Definition lookups_succeed (r1 r2 r3 r4 r5 : response) : Prop :=
  found ModuleParameters.offering_id_of r1
  /\ (exists member_id, ModuleParameters.member_id_of r2 = Ret member_id
                        /\ is_None member_id = false)
  /\ found ModuleParameters.offering_id_of r3
  /\ found ModuleParameters.offering_id_of r4
  /\ found ModuleParameters.member_id_of r5.

(** The six GETs of an [exists] that reads the member. *)
Definition exists_events (r1 r2 r3 r4 r5 r6 : response) : list event :=
  [ (GET, offerings_query, r1); (GET, members_query, r2);
    (GET, offerings_query, r3);
    (GET, offerings_query, r4); (GET, members_query, r5);
    (GET, member_read, r6) ].

(** The two ways the responses can say that no assignment exists: the
    member query comes back empty (200 with [totalItems == 0]), or the member
    is looked up and reading it answers 404.  [not_assigned script events
    rest] also names the calls the check makes and the responses left. *)
Inductive not_assigned : list response -> list event -> list response -> Prop :=
| no_member_found r1 r2 rest :
    found ModuleParameters.offering_id_of r1 ->
    empty_result r2 ->
    not_assigned (r1 :: r2 :: rest)
                 [(GET, offerings_query, r1); (GET, members_query, r2)] rest
| member_gone r1 r2 r3 r4 r5 r6 rest :
    lookups_succeed r1 r2 r3 r4 r5 ->
    code r6 = 404 ->
    not_assigned (r1 :: r2 :: r3 :: r4 :: r5 :: r6 :: rest)
                 (exists_events r1 r2 r3 r4 r5 r6) rest.

(** A computation that makes no request and returns: all it may do is
    replace the manager's change set. *)
Definition quiet {A : Type} (m : M A) : Prop :=
  forall s, exists a c,
    m s = Ran (Ret a) [] {| pending := pending s; changes := c |}.

(** The error [create] raises for an unmanaged device without credentials:
    the username is checked first. *)
Definition missing_credentials (want : params) : exn :=
  if is_None (ModuleParameters.device_username want) then
    F5ModuleError (PStr
      "You must specify a 'device_username' when working with unmanaged devices.")
  else
    F5ModuleError (PStr
      "You must specify a 'device_password' when working with unmanaged devices.").

(** The status field of a polled member reads "LICENSED". *)
Definition licensed (r : response) : bool :=
  match subscript (contents r) (IStr "status") with
  | Ret status => py_eq_str status "LICENSED"
  | _ => false
  end.

(** A polling response the loop accepts: its code is 200, 201 or 202 and
    its contents have a status field. *)
Definition poll_ok (r : response) : Prop :=
  code_in r [200; 201; 202] = true
  /\ exists status, subscript (contents r) (IStr "status") = Ret status.

(** Positions [i], [i+1] and [i+2] of a list of flags are all set. *)
Definition streak3 (flags : list bool) (i : nat) : bool :=
  nth i flags false && nth (S i) flags false && nth (S (S i)) flags false.

(** Polls [i], [i+1] and [i+2] (counting from 0) all read "LICENSED". *)
Definition three_licensed_from (polls : list response) (i : nat) : bool :=
  streak3 (map licensed polls) i.

(** An answer to a GET or a POST with a code the module does not accept:
    any code other than 200, 201 and 202, except for the 404 by which reading
    the member in [exists] says that there is no assignment.  The module
    raises the contents of such an answer. *)
Definition unaccepted (x : exchange) (e : exn) : Prop :=
  meth (fst x) <> DELETE
  /\ code_in (snd x) [200; 201; 202] = false
  /\ ~ (site (fst x) = member_read /\ code (snd x) = 404)
  /\ e = F5ModuleError (contents (snd x)).

(** A request that changes something on the BIG-IQ. *)
Definition mutating (x : exchange) : bool :=
  match meth (fst x) with
  | GET => false
  | POST | DELETE => true
  end.

(** A computation makes at most [n] mutating requests, from whatever state
    it is run. *)
Definition bounded (n : nat) {A : Type} (m : M A) : Prop :=
  forall s, (List.length (filter mutating (trace (m s))) <= n)%nat.

(** A computation leaves the manager's change set as it found it. *)
Definition frames {A : Type} (m : M A) : Prop :=
  forall s, changes (final (m s)) = changes s.

(** The two halves of [exec_module]: [reconcile] is the call of [present]
    or [absent] that its [state] selects, [report_of] is the result it builds
    from the change set and from what that call returned. *)
Definition reconcile (ext : externals) (want : params) (check_mode : bool) : M bool :=
  if String.eqb (_state want) "present" then ModuleManager.present ext want check_mode
  else if String.eqb (_state want) "absent" then ModuleManager.absent ext want check_mode
  else ret false.

Definition report_of (changes : changes_obj) (changed : bool) : dict :=
  let reportable := Parameters.new (Parameters.to_return (changes_getattr changes)) in
  let changes := Parameters.to_return (Changes.getattr reportable) in
  let result := dict_update [] changes in
  let result := dict_update result [("changed", PBool changed)] in
  ModuleManager._announce_deprecations result.

(** The arguments a change set is made of, with the device reference that
    was looked up ([None] when there is none): the [returnables] that are not
    [None], in the order of [returnables]. *)
Definition wanted (ext : externals) (want : params) (device_reference : pyval) : dict :=
  AnsibleF5Parameters._filter_params
    [ ("device_address", ModuleParameters.device_address ext want);
      ("device_reference", device_reference);
      ("device_username", ModuleParameters.device_username want);
      ("device_password", ModuleParameters.device_password want);
      ("device_port", ModuleParameters.device_port want);
      ("managed", ModuleParameters.managed want);
      ("unit_of_measure", of_opt_str (_unit_of_measure want)) ].

(** The change set [_set_changed_options] leaves for an unmanaged device,
    when it found [changes]. *)
Definition changes_of_unmanaged (ext : externals) (want : params)
    (changes : changes_obj) : changes_obj :=
  if truthy (PDict (wanted ext want PNone)) then Changes_ (wanted ext want PNone)
  else changes.

(** The lookups [remove_from_device] makes for an unmanaged device: the
    offering, and the offering and the member, for the URI; the offering and
    the member again for the ['id'] of the body. *)
Definition removal_lookups (o1 o2 m2 o3 m3 : response) : Prop :=
  found ModuleParameters.offering_id_of o1
  /\ found ModuleParameters.offering_id_of o2
  /\ found ModuleParameters.member_id_of m2
  /\ found ModuleParameters.offering_id_of o3
  /\ found ModuleParameters.member_id_of m3.

(** The calls of [remove_from_device] for an unmanaged device; [d] is the
    answer to the DELETE. *)
Definition removal_events (o1 o2 m2 o3 m3 d : response) : list event :=
  [ (GET, offerings_query, o1);
    (GET, offerings_query, o2); (GET, members_query, m2);
    (GET, offerings_query, o3); (GET, members_query, m3);
    (DELETE, member_delete, d) ].

(** The calls of [create_on_device]; [p] is the answer to the POST. *)
Definition creation_events (o p : response) : list event :=
  [ (GET, offerings_query, o); (POST, members_create, p) ].

(** The calls of [wait_for_device_to_be_licensed]: three lookups for the
    URI, then the polls. *)
Definition waiting_events (l1 l2 l3 : response) (polls : list response) : list event :=
  [ (GET, offerings_query, l1); (GET, offerings_query, l2); (GET, members_query, l3) ]
  ++ map (fun r => (GET, member_poll, r)) polls.

(** The arguments of an unmanaged device that are given and differ from
    what [have] holds under their name. *)
Definition differing (ext : externals) (want : params) (have : dict) : dict :=
  filter (fun kv => negb (py_eqb (snd kv) (AnsibleF5Parameters.__getattr__ have (fst kv))))
         (wanted ext want PNone).

(** * Sample arguments and responses *)

(** Accepts dotted quads of single digits, which is all the examples need. *)
Definition sample_is_valid_ip (s : string) : bool :=
  match s with
  | String a (String "." (String b (String "." (String c (String "." (String d "")))))) =>
      forallb (fun x => (48 <=? Z.of_nat (nat_of_ascii x)) && (Z.of_nat (nat_of_ascii x) <=? 57))
              [a; b; c; d]
  | _ => false
  end.

Definition sample_ext : externals :=
  {| is_valid_ip := sample_is_valid_ip; str := fun _ => "<object>" |}.

(** The first of the module's EXAMPLES: an unmanaged device. *)
Definition unmanaged_want : params :=
  {| _key := "XXXX-XXXX-XXXX-XXXX-XXXX";
     _offering := "F5-BIG-MSP-AFM-10G-LIC";
     _device := "1.1.1.1";
     _managed := Some false;
     _device_port := Some 443;
     _device_username := Some "admin";
     _device_password := Some "secret";
     _unit_of_measure := Some "hourly";
     _state := "present" |}.

(** The third of the EXAMPLES: a managed device, by UUID. *)
Definition managed_want : params :=
  {| _key := "XXXX-XXXX-XXXX-XXXX-XXXX";
     _offering := "F5-BIG-MSP-AFM-10G-LIC";
     _device := "7141a063-7cf8-423f-9829-9d40599fa3e0";
     _managed := Some true;
     _device_port := Some 443;
     _device_username := None;
     _device_password := None;
     _unit_of_measure := Some "hourly";
     _state := "present" |}.

(** A query answered with one item. *)
Definition found_response (id : string) : response :=
  {| code := 200;
     contents := PDict
       [("totalItems", PInt 1);
        ("items", PList [PDict [("id", PStr id); ("uuid", PStr id)]])] |}.

(** A query answered with no item. *)
Definition empty_response : response :=
  {| code := 200;
     contents := PDict [("totalItems", PInt 0); ("items", PList [])] |}.

(** A member record with the given licensing status. *)
Definition member_response (status : string) : response :=
  {| code := 200; contents := PDict [("status", PStr status)] |}.

(** An answer with nothing but a code and a text. *)
Definition plain_response (code : Z) (text : string) : response :=
  {| code := code; contents := PStr text |}.

(** The first example again, with [state=absent]. *)
Definition unmanaged_absent : params :=
  {| _key := "XXXX-XXXX-XXXX-XXXX-XXXX";
     _offering := "F5-BIG-MSP-AFM-10G-LIC";
     _device := "1.1.1.1";
     _managed := Some false;
     _device_port := Some 443;
     _device_username := Some "admin";
     _device_password := Some "secret";
     _unit_of_measure := Some "hourly";
     _state := "absent" |}.

(** The first example without its credentials. *)
Definition unmanaged_no_credentials : params :=
  {| _key := "XXXX-XXXX-XXXX-XXXX-XXXX";
     _offering := "F5-BIG-MSP-AFM-10G-LIC";
     _device := "1.1.1.1";
     _managed := Some false;
     _device_port := Some 443;
     _device_username := None;
     _device_password := None;
     _unit_of_measure := Some "hourly";
     _state := "present" |}.

(** The third example again, with [state=absent]. *)
Definition managed_absent : params :=
  {| _key := "XXXX-XXXX-XXXX-XXXX-XXXX";
     _offering := "F5-BIG-MSP-AFM-10G-LIC";
     _device := "7141a063-7cf8-423f-9829-9d40599fa3e0";
     _managed := Some true;
     _device_port := Some 443;
     _device_username := None;
     _device_password := None;
     _unit_of_measure := Some "hourly";
     _state := "absent" |}.

(** A managed device given by its address. *)
Definition managed_by_address : params :=
  {| _key := "XXXX-XXXX-XXXX-XXXX-XXXX";
     _offering := "F5-BIG-MSP-AFM-10G-LIC";
     _device := "1.1.1.1";
     _managed := Some true;
     _device_port := Some 443;
     _device_username := None;
     _device_password := None;
     _unit_of_measure := Some "hourly";
     _state := "present" |}.

(** The BIG-IQ has the assignment, refuses to delete it with a 500, and
    afterwards no longer lists the member. *)
Definition failed_delete_script : list response :=
  [ (* absent: exists *)
    found_response "offering"; found_response "member";
    found_response "offering";
    found_response "offering"; found_response "member";
    member_response "LICENSED";
    (* remove: _set_changed_options reads device_reference twice *)
    found_response "device"; found_response "device";
    (* remove_from_device *)
    found_response "offering";
    found_response "offering"; found_response "member";
    plain_response 500 "Internal Server Error";
    (* remove: exists *)
    found_response "offering"; empty_response ].

(** The BIG-IQ knows the offering and the device, has no assignment for the
    device yet, accepts the POST and reports the member as licensed from the
    first poll on. *)
Definition managed_create_script : list response :=
  [ (* present: exists *)
    found_response "offering"; empty_response;
    (* create: _set_changed_options reads device_reference twice *)
    found_response "device"; found_response "device";
    (* create_on_device *)
    found_response "offering"; plain_response 200 "OK";
    (* create: exists *)
    found_response "offering"; found_response "member";
    found_response "offering";
    found_response "offering"; found_response "member";
    member_response "LICENSED";
    (* wait_for_device_to_be_licensed *)
    found_response "offering"; found_response "offering"; found_response "member";
    member_response "LICENSED"; member_response "LICENSED";
    member_response "LICENSED" ].

(** The three lookups [wait_for_device_to_be_licensed] makes for its URI. *)
Definition wait_lookups : list response :=
  [found_response "offering"; found_response "offering"; found_response "member"].

(** * Properties *)

(** ** Device classification *)

Section Classification.

Variable ext : externals.
Variable want : params.

Lemma device_is_name_def :
  ModuleParameters.device_is_name ext want
  = negb (ModuleParameters.device_is_address ext want)
    && negb (ModuleParameters.device_is_id want).
Proof.
  unfold ModuleParameters.device_is_name.
  now destruct (negb _ && negb _).
Qed.

Lemma device_reference_filter_total :
  exists f, ModuleParameters.device_reference_filter ext want = Ret f.
Proof.
  unfold ModuleParameters.device_reference_filter.
  rewrite device_is_name_def.
  destruct (ModuleParameters.device_is_address ext want); [eauto|].
  destruct (ModuleParameters.device_is_id want); simpl; eauto.
Qed.

Lemma member_id_filter_total :
  exists f, ModuleParameters.member_id_filter ext want = Ret f.
Proof.
  unfold ModuleParameters.member_id_filter.
  rewrite device_is_name_def.
  destruct (ModuleParameters.device_is_address ext want); [eauto|].
  destruct (ModuleParameters.device_is_id want); simpl; eauto.
Qed.

End Classification.

(** What the pattern makes of the device string: a string that matches
    has, at each position of the pattern, a character of the class the
    pattern has there. *)
Lemma re_match_position pattern : forall s n cls,
  re_match pattern s = true -> nth_error pattern n = Some cls ->
  exists c, string_nth s n = Some c /\ cls c = true.
Proof.
  induction pattern as [|cls0 pattern IH]; intros s n cls.
  - destruct n; discriminate.
  - destruct s as [|c s]; simpl; [discriminate|].
    intros H. apply andb_true_iff in H. destruct H as [Hc Hs].
    destruct n as [|n]; simpl.
    + intros Hn. inversion Hn; subst. eauto.
    + intros Hn. now apply IH.
Qed.







(** ** The field groups of a change set *)

(** What the properties of [UsableChanges] are there for: read through
    them, a change set never shows both groups.  When [managed] is truthy
    the port, username, password and address of the device read [None],
    when it is falsy the device reference reads [None]. *)
Lemma usable_changes_groups_exclusive (_values : dict) :
  (if truthy (AnsibleF5Parameters.__getattr__ _values "managed") then
     UsableChanges.device_port _values = PNone
     /\ UsableChanges.device_username _values = PNone
     /\ UsableChanges.device_password _values = PNone
     /\ UsableChanges.device_address _values = PNone
     /\ UsableChanges.device_reference _values
        = AnsibleF5Parameters.__getattr__ _values "device_reference"
   else UsableChanges.device_reference _values = PNone)
  /\ managed_group_populated _values && unmanaged_group_populated _values = false.
Proof.
  unfold managed_group_populated, unmanaged_group_populated,
    UsableChanges.device_port, UsableChanges.device_username,
    UsableChanges.device_password, UsableChanges.device_address,
    UsableChanges.device_reference.
  destruct (truthy (AnsibleF5Parameters.__getattr__ _values "managed")); simpl.
  - rewrite andb_false_r. repeat split; reflexivity.
  - split; reflexivity.
Qed.

(** The empty [UsableChanges] a manager starts with shows neither group,
    and neither does one that only says the device is managed. *)
Lemma usable_changes_neither_group :
  xorb (managed_group_populated []) (unmanaged_group_populated []) = false
  /\ xorb (managed_group_populated [("managed", PBool true)])
          (unmanaged_group_populated [("managed", PBool true)]) = false.
Proof. split; reflexivity. Qed.

(** The same for a managed device given by its address: the body of the
    POST carries the device reference together with the address and the
    port. *)
Lemma posted_body_of_managed_address :
  map (fun x : exchange => data (fst x))
    (filter (fun x : exchange => match meth (fst x) with POST => true | _ => false end)
       (trace (ModuleManager.exec_module sample_ext managed_by_address false
                 (ModuleManager.init
                    [found_response "offering"; empty_response;
                     found_response "device"; found_response "device";
                     found_response "offering"; plain_response 200 "OK"]))))
  = [Some
       [("deviceReference", PDict [("link", PStr
           "https://localhost/mgmt/shared/resolver/device-groups/cm-bigip-allBigIpDevices/devices/device")]);
        ("deviceAddress", PStr "1.1.1.1");
        ("httpsPort", PInt 443);
        ("managed", PBool true);
        ("unitOfMeasure", PStr "hourly")]].
Proof. reflexivity. Qed.

(** C8 at its failing input, the module's own example of a managed device
    given by its UUID.  The manager is created with a [UsableChanges], but
    [_set_changed_options] replaces it by a plain [Changes], which reads its
    values as they are stored.  The run licenses the device and reports
    [changed=True]; the one body it POSTs holds the device reference, of the
    managed group, together with the port, of the unmanaged group.  Read
    through [UsableChanges], the same values give a body with the managed
    group alone. *)
Theorem sent_change_set_holds_both_groups :
  let run := ModuleManager.exec_module sample_ext managed_want false
               (ModuleManager.init managed_create_script) in
  let reference := PDict [("link", PStr
        "https://localhost/mgmt/shared/resolver/device-groups/cm-bigip-allBigIpDevices/devices/device")] in
  let stored := [("device_reference", reference); ("device_port", PInt 443);
                 ("managed", PBool true); ("unit_of_measure", PStr "hourly")] in
  let body := [("deviceReference", reference); ("httpsPort", PInt 443);
               ("managed", PBool true); ("unitOfMeasure", PStr "hourly")] in
  res run = Ret (stored ++ [("changed", PBool true)])
  /\ changes (final run) = Changes_ stored
  /\ posted (trace run) = [Some body]
  /\ body = Parameters.api_params (changes_getattr (Changes_ stored))
  /\ managed_group_sent body = true
  /\ unmanaged_group_sent body = true
  /\ Parameters.api_params (changes_getattr (UsableChanges_ stored))
     = [("deviceReference", reference); ("unitOfMeasure", PStr "hourly")]
  /\ unmanaged_group_sent
       (Parameters.api_params (changes_getattr (UsableChanges_ stored))) = false.
Proof. cbv zeta. repeat split; vm_compute; reflexivity. Qed.

(** ** Reasoning about traces *)

Section Traces.

Variable P : exchange -> Prop.

Lemma only_ret {A} (a : A) : only P (ret a : M A).
Proof. intros s. constructor. Qed.

Lemma only_raise {A} (e : exn) : only P (raise e : M A).
Proof. intros s. constructor. Qed.

Lemma only_lift {A} (r : result A) : only P (lift r).
Proof. intros s. constructor. Qed.

Lemma only_get_changes : only P get_changes.
Proof. intros s. constructor. Qed.

Lemma only_set_changes c : only P (set_changes c).
Proof. intros s. constructor. Qed.

Lemma only_send rq : (forall r, P (rq, r)) -> only P (send rq).
Proof.
  intros H s. unfold send. destruct (pending s); simpl; auto.
Qed.

Lemma only_bind {A B} (c : M A) (f : A -> M B) :
  only P c -> (forall a, only P (f a)) -> only P (x <- c ;; f x).
Proof.
  intros Hc Hf s. simpl. unfold M_bind.
  specialize (Hc s). destruct (c s) as [[a|e|] t s1]; simpl in *; auto.
  specialize (Hf a s1). destruct (f a s1) as [r t' s2]; simpl in *.
  apply Forall_app; auto.
Qed.

Lemma only_for_each {A S} (xs : list A) (body : A -> S -> M S) :
  (forall x acc, only P (body x acc)) -> forall acc, only P (for_each xs body acc).
Proof.
  intros Hb. induction xs as [|x xs IH]; intros acc; simpl for_each.
  - apply only_ret.
  - apply only_bind; auto.
Qed.

Lemma poll_trace rq : (forall r, P (rq, r)) ->
  forall script count, Forall P (snd (fst (poll rq count script))).
Proof.
  intros H. induction script as [|r rest IH]; intros count; simpl.
  - destruct (count <? 3); constructor.
  - destruct (count <? 3); [|constructor].
    destruct (negb (code_in r [200; 201; 202])); simpl; auto.
    destruct (subscript (contents r) (IStr "status")) as [status|e|]; simpl; auto.
    specialize (IH (if py_eq_str status "LICENSED" then count + 1 else 0)).
    destruct (poll rq _ rest) as [[r' t] rest']; simpl in *. auto.
Qed.

End Traces.

Section Halting.

Variable stops : exchange -> exn -> Prop.

Lemma halts_silent {A} (m : M A) : (forall s, trace (m s) = []) -> halts_on stops m.
Proof. intros H s x e Hin. rewrite H in Hin. destruct Hin. Qed.

Lemma halts_bind {A B} (c : M A) (f : A -> M B) :
  halts_on stops c -> (forall a, halts_on stops (f a)) ->
  halts_on stops (x <- c ;; f x).
Proof.
  intros Hc Hf s x e. simpl. unfold M_bind.
  specialize (Hc s x e). destruct (c s) as [[a|e'|] t s1]; simpl in *;
    try (intros Hin Hstop; destruct (Hc Hin Hstop) as [Hr Ht];
         split; [now inversion Hr | exact Ht]).
  specialize (Hf a s1 x e). destruct (f a s1) as [r t' s2]; simpl in *.
  intros Hin Hstop. apply in_app_or in Hin. destruct Hin as [Hin|Hin].
  - destruct (Hc Hin Hstop) as [Habs _]. discriminate Habs.
  - destruct (Hf Hin Hstop) as [Hr [before Ht]]. split; [exact Hr|].
    exists (t ++ before). rewrite Ht. apply app_assoc.
Qed.

(** A request whose answer is checked at once. *)
Lemma halts_send {B} rq (k : response -> M B) :
  (forall r e s, stops (rq, r) e -> k r s = Ran (Raise e) [] s) ->
  (forall r, halts_on stops (k r)) ->
  halts_on stops (r <- send rq ;; k r).
Proof.
  intros Hk Hh s x e. simpl. unfold M_bind, send.
  destruct (pending s) as [|r rest]; simpl; [intros []|].
  specialize (Hh r {| pending := rest; changes := changes s |} x e).
  destruct (k r _) as [r' t' s2] eqn:Ek; simpl in *.
  intros [Hx|Hin] Hstop.
  - subst x. rewrite (Hk _ _ _ Hstop) in Ek. inversion Ek; subst.
    split; [reflexivity|]. exists []. reflexivity.
  - destruct (Hh Hin Hstop) as [Hr [before Ht]]. split; [exact Hr|].
    exists ((rq, r) :: before). rewrite Ht. reflexivity.
Qed.

Lemma halts_for_each {A S} (xs : list A) (body : A -> S -> M S) :
  (forall x acc, halts_on stops (body x acc)) ->
  forall acc, halts_on stops (for_each xs body acc).
Proof.
  intros Hb. induction xs as [|x xs IH]; intros acc; simpl for_each.
  - now apply halts_silent.
  - apply halts_bind; auto.
Qed.

End Halting.

Lemma halts_of_only (stops : exchange -> exn -> Prop) (P : exchange -> Prop)
    {A} (m : M A) :
  (forall x e, P x -> stops x e -> False) -> only P m -> halts_on stops m.
Proof.
  intros Hno Hm s x e Hin Hstop. exfalso.
  specialize (Hm s). rewrite Forall_forall in Hm. eauto.
Qed.

Lemma only_polling (P : exchange -> Prop) rq count :
  (forall r, P (rq, r)) -> only P (polling rq count).
Proof.
  intros H s. unfold polling.
  pose proof (poll_trace P rq H (pending s) count) as Ht.
  destruct (poll rq count (pending s)) as [[r t] rest]. exact Ht.
Qed.

Ltac only_step :=
  match goal with
  | |- only _ (bind _ _) => apply only_bind; [|intros ?]
  | |- only _ (ret _) => apply only_ret
  | |- only _ (raise _) => apply only_raise
  | |- only _ (lift _) => apply only_lift
  | |- only _ get_changes => apply only_get_changes
  | |- only _ (set_changes _) => apply only_set_changes
  | |- only _ (client.get _ _) => apply only_send; intros ?; reflexivity
  | |- only _ (for_each _ _ _) => apply only_for_each; intros ? ?
  | |- only _ (if ?b then _ else _) => destruct b
  | |- only _ (polling _ _) => apply only_polling; intros ?; reflexivity
  end.

(** ** The lookups and the existence check only read *)

Section ReadOnly.

Variable ext : externals.
Variable want : params.

Lemma only_get_offering_id : only is_get (ModuleParameters.offering_id want).
Proof. unfold ModuleParameters.offering_id. repeat only_step. Qed.

Lemma only_get_member_id : only is_get (ModuleParameters.member_id ext want).
Proof.
  unfold ModuleParameters.member_id.
  repeat (only_step || apply only_get_offering_id).
Qed.

Lemma only_get_device_reference :
  only is_get (ModuleParameters.device_reference ext want).
Proof. unfold ModuleParameters.device_reference. repeat only_step. Qed.

Lemma only_get_getattr name : only is_get (ModuleParameters.getattr ext want name).
Proof.
  unfold ModuleParameters.getattr.
  repeat (only_step || apply only_get_device_reference).
Qed.

Lemma only_get__set_changed_options :
  only is_get (ModuleManager._set_changed_options ext want).
Proof.
  unfold ModuleManager._set_changed_options.
  repeat (only_step || apply only_get_getattr).
Qed.

Lemma only_get_exists : only is_get (ModuleManager.exists_ ext want).
Proof.
  unfold ModuleManager.exists_.
  repeat (only_step || apply only_get_offering_id || apply only_get_member_id).
Qed.

Lemma only_get_wait :
  only is_get (ModuleManager.wait_for_device_to_be_licensed ext want).
Proof.
  unfold ModuleManager.wait_for_device_to_be_licensed.
  repeat (only_step || apply only_get_offering_id || apply only_get_member_id).
Qed.

Lemma only_get_create_check_mode : only is_get (ModuleManager.create ext want true).
Proof.
  unfold ModuleManager.create.
  repeat (only_step || apply only_get__set_changed_options).
Qed.

Lemma only_get_remove_check_mode : only is_get (ModuleManager.remove ext want true).
Proof.
  unfold ModuleManager.remove.
  repeat (only_step || apply only_get__set_changed_options).
Qed.

Lemma only_get_exec_module_check_mode :
  only is_get (ModuleManager.exec_module ext want true).
Proof.
  unfold ModuleManager.exec_module, ModuleManager.present, ModuleManager.absent.
  repeat (only_step || apply only_get_exists
          || apply only_get_create_check_mode || apply only_get_remove_check_mode).
Qed.

End ReadOnly.

Lemma never_false_bind {A} (c : M A) (f : A -> M bool) :
  (forall a s, res (f a s) <> Ret false) ->
  forall s, res ((x <- c ;; f x) s) <> Ret false.
Proof.
  intros Hf s. simpl. unfold M_bind.
  destruct (c s) as [[a|e|] t s1]; simpl; try discriminate.
  specialize (Hf a s1). destruct (f a s1) as [r t' s2]. exact Hf.
Qed.

(** C7. In check mode no mutating call is ever issued: every request of a
    run of [exec_module] is a GET, and so is every request of [create] and
    of [remove], which return [True] (they never return [False]) without
    reaching [create_on_device] or [remove_from_device]. *)
Theorem check_mode_issues_no_mutating_call
    (ext : externals) (want : params) (s : mstate) :
  Forall is_get (trace (ModuleManager.exec_module ext want true s))
  /\ Forall is_get (trace (ModuleManager.create ext want true s))
  /\ Forall is_get (trace (ModuleManager.remove ext want true s))
  /\ res (ModuleManager.create ext want true s) <> Ret false
  /\ res (ModuleManager.remove ext want true s) <> Ret false.
Proof.
  split; [apply only_get_exec_module_check_mode|].
  split; [apply only_get_create_check_mode|].
  split; [apply only_get_remove_check_mode|].
  split.
  - unfold ModuleManager.create.
    apply never_false_bind; intros _ s1.
    apply never_false_bind; intros _ s2. discriminate.
  - unfold ModuleManager.remove.
    apply never_false_bind; intros _ s1. discriminate.
Qed.

(** ** Responses that end a run *)

Ltac halts_step :=
  match goal with
  | |- halts_on _ (bind _ _) => apply halts_bind; [|intros ?]
  | |- halts_on _ (ret _) => apply halts_silent; reflexivity
  | |- halts_on _ (raise _) => apply halts_silent; reflexivity
  | |- halts_on _ (lift _) => apply halts_silent; reflexivity
  | |- halts_on _ get_changes => apply halts_silent; reflexivity
  | |- halts_on _ (set_changes _) => apply halts_silent; reflexivity
  | |- halts_on _ (for_each _ _ _) => apply halts_for_each; intros ? ?
  | |- halts_on _ (if ?b then _ else _) => destruct b
  end.

(** The module checks the answer to a request right after it made the
    request.  This section follows a relation [stops] through the whole
    module, given what the checks do with a response it relates to an
    exception: a lookup raises that exception, [exists], [create_on_device]
    and the polling loop reject the code and raise the contents, and the
    exchange is not the DELETE of [remove_from_device], whose answer nobody
    looks at. *)
Section Discipline.

Variable stops : exchange -> exn -> Prop.

Hypothesis stops_offerings_query : forall rq r e,
  stops (rq, r) e -> site rq = offerings_query ->
  ModuleParameters.offering_id_of r = Raise e.

Hypothesis stops_members_query : forall rq r e,
  stops (rq, r) e -> site rq = members_query ->
  ModuleParameters.member_id_of r = Raise e.

Hypothesis stops_devices_query : forall ext rq r e,
  stops (rq, r) e -> site rq = devices_query ->
  ModuleParameters.device_reference_of ext r = Raise e.

Hypothesis stops_member_read : forall rq r e,
  stops (rq, r) e -> site rq = member_read ->
  (code r =? 404) = false /\ code_in r [200; 201; 202] = false
  /\ e = F5ModuleError (contents r).

Hypothesis stops_checked : forall rq r e,
  stops (rq, r) e -> site rq = members_create \/ site rq = member_poll ->
  code_in r [200; 201; 202] = false /\ e = F5ModuleError (contents r).

Hypothesis stops_delete : forall rq r e,
  stops (rq, r) e -> meth rq = DELETE -> site rq = member_delete -> False.

Variable ext : externals.
Variable want : params.
Variable check_mode : bool.

Lemma halts_offering_id : halts_on stops (ModuleParameters.offering_id want).
Proof.
  unfold ModuleParameters.offering_id. apply halts_send.
  - intros r e s Hstop. unfold lift.
    now rewrite (stops_offerings_query _ _ _ Hstop eq_refl).
  - intros r. apply halts_silent. reflexivity.
Qed.

Lemma halts_member_id : halts_on stops (ModuleParameters.member_id ext want).
Proof.
  unfold ModuleParameters.member_id.
  apply halts_bind; [halts_step|intros f].
  apply halts_bind; [apply halts_offering_id|intros oid].
  apply halts_send.
  - intros r e s Hstop. unfold lift.
    now rewrite (stops_members_query _ _ _ Hstop eq_refl).
  - intros r. apply halts_silent. reflexivity.
Qed.

Lemma halts_device_reference :
  halts_on stops (ModuleParameters.device_reference ext want).
Proof.
  unfold ModuleParameters.device_reference.
  destruct (negb _); [halts_step|].
  apply halts_bind; [halts_step|intros f].
  apply halts_send.
  - intros r e s Hstop. unfold lift.
    now rewrite (stops_devices_query ext _ _ _ Hstop eq_refl).
  - intros r. apply halts_silent. reflexivity.
Qed.

Lemma halts_getattr name : halts_on stops (ModuleParameters.getattr ext want name).
Proof.
  unfold ModuleParameters.getattr.
  repeat (apply halts_device_reference || halts_step).
Qed.

Lemma halts__set_changed_options :
  halts_on stops (ModuleManager._set_changed_options ext want).
Proof.
  unfold ModuleManager._set_changed_options.
  repeat (apply halts_getattr || halts_step).
Qed.

Lemma halts_exists : halts_on stops (ModuleManager.exists_ ext want).
Proof.
  unfold ModuleManager.exists_.
  apply halts_bind; [apply halts_member_id|intros mid].
  destruct (is_None mid); [halts_step|].
  apply halts_bind; [apply halts_offering_id|intros oid].
  apply halts_bind; [apply halts_member_id|intros mid'].
  apply halts_send.
  - intros r e s Hstop.
    destruct (stops_member_read _ _ _ Hstop eq_refl) as (H404 & Hcode & He).
    rewrite H404, Hcode, He. reflexivity.
  - intros r. repeat halts_step.
Qed.

Lemma halts_create_on_device :
  halts_on stops (ModuleManager.create_on_device ext want).
Proof.
  unfold ModuleManager.create_on_device.
  apply halts_bind; [halts_step|intros c].
  apply halts_bind; [apply halts_offering_id|intros oid].
  apply halts_send.
  - intros r e s Hstop.
    destruct (stops_checked _ _ _ Hstop (or_introl eq_refl)) as (Hcode & He).
    rewrite Hcode, He. reflexivity.
  - intros r. repeat halts_step.
Qed.

Lemma halts_polling rq count :
  site rq = member_poll -> halts_on stops (polling rq count).
Proof.
  intros Hsite s x e. unfold polling.
  generalize (pending s) as script. intros script. revert count.
  induction script as [|r rest IH]; intros count.
  - simpl. destruct (count <? 3); intros [].
  - simpl. destruct (count <? 3); [|intros []].
    destruct (negb (code_in r [200; 201; 202])) eqn:Hcode.
    + simpl. intros [Hx|[]] Hstop. subst x.
      destruct (stops_checked _ _ _ Hstop (or_intror Hsite)) as (_ & He).
      subst e. split; [reflexivity|]. exists []. reflexivity.
    + assert (Hhere : stops (rq, r) e -> False).
      { intros Hstop.
        destruct (stops_checked _ _ _ Hstop (or_intror Hsite)) as (Hc & _).
        rewrite Hc in Hcode. discriminate Hcode. }
      destruct (subscript (contents r) (IStr "status")) as [status|e'|].
      * specialize (IH (if py_eq_str status "LICENSED" then count + 1 else 0)).
        destruct (poll rq _ rest) as [[r' t] rest']. simpl in *.
        intros [Hx|Hin] Hstop; [subst x; destruct (Hhere Hstop)|].
        destruct (IH Hin Hstop) as [Hr [before Ht]]. split; [exact Hr|].
        exists ((rq, r) :: before). rewrite Ht. reflexivity.
      * simpl. intros [Hx|[]] Hstop. subst x. destruct (Hhere Hstop).
      * simpl. intros [Hx|[]] Hstop. subst x. destruct (Hhere Hstop).
Qed.

Lemma halts_wait :
  halts_on stops (ModuleManager.wait_for_device_to_be_licensed ext want).
Proof.
  unfold ModuleManager.wait_for_device_to_be_licensed.
  apply halts_bind; [apply halts_offering_id|intros oid].
  apply halts_bind; [apply halts_member_id|intros mid].
  apply halts_polling. reflexivity.
Qed.

Lemma halts_remove_from_device :
  halts_on stops (ModuleManager.remove_from_device ext want).
Proof.
  unfold ModuleManager.remove_from_device.
  apply halts_bind; [apply halts_offering_id|intros oid].
  apply halts_bind; [apply halts_member_id|intros mid].
  apply halts_bind.
  - destruct (negb _); [|halts_step].
    apply halts_bind; [halts_step|intros c].
    apply halts_bind; [apply halts_member_id|intros mid']. halts_step.
  - intros data. apply halts_send.
    + intros r e s Hstop. destruct (stops_delete _ _ _ Hstop eq_refl eq_refl).
    + intros r. halts_step.
Qed.

Lemma halts_create : halts_on stops (ModuleManager.create ext want check_mode).
Proof.
  unfold ModuleManager.create.
  apply halts_bind; [apply halts__set_changed_options|intros _].
  apply halts_bind; [repeat halts_step|intros _].
  destruct check_mode; [halts_step|].
  apply halts_bind; [apply halts_create_on_device|intros _].
  apply halts_bind; [apply halts_exists|intros found].
  destruct (negb found); [halts_step|].
  apply halts_bind; [apply halts_wait|intros _]. halts_step.
Qed.

Lemma halts_remove : halts_on stops (ModuleManager.remove ext want check_mode).
Proof.
  unfold ModuleManager.remove.
  apply halts_bind; [apply halts__set_changed_options|intros _].
  destruct check_mode; [halts_step|].
  apply halts_bind; [apply halts_remove_from_device|intros _].
  apply halts_bind; [apply halts_exists|intros found].
  destruct found; halts_step.
Qed.

Lemma halts_exec_module :
  halts_on stops (ModuleManager.exec_module ext want check_mode).
Proof.
  unfold ModuleManager.exec_module, ModuleManager.present, ModuleManager.absent.
  apply halts_bind; [|intros changed; repeat halts_step].
  destruct (String.eqb _ "present").
  - apply halts_bind; [apply halts_exists|intros found].
    destruct found; [halts_step|apply halts_create].
  - destruct (String.eqb _ "absent"); [|halts_step].
    apply halts_bind; [apply halts_exists|intros found].
    destruct found; [apply halts_remove|halts_step].
Qed.

End Discipline.

(** ** An offerings query that finds nothing *)

Lemma offering_id_of_empty (r : response) :
  empty_result r -> ModuleParameters.offering_id_of r = Raise no_offering.
Proof.
  intros [Hcode [total [Htotal Hzero]]].
  unfold ModuleParameters.offering_id_of, ModuleParameters.no_items, code_in.
  rewrite Hcode. simpl. rewrite Htotal. simpl. rewrite Hzero. reflexivity.
Qed.

Lemma offering_missing_halts ext want check_mode :
  halts_on offering_missing (ModuleManager.exec_module ext want check_mode).
Proof.
  apply halts_exec_module.
  - intros rq r e [_ [Hempty He]] _. subst e. now apply offering_id_of_empty.
  - intros rq r e [Hsite _] Hs. simpl in Hsite. rewrite Hs in Hsite. discriminate.
  - intros ext' rq r e [Hsite _] Hs. simpl in Hsite. rewrite Hs in Hsite. discriminate.
  - intros rq r e [Hsite _] Hs. simpl in Hsite. rewrite Hs in Hsite. discriminate.
  - intros rq r e [Hsite _] [Hs|Hs]; simpl in Hsite; rewrite Hs in Hsite;
      discriminate.
  - intros rq r e [Hsite _] _ Hs. simpl in Hsite. rewrite Hs in Hsite. discriminate.
Qed.

(** C9. Whenever the offerings query of a run is answered 200 with
    [totalItems == 0], the run fails with the [F5ModuleError] "No offering
    with the specified name was found." and goes no further: that exchange
    is the last one of the run. *)
Theorem missing_offering_fails
    (ext : externals) (want : params) (check_mode : bool) (s : mstate)
    (rq : request) (resp : response) :
  In (rq, resp) (trace (ModuleManager.exec_module ext want check_mode s)) ->
  site rq = offerings_query ->
  code resp = 200 ->
  (exists total, subscript (contents resp) (IStr "totalItems") = Ret total
                 /\ py_eq_int total 0 = true) ->
  res (ModuleManager.exec_module ext want check_mode s)
  = Raise (F5ModuleError (PStr "No offering with the specified name was found."))
  /\ exists before,
       trace (ModuleManager.exec_module ext want check_mode s) = before ++ [(rq, resp)].
Proof.
  intros Hin Hsite Hcode Htotal.
  apply (offering_missing_halts ext want check_mode s (rq, resp) no_offering Hin).
  repeat split; assumption.
Qed.

Lemma missing_offering_fails_witness :
  res (ModuleManager.exec_module sample_ext unmanaged_want false
         (ModuleManager.init [empty_response]))
  = Raise (F5ModuleError (PStr "No offering with the specified name was found."))
  /\ exists before,
       trace (ModuleManager.exec_module sample_ext unmanaged_want false
                (ModuleManager.init [empty_response]))
       = before ++ [({| meth := GET; site := offerings_query;
                        uri := "/mgmt/cm/device/licensing/pool/utility/licenses/XXXX-XXXX-XXXX-XXXX-XXXX/offerings?$filter=(name+eq+'F5-BIG-MSP-AFM-10G-LIC')&$top=1";
                        data := None |}, empty_response)].
Proof.
  apply (missing_offering_fails sample_ext unmanaged_want false
           (ModuleManager.init [empty_response])).
  - left. reflexivity.
  - reflexivity.
  - reflexivity.
  - exists (PInt 0). split; reflexivity.
Defined.

(** ** Running a computation step by step *)

Lemma observe_bind {A B} (c : M A) (f : A -> M B) s :
  observe ((x <- c ;; f x) s)
  = then_observe (observe (c s)) (fun a s1 => observe (f a s1)).
Proof.
  unfold observe. simpl. unfold M_bind.
  destruct (c s) as [[a|e|] t s1]; simpl; try reflexivity.
  destruct (f a s1) as [r t' s2]; simpl. now rewrite map_app.
Qed.

Lemma observe_send rq r rest c :
  observe (send rq {| pending := r :: rest; changes := c |})
  = (Ret r, [(meth rq, site rq, r)], {| pending := rest; changes := c |}).
Proof. reflexivity. Qed.

Lemma observe_lift {A} (r : result A) s : observe (lift r s) = (r, [], s).
Proof. reflexivity. Qed.

Lemma observe_ret {A} (a : A) s : observe ((ret a : M A) s) = (Ret a, [], s).
Proof. reflexivity. Qed.

Lemma observe_raise {A} e s : observe ((raise e : M A) s) = (Raise e, [], s).
Proof. reflexivity. Qed.

Lemma observe_get_changes s : observe (get_changes s) = (Ret (changes s), [], s).
Proof. reflexivity. Qed.

Ltac run_step :=
  first
    [ rewrite observe_bind
    | rewrite observe_lift
    | rewrite observe_ret
    | rewrite observe_raise
    | rewrite observe_get_changes
    | rewrite observe_send ];
  cbn [then_observe app].

Section Runs.

Variable ext : externals.
Variable want : params.

Lemma observe_offering_id r rest c :
  observe (ModuleParameters.offering_id want {| pending := r :: rest; changes := c |})
  = (ModuleParameters.offering_id_of r, [(GET, offerings_query, r)],
     {| pending := rest; changes := c |}).
Proof. reflexivity. Qed.

Lemma observe_member_id r1 r2 rest c :
  found ModuleParameters.offering_id_of r1 ->
  observe (ModuleParameters.member_id ext want
             {| pending := r1 :: r2 :: rest; changes := c |})
  = (ModuleParameters.member_id_of r2,
     [(GET, offerings_query, r1); (GET, members_query, r2)],
     {| pending := rest; changes := c |}).
Proof.
  intros [oid H1]. destruct (member_id_filter_total ext want) as [f Hf].
  unfold ModuleParameters.member_id.
  rewrite Hf. repeat run_step.
  rewrite observe_offering_id, H1. cbn [then_observe].
  unfold client.get. repeat run_step. reflexivity.
Qed.

Lemma member_id_of_empty r :
  empty_result r -> ModuleParameters.member_id_of r = Ret PNone.
Proof.
  intros [Hcode [total [Htotal Hzero]]].
  unfold ModuleParameters.member_id_of, ModuleParameters.no_items, code_in.
  rewrite Hcode. simpl. rewrite Htotal. simpl. rewrite Hzero. reflexivity.
Qed.

(** [exists] when the member query finds nothing. *)
Lemma observe_exists_no_member r1 r2 rest c :
  found ModuleParameters.offering_id_of r1 ->
  ModuleParameters.member_id_of r2 = Ret PNone ->
  observe (ModuleManager.exists_ ext want
             {| pending := r1 :: r2 :: rest; changes := c |})
  = (Ret false, [(GET, offerings_query, r1); (GET, members_query, r2)],
     {| pending := rest; changes := c |}).
Proof.
  intros H1 H2. unfold ModuleManager.exists_.
  run_step. rewrite observe_member_id by exact H1.
  rewrite H2. cbn [then_observe is_None]. run_step. reflexivity.
Qed.

(** [exists] when it gets to read the member. *)
Lemma observe_exists_member_read r1 r2 r3 r4 r5 r6 rest c :
  lookups_succeed r1 r2 r3 r4 r5 ->
  observe (ModuleManager.exists_ ext want
             {| pending := r1 :: r2 :: r3 :: r4 :: r5 :: r6 :: rest; changes := c |})
  = ((if code r6 =? 404 then Ret false
      else if negb (code_in r6 [200; 201; 202]) then
        Raise (F5ModuleError (contents r6))
      else Ret true),
     exists_events r1 r2 r3 r4 r5 r6,
     {| pending := rest; changes := c |}).
Proof.
  intros (H1 & [mid [H2 Hmid]] & [oid3 H3] & H4 & [mid5 H5]).
  unfold ModuleManager.exists_.
  run_step. rewrite observe_member_id by exact H1.
  rewrite H2. cbn [then_observe]. rewrite Hmid.
  run_step. rewrite observe_offering_id, H3. cbn [then_observe].
  run_step. rewrite observe_member_id by exact H4.
  rewrite H5. cbn [then_observe].
  run_step. unfold client.get. run_step.
  destruct (code r6 =? 404); [run_step; reflexivity|].
  destruct (negb (code_in r6 [200; 201; 202])); run_step; reflexivity.
Qed.

End Runs.

Lemma code_in_not_404 r : code_in r [200; 201; 202] = true -> (code r =? 404) = false.
Proof.
  unfold code_in. simpl. intros H.
  destruct (code r =? 404) eqn:E; [|reflexivity].
  apply Z.eqb_eq in E. rewrite E in H. discriminate H.
Qed.

Lemma erased_methods (P : method -> Prop) (t : list exchange) :
  Forall (fun e : event => P (fst (fst e))) (map erase t) ->
  Forall (fun x => P (meth (fst x))) t.
Proof.
  induction t as [|x t IH]; simpl; intros H; inversion H; subst; constructor; auto.
Qed.

Lemma observed_trace {A} (r : ran A) o t s :
  observe r = (o, t, s) -> res r = o /\ map erase (trace r) = t /\ final r = s.
Proof. unfold observe. intros H. inversion H. auto. Qed.

(** ** The existence check *)

Section Exists.

Variable ext : externals.
Variable want : params.

Lemma observe_exists_not_assigned script events rest c :
  not_assigned script events rest ->
  observe (ModuleManager.exists_ ext want {| pending := script; changes := c |})
  = (Ret false, events, {| pending := rest; changes := c |}).
Proof.
  intros [r1 r2 rest' H1 H2 | r1 r2 r3 r4 r5 r6 rest' H Hcode].
  - apply observe_exists_no_member; [exact H1|now apply member_id_of_empty].
  - rewrite observe_exists_member_read by exact H.
    rewrite Hcode. reflexivity.
Qed.

Lemma observe_exists_assigned r1 r2 r3 r4 r5 r6 rest c :
  lookups_succeed r1 r2 r3 r4 r5 ->
  code_in r6 [200; 201; 202] = true ->
  observe (ModuleManager.exists_ ext want
             {| pending := r1 :: r2 :: r3 :: r4 :: r5 :: r6 :: rest; changes := c |})
  = (Ret true, exists_events r1 r2 r3 r4 r5 r6, {| pending := rest; changes := c |}).
Proof.
  intros H Hcode. rewrite observe_exists_member_read by exact H.
  rewrite (code_in_not_404 _ Hcode), Hcode. reflexivity.
Qed.

End Exists.

(** Case analysis on every response and every lookup of a run. *)
Ltac split_run :=
  repeat (match goal with
          | |- context [match ?x with _ => _ end] =>
              match x with
              | context [match _ with _ => _ end] => fail 1
              | _ => destruct x eqn:?
              end
          end; simpl; try discriminate).

(** The answers of [exists] come about in no other way: it returns [True]
    only after five successful lookups and a member read answered 200, 201
    or 202, and [False] only when the member lookup yields [None] or the
    member read answers 404. *)
Lemma exists_true_inversion ext want s :
  res (ModuleManager.exists_ ext want s) = Ret true ->
  exists r1 r2 r3 r4 r5 r6 rest,
    pending s = r1 :: r2 :: r3 :: r4 :: r5 :: r6 :: rest
    /\ lookups_succeed r1 r2 r3 r4 r5
    /\ code_in r6 [200; 201; 202] = true.
Proof.
  destruct s as [script c].
  destruct (member_id_filter_total ext want) as [f Hf].
  unfold ModuleManager.exists_, ModuleParameters.member_id,
    ModuleParameters.offering_id, client.get, send.
  rewrite Hf. simpl. unfold M_bind, lift. simpl.
  split_run. intros _.
  do 7 eexists. split; [reflexivity|]. split.
  - unfold lookups_succeed, found. repeat split; eauto.
  - now apply negb_false_iff.
Qed.

Lemma exists_false_inversion ext want s :
  res (ModuleManager.exists_ ext want s) = Ret false ->
  (exists r1 r2 rest,
     pending s = r1 :: r2 :: rest
     /\ found ModuleParameters.offering_id_of r1
     /\ ModuleParameters.member_id_of r2 = Ret PNone)
  \/ (exists r1 r2 r3 r4 r5 r6 rest,
        pending s = r1 :: r2 :: r3 :: r4 :: r5 :: r6 :: rest
        /\ lookups_succeed r1 r2 r3 r4 r5
        /\ code r6 = 404).
Proof.
  destruct s as [script c].
  destruct (member_id_filter_total ext want) as [f Hf].
  unfold ModuleManager.exists_, ModuleParameters.member_id,
    ModuleParameters.offering_id, client.get, send.
  rewrite Hf. simpl. unfold M_bind, lift. simpl.
  split_run; intros _.
  - left. do 3 eexists. split; [reflexivity|]. split.
    + unfold found. eauto.
    + match goal with
      | H : is_None ?v = true |- _ => destruct v; try discriminate H
      end. assumption.
  - right. do 7 eexists. split; [reflexivity|]. split.
    + unfold lookups_succeed, found. repeat split; eauto.
    + now apply Z.eqb_eq.
Qed.

(** C6 as stated fails for the 2xx codes outside 200, 201 and 202: when
    reading the member answers 204, [exists] raises instead of returning
    [True]. *)
Lemma exists_raises_on_204 :
  lookups_succeed (found_response "offering") (found_response "member")
                  (found_response "offering")
                  (found_response "offering") (found_response "member")
  /\ 200 <= code (plain_response 204 "No Content") < 300
  /\ res (ModuleManager.exists_ sample_ext unmanaged_want
            (ModuleManager.init
               [found_response "offering"; found_response "member";
                found_response "offering";
                found_response "offering"; found_response "member";
                plain_response 204 "No Content"]))
     = Raise (F5ModuleError (PStr "No Content")).
Proof.
  split; [|split; [simpl; lia|reflexivity]].
  repeat split; eexists; try split; reflexivity.
Qed.

(** C6, amended.  [exists] returns [False] exactly when there is no match.
    It returns [False] when the responses say that no assignment exists: the
    member query comes back empty (200 with [totalItems == 0]) or reading the
    member answers 404.  It returns [True] when reading the member answers
    200, 201 or 202.  Either way it has made GET requests only: two in the
    first case, six in the others.  And it returns in no other way: [False]
    only when the member lookup yields no id or reading the member answers
    404, [True] only when reading the member answers 200, 201 or 202. *)
Theorem exists_reports_the_assignment
    (ext : externals) (want : params) (c : changes_obj) (script : list response) :
  (forall events rest,
     not_assigned script events rest ->
     observe (ModuleManager.exists_ ext want {| pending := script; changes := c |})
     = (Ret false, events, {| pending := rest; changes := c |}))
  /\ (forall r1 r2 r3 r4 r5 r6 rest,
        script = r1 :: r2 :: r3 :: r4 :: r5 :: r6 :: rest ->
        lookups_succeed r1 r2 r3 r4 r5 ->
        code_in r6 [200; 201; 202] = true ->
        observe (ModuleManager.exists_ ext want {| pending := script; changes := c |})
        = (Ret true, exists_events r1 r2 r3 r4 r5 r6,
           {| pending := rest; changes := c |}))
  /\ (res (ModuleManager.exists_ ext want {| pending := script; changes := c |})
      = Ret false ->
      (exists r1 r2 rest,
         script = r1 :: r2 :: rest
         /\ found ModuleParameters.offering_id_of r1
         /\ ModuleParameters.member_id_of r2 = Ret PNone)
      \/ (exists r1 r2 r3 r4 r5 r6 rest,
            script = r1 :: r2 :: r3 :: r4 :: r5 :: r6 :: rest
            /\ lookups_succeed r1 r2 r3 r4 r5
            /\ code r6 = 404))
  /\ (res (ModuleManager.exists_ ext want {| pending := script; changes := c |})
      = Ret true ->
      exists r1 r2 r3 r4 r5 r6 rest,
        script = r1 :: r2 :: r3 :: r4 :: r5 :: r6 :: rest
        /\ lookups_succeed r1 r2 r3 r4 r5
        /\ code_in r6 [200; 201; 202] = true).
Proof.
  split; [|split; [|split]].
  - intros events rest. apply observe_exists_not_assigned.
  - intros r1 r2 r3 r4 r5 r6 rest ->. apply observe_exists_assigned.
  - apply (exists_false_inversion ext want {| pending := script; changes := c |}).
  - apply (exists_true_inversion ext want {| pending := script; changes := c |}).
Qed.

Lemma exists_reports_the_assignment_witness :
  res (ModuleManager.exists_ sample_ext unmanaged_want
         (ModuleManager.init [found_response "offering"; empty_response]))
  = Ret false
  /\ res (ModuleManager.exists_ sample_ext unmanaged_want
            (ModuleManager.init
               [found_response "offering"; found_response "member";
                found_response "offering";
                found_response "offering"; found_response "member";
                plain_response 404 "Not Found"]))
     = Ret false
  /\ res (ModuleManager.exists_ sample_ext unmanaged_want
            (ModuleManager.init
               [found_response "offering"; found_response "member";
                found_response "offering";
                found_response "offering"; found_response "member";
                member_response "LICENSED"]))
     = Ret true.
Proof.
  assert (Hlook : lookups_succeed
            (found_response "offering") (found_response "member")
            (found_response "offering")
            (found_response "offering") (found_response "member")).
  { repeat split; eexists; try split; reflexivity. }
  split; [|split].
  - refine (proj1 (observed_trace _ _ _ _
      (proj1 (exists_reports_the_assignment sample_ext unmanaged_want
                (UsableChanges_ []) _)
         _ _ (no_member_found _ _ [] _ _)))).
    + eexists; reflexivity.
    + split; [reflexivity|]. exists (PInt 0). split; reflexivity.
  - refine (proj1 (observed_trace _ _ _ _
      (proj1 (exists_reports_the_assignment sample_ext unmanaged_want
                (UsableChanges_ []) _)
         _ _ (member_gone _ _ _ _ _ _ [] Hlook _)))).
    reflexivity.
  - refine (proj1 (observed_trace _ _ _ _
      (proj1 (proj2 (exists_reports_the_assignment sample_ext unmanaged_want
                       (UsableChanges_ []) _))
         _ _ _ _ _ _ [] eq_refl Hlook _))).
    reflexivity.
Defined.

(** ** Runs that change nothing *)

Section Unchanged.

Variable ext : externals.
Variable want : params.
Variable check_mode : bool.

(** What [exec_module] returns when [present] or [absent] returned [False]
    and left the change set as the manager created it. *)
Lemma observe_exec_module_unchanged (script : list response) events rest :
  observe ((if String.eqb (_state want) "present" then
              ModuleManager.present ext want check_mode
            else if String.eqb (_state want) "absent" then
              ModuleManager.absent ext want check_mode
            else ret false) (ModuleManager.init script))
  = (Ret false, events, ModuleManager.init rest) ->
  observe (ModuleManager.exec_module ext want check_mode (ModuleManager.init script))
  = (Ret [("changed", PBool false)], events, ModuleManager.init rest).
Proof.
  intros H. unfold ModuleManager.exec_module.
  run_step. rewrite H. cbn [then_observe].
  repeat run_step. rewrite app_nil_r. reflexivity.
Qed.

Lemma observe_present_assigned r1 r2 r3 r4 r5 r6 rest :
  lookups_succeed r1 r2 r3 r4 r5 ->
  code_in r6 [200; 201; 202] = true ->
  observe (ModuleManager.present ext want check_mode
             (ModuleManager.init (r1 :: r2 :: r3 :: r4 :: r5 :: r6 :: rest)))
  = (Ret false, exists_events r1 r2 r3 r4 r5 r6, ModuleManager.init rest).
Proof.
  intros H Hcode. unfold ModuleManager.present, ModuleManager.init.
  run_step. rewrite observe_exists_assigned by assumption.
  cbn [then_observe]. run_step. rewrite app_nil_r. reflexivity.
Qed.

Lemma observe_absent_not_assigned script events rest :
  not_assigned script events rest ->
  observe (ModuleManager.absent ext want check_mode (ModuleManager.init script))
  = (Ret false, events, ModuleManager.init rest).
Proof.
  intros H. unfold ModuleManager.absent, ModuleManager.init.
  run_step. rewrite (observe_exists_not_assigned _ _ _ _ _ _ H).
  cbn [then_observe]. run_step. rewrite app_nil_r. reflexivity.
Qed.

End Unchanged.

Lemma exists_events_are_gets r1 r2 r3 r4 r5 r6 :
  Forall (fun e : event => fst (fst e) = GET) (exists_events r1 r2 r3 r4 r5 r6).
Proof. unfold exists_events. repeat constructor. Qed.

Lemma not_assigned_events_are_gets script events rest :
  not_assigned script events rest ->
  Forall (fun e : event => fst (fst e) = GET) events.
Proof.
  intros [r1 r2 rest' _ _ | r1 r2 r3 r4 r5 r6 rest' _ _].
  - repeat constructor.
  - apply exists_events_are_gets.
Qed.

Lemma gets_are_not (m : method) (t : list exchange) :
  m <> GET -> Forall is_get t -> Forall (fun x => meth (fst x) <> m) t.
Proof.
  intros Hm H. eapply Forall_impl; [|exact H].
  intros x Hx. unfold is_get in Hx. rewrite Hx. congruence.
Qed.

(** C2 as stated fails for the 2xx codes outside 200, 201 and 202: when the
    member lookup returns an id and reading the member answers 204, the run
    with [state=present] fails instead of returning [changed=False]. *)
Lemma present_fails_on_204 :
  lookups_succeed (found_response "offering") (found_response "member")
                  (found_response "offering")
                  (found_response "offering") (found_response "member")
  /\ 200 <= code (plain_response 204 "No Content") < 300
  /\ _state unmanaged_want = "present"
  /\ res (ModuleManager.exec_module sample_ext unmanaged_want false
            (ModuleManager.init
               [found_response "offering"; found_response "member";
                found_response "offering";
                found_response "offering"; found_response "member";
                plain_response 204 "No Content"]))
     = Raise (F5ModuleError (PStr "No Content")).
Proof.
  split; [|split; [simpl; lia|split; reflexivity]].
  repeat split; eexists; try split; reflexivity.
Qed.

(** C2, amended.  A run with [state=present] on a device whose license
    assignment already exists (the member lookup returns a member id and
    reading the member answers 200, 201 or 202) returns [changed=False]; its
    calls are the six GETs of the existence check, so it issues no POST. *)
Theorem present_when_assigned_changes_nothing
    (ext : externals) (want : params) (check_mode : bool)
    (r1 r2 r3 r4 r5 r6 : response) (rest : list response) :
  _state want = "present" ->
  lookups_succeed r1 r2 r3 r4 r5 ->
  code_in r6 [200; 201; 202] = true ->
  let run := ModuleManager.exec_module ext want check_mode
               (ModuleManager.init (r1 :: r2 :: r3 :: r4 :: r5 :: r6 :: rest)) in
  observe run
  = (Ret [("changed", PBool false)], exists_events r1 r2 r3 r4 r5 r6,
     ModuleManager.init rest)
  /\ Forall (fun x => meth (fst x) <> POST) (trace run).
Proof.
  intros Hstate Hlook Hcode run.
  assert (H : observe run
              = (Ret [("changed", PBool false)], exists_events r1 r2 r3 r4 r5 r6,
                 ModuleManager.init rest)).
  { apply observe_exec_module_unchanged. rewrite Hstate.
    change (String.eqb "present" "present") with true. cbv iota.
    now apply observe_present_assigned. }
  split; [exact H|].
  apply observed_trace in H. destruct H as (_ & Ht & _).
  apply gets_are_not; [discriminate|].
  apply (erased_methods (fun m => m = GET)). rewrite Ht.
  apply exists_events_are_gets.
Qed.

Lemma present_when_assigned_changes_nothing_witness :
  res (ModuleManager.exec_module sample_ext unmanaged_want false
         (ModuleManager.init
            [found_response "offering"; found_response "member";
             found_response "offering";
             found_response "offering"; found_response "member";
             member_response "LICENSED"]))
  = Ret [("changed", PBool false)].
Proof.
  refine (proj1 (observed_trace _ _ _ _
    (proj1 (present_when_assigned_changes_nothing sample_ext unmanaged_want false
              _ _ _ _ _ _ [] _ _ _)))).
  - reflexivity.
  - repeat split; eexists; try split; reflexivity.
  - reflexivity.
Defined.

(** C3. A run with [state=absent] on a device that has no assignment (the
    member query comes back 200 with [totalItems == 0], or reading the member
    answers 404) returns [changed=False]; its calls are the GETs of the
    existence check, so it issues no DELETE. *)
Theorem absent_when_unassigned_changes_nothing
    (ext : externals) (want : params) (check_mode : bool)
    (script : list response) (events : list event) (rest : list response) :
  _state want = "absent" ->
  not_assigned script events rest ->
  let run := ModuleManager.exec_module ext want check_mode
               (ModuleManager.init script) in
  observe run = (Ret [("changed", PBool false)], events, ModuleManager.init rest)
  /\ Forall (fun x => meth (fst x) <> DELETE) (trace run).
Proof.
  intros Hstate Hno run.
  assert (H : observe run
              = (Ret [("changed", PBool false)], events, ModuleManager.init rest)).
  { apply observe_exec_module_unchanged. rewrite Hstate.
    change (String.eqb "absent" "present") with false.
    change (String.eqb "absent" "absent") with true. cbv iota.
    now apply observe_absent_not_assigned. }
  split; [exact H|].
  apply observed_trace in H. destruct H as (_ & Ht & _).
  apply gets_are_not; [discriminate|].
  apply (erased_methods (fun m => m = GET)). rewrite Ht.
  eapply not_assigned_events_are_gets. exact Hno.
Qed.

Lemma absent_when_unassigned_changes_nothing_witness :
  res (ModuleManager.exec_module sample_ext unmanaged_absent false
         (ModuleManager.init [found_response "offering"; empty_response]))
  = Ret [("changed", PBool false)]
  /\ res (ModuleManager.exec_module sample_ext unmanaged_absent false
            (ModuleManager.init
               [found_response "offering"; found_response "member";
                found_response "offering";
                found_response "offering"; found_response "member";
                plain_response 404 "Not Found"]))
     = Ret [("changed", PBool false)].
Proof.
  split.
  - refine (proj1 (observed_trace _ _ _ _
      (proj1 (absent_when_unassigned_changes_nothing sample_ext unmanaged_absent false
                _ _ [] _ (no_member_found _ _ [] _ _))))).
    + reflexivity.
    + eexists; reflexivity.
    + split; [reflexivity|]. exists (PInt 0). split; reflexivity.
  - refine (proj1 (observed_trace _ _ _ _
      (proj1 (absent_when_unassigned_changes_nothing sample_ext unmanaged_absent false
                _ _ [] _ (member_gone _ _ _ _ _ _ [] _ _))))).
    + reflexivity.
    + repeat split; eexists; try split; reflexivity.
    + reflexivity.
Defined.

(** ** Creating without credentials *)

Lemma quiet_ret {A} (a : A) : quiet (ret a : M A).
Proof. intros [p c]. exists a, c. reflexivity. Qed.

Lemma quiet_set_changes c : quiet (set_changes c).
Proof. intros [p c']. exists tt, c. reflexivity. Qed.

Lemma quiet_bind {A B} (c : M A) (f : A -> M B) :
  quiet c -> (forall a, quiet (f a)) -> quiet (x <- c ;; f x).
Proof.
  intros Hc Hf s. destruct (Hc s) as [a [c1 H1]].
  destruct (Hf a {| pending := pending s; changes := c1 |}) as [b [c2 H2]].
  exists b, c2. simpl. unfold M_bind. rewrite H1, H2. reflexivity.
Qed.

Lemma quiet_for_each {A S} (xs : list A) (body : A -> S -> M S) :
  (forall x acc, quiet (body x acc)) -> forall acc, quiet (for_each xs body acc).
Proof.
  intros Hb. induction xs as [|x xs IH]; intros acc; simpl for_each.
  - apply quiet_ret.
  - apply quiet_bind; auto.
Qed.

Section Unmanaged.

Variable ext : externals.
Variable want : params.
Variable check_mode : bool.
Hypothesis unmanaged : truthy (ModuleParameters.managed want) = false.

Lemma quiet_device_reference : quiet (ModuleParameters.device_reference ext want).
Proof.
  unfold ModuleParameters.device_reference. rewrite unmanaged. apply quiet_ret.
Qed.

Lemma quiet_getattr name : quiet (ModuleParameters.getattr ext want name).
Proof.
  unfold ModuleParameters.getattr.
  repeat match goal with
         | |- quiet (if ?b then _ else _) => destruct b
         | |- quiet (ret _) => apply quiet_ret
         | |- quiet (ModuleParameters.device_reference _ _) =>
             apply quiet_device_reference
         end.
Qed.

Lemma quiet__set_changed_options : quiet (ModuleManager._set_changed_options ext want).
Proof.
  unfold ModuleManager._set_changed_options.
  apply quiet_bind.
  - apply quiet_for_each. intros key changed.
    apply quiet_bind; [apply quiet_getattr|intros v].
    destruct (negb (is_None v)); [|apply quiet_ret].
    apply quiet_bind; [apply quiet_getattr|intros v']. apply quiet_ret.
  - intros changed. destruct (truthy (PDict changed));
      [apply quiet_set_changes|apply quiet_ret].
Qed.

Hypothesis no_credentials :
  ModuleParameters.device_username want = PNone
  \/ ModuleParameters.device_password want = PNone.

(** [create] stops at its validation, before any request. *)
Lemma create_without_credentials s :
  exists c,
    ModuleManager.create ext want check_mode s
    = Ran (Raise (missing_credentials want)) [] {| pending := pending s; changes := c |}.
Proof.
  destruct (quiet__set_changed_options s) as [[] [c H]].
  exists c. unfold ModuleManager.create. simpl. unfold M_bind at 1. rewrite H.
  unfold M_bind at 1. rewrite unmanaged. simpl. unfold missing_credentials.
  destruct (is_None (ModuleParameters.device_username want)) eqn:Hu; [reflexivity|].
  destruct no_credentials as [Hn|Hn]; rewrite Hn in *; [discriminate Hu|reflexivity].
Qed.

Lemma only_get_create_without_credentials :
  only is_get (ModuleManager.create ext want check_mode).
Proof.
  intros s. destruct (create_without_credentials s) as [c H]. rewrite H. constructor.
Qed.

Lemma only_get_present_without_credentials :
  only is_get (ModuleManager.present ext want check_mode).
Proof.
  unfold ModuleManager.present.
  apply only_bind; [apply only_get_exists|intros found].
  destruct found; [apply only_ret|apply only_get_create_without_credentials].
Qed.

Lemma observe_present_without_credentials script events rest :
  not_assigned script events rest ->
  exists c,
    observe (ModuleManager.present ext want check_mode (ModuleManager.init script))
    = (Raise (missing_credentials want), events, {| pending := rest; changes := c |}).
Proof.
  intros Hno.
  destruct (create_without_credentials (ModuleManager.init rest)) as [c H].
  exists c. unfold ModuleManager.present, ModuleManager.init.
  run_step. rewrite (observe_exists_not_assigned _ _ _ _ _ _ Hno).
  cbn [then_observe]. unfold ModuleManager.init in H. unfold observe at 1.
  rewrite H. simpl. rewrite app_nil_r. reflexivity.
Qed.

End Unmanaged.

(** C5 as stated fails: the validation of [create] comes after the
    existence check of [present].  Without credentials, the run below makes
    two GET requests, learns that the device has no assignment, and only
    then fails. *)
Lemma validation_follows_the_lookups :
  _state unmanaged_no_credentials = "present"
  /\ ModuleParameters.managed unmanaged_no_credentials = PBool false
  /\ ModuleParameters.device_username unmanaged_no_credentials = PNone
  /\ res (ModuleManager.exec_module sample_ext unmanaged_no_credentials false
            (ModuleManager.init [found_response "offering"; empty_response]))
     = Raise (F5ModuleError (PStr
         "You must specify a 'device_username' when working with unmanaged devices."))
  /\ map erase
       (trace (ModuleManager.exec_module sample_ext unmanaged_no_credentials false
                 (ModuleManager.init [found_response "offering"; empty_response])))
     = [ (GET, offerings_query, found_response "offering");
         (GET, members_query, empty_response) ].
Proof. repeat split; reflexivity. Qed.

(** C5, amended.  In a run with [state=present] for an unmanaged device
    ([managed] falsy) whose [device_username] or [device_password] is [None],
    no POST and no DELETE is ever issued: every request is a GET of the
    existence check.  When that check finds no assignment, the run fails with
    the [F5ModuleError] of the validation, having made the calls of the check
    and no other. *)
Theorem create_validation_precedes_mutation
    (ext : externals) (want : params) (check_mode : bool) (script : list response) :
  _state want = "present" ->
  truthy (ModuleParameters.managed want) = false ->
  ModuleParameters.device_username want = PNone
  \/ ModuleParameters.device_password want = PNone ->
  let run := ModuleManager.exec_module ext want check_mode
               (ModuleManager.init script) in
  Forall is_get (trace run)
  /\ forall events rest,
       not_assigned script events rest ->
       res run = Raise (missing_credentials want) /\ map erase (trace run) = events.
Proof.
  intros Hstate Hmanaged Hcred run. subst run. split.
  - cut (only is_get (ModuleManager.exec_module ext want check_mode));
      [intros Honly; apply Honly|].
    unfold ModuleManager.exec_module. rewrite Hstate.
    change (String.eqb "present" "present") with true. cbv iota.
    apply only_bind; [now apply only_get_present_without_credentials|intros changed].
    repeat only_step.
  - intros events rest Hno.
    destruct (observe_present_without_credentials ext want check_mode
                Hmanaged Hcred script events rest Hno) as [c H].
    assert (Hrun : observe (ModuleManager.exec_module ext want check_mode
                              (ModuleManager.init script))
                   = (Raise (missing_credentials want), events,
                      {| pending := rest; changes := c |})).
    { unfold ModuleManager.exec_module. rewrite Hstate.
      change (String.eqb "present" "present") with true. cbv iota.
      run_step. rewrite H. reflexivity. }
    apply observed_trace in Hrun. destruct Hrun as (Hres & Htrace & _). auto.
Qed.

Lemma create_validation_precedes_mutation_witness :
  Forall is_get
    (trace (ModuleManager.exec_module sample_ext unmanaged_no_credentials false
              (ModuleManager.init [found_response "offering"; empty_response])))
  /\ res (ModuleManager.exec_module sample_ext unmanaged_no_credentials false
            (ModuleManager.init [found_response "offering"; empty_response]))
     = Raise (missing_credentials unmanaged_no_credentials).
Proof.
  destruct (create_validation_precedes_mutation sample_ext unmanaged_no_credentials
              false [found_response "offering"; empty_response])
    as [Hgets Hfail].
  - reflexivity.
  - reflexivity.
  - left. reflexivity.
  - split; [exact Hgets|].
    refine (proj1 (Hfail _ [] (no_member_found _ _ [] _ _))).
    + eexists; reflexivity.
    + split; [reflexivity|]. exists (PInt 0). split; reflexivity.
Defined.

(** ** Answers with a code that is not accepted *)

Lemma unaccepted_halts ext want check_mode :
  halts_on unaccepted (ModuleManager.exec_module ext want check_mode).
Proof.
  apply halts_exec_module.
  - intros rq r e (_ & Hcode & _ & He) _. simpl in *. subst e.
    unfold ModuleParameters.offering_id_of. now rewrite Hcode.
  - intros rq r e (_ & Hcode & _ & He) _. simpl in *. subst e.
    unfold ModuleParameters.member_id_of. now rewrite Hcode.
  - intros ext' rq r e (_ & Hcode & _ & He) _. simpl in *. subst e.
    unfold ModuleParameters.device_reference_of. now rewrite Hcode.
  - intros rq r e (_ & Hcode & H404 & He) Hsite. simpl in *.
    split; [|split; assumption].
    destruct (code r =? 404) eqn:E; [|reflexivity].
    apply Z.eqb_eq in E. destruct H404. split; assumption.
  - intros rq r e (_ & Hcode & _ & He) _. simpl in *. split; assumption.
  - intros rq r e (Hmeth & _) Hdel _. simpl in Hmeth. contradiction.
Qed.

(** X1. Every answer to a GET or a POST is checked at once: if its code is not
    200, 201 or 202 (and it is not the 404 of the member read), the run ends
    there with the [F5ModuleError] that carries the answer's contents. *)
Theorem unaccepted_code_is_raised_at_once
    (ext : externals) (want : params) (check_mode : bool) (s : mstate)
    (rq : request) (resp : response) :
  In (rq, resp) (trace (ModuleManager.exec_module ext want check_mode s)) ->
  meth rq <> DELETE ->
  code_in resp [200; 201; 202] = false ->
  ~ (site rq = member_read /\ code resp = 404) ->
  res (ModuleManager.exec_module ext want check_mode s)
  = Raise (F5ModuleError (contents resp))
  /\ exists before,
       trace (ModuleManager.exec_module ext want check_mode s) = before ++ [(rq, resp)].
Proof.
  intros Hin Hmeth Hcode H404.
  apply (unaccepted_halts ext want check_mode s (rq, resp) _ Hin).
  repeat split; assumption.
Qed.

(** ** A DELETE that fails *)

(** C4 at its failing input.  The answer to the DELETE of
    [remove_from_device] is the one answer the module does not check: here it
    is a 500, nothing is raised, and the run goes on to the existence check
    and reports [changed=True]. *)
Theorem failed_delete_goes_unnoticed :
  nth_error
    (map erase
       (trace (ModuleManager.exec_module sample_ext managed_absent false
                 (ModuleManager.init failed_delete_script))))
    11
  = Some (DELETE, member_delete, plain_response 500 "Internal Server Error")
  /\ code_in (plain_response 500 "Internal Server Error") [200; 201; 202] = false
  /\ List.length
       (trace (ModuleManager.exec_module sample_ext managed_absent false
                 (ModuleManager.init failed_delete_script)))
     = 14%nat
  /\ exists report,
       res (ModuleManager.exec_module sample_ext managed_absent false
              (ModuleManager.init failed_delete_script))
       = Ret report
       /\ dict_get report "changed" = Some (PBool true).
Proof.
  split; [reflexivity|]. split; [reflexivity|]. split; [reflexivity|].
  eexists. split; reflexivity.
Qed.

(** When the member is still there after the DELETE that failed, the run
    does fail, but six GETs later and with another message: the contents of
    the answer to the DELETE are lost. *)
Lemma failed_delete_is_reported_late :
  observe (ModuleManager.exec_module sample_ext managed_absent false
             (ModuleManager.init
                (firstn 12 failed_delete_script
                 ++ [found_response "offering"; found_response "member";
                     found_response "offering";
                     found_response "offering"; found_response "member";
                     member_response "LICENSED"])))
  = (Raise (F5ModuleError (PStr "Failed to delete the resource.")),
     exists_events (found_response "offering") (found_response "member")
                   (found_response "offering")
                   (found_response "offering") (found_response "member")
                   (member_response "LICENSED")
     ++ [ (GET, devices_query, found_response "device");
          (GET, devices_query, found_response "device");
          (GET, offerings_query, found_response "offering");
          (GET, offerings_query, found_response "offering");
          (GET, members_query, found_response "member");
          (DELETE, member_delete, plain_response 500 "Internal Server Error") ]
     ++ exists_events (found_response "offering") (found_response "member")
                      (found_response "offering")
                      (found_response "offering") (found_response "member")
                      (member_response "LICENSED"),
     {| pending := [];
        changes := Changes_
          [("device_reference", PDict [("link", PStr
              "https://localhost/mgmt/shared/resolver/device-groups/cm-bigip-allBigIpDevices/devices/device")]);
           ("device_port", PInt 443); ("managed", PBool true);
           ("unit_of_measure", PStr "hourly")] |}).
Proof. reflexivity. Qed.

(** The same answer to the POST of [create_on_device] is raised at once. *)
Lemma failed_post_is_raised :
  observe (ModuleManager.exec_module sample_ext managed_want false
             (ModuleManager.init
                [found_response "offering"; empty_response;
                 found_response "device"; found_response "device";
                 found_response "offering";
                 plain_response 500 "Internal Server Error";
                 found_response "offering"]))
  = (Raise (F5ModuleError (PStr "Internal Server Error")),
     [ (GET, offerings_query, found_response "offering");
       (GET, members_query, empty_response);
       (GET, devices_query, found_response "device");
       (GET, devices_query, found_response "device");
       (GET, offerings_query, found_response "offering");
       (POST, members_create, plain_response 500 "Internal Server Error") ],
     {| pending := [found_response "offering"];
        changes := Changes_
          [("device_reference", PDict [("link", PStr
              "https://localhost/mgmt/shared/resolver/device-groups/cm-bigip-allBigIpDevices/devices/device")]);
           ("device_port", PInt 443); ("managed", PBool true);
           ("unit_of_measure", PStr "hourly")] |}).
Proof. reflexivity. Qed.

(** ** The polling loop *)

Lemma poll_done rq (count : Z) script :
  (count <? 3) = false -> poll rq count script = (Ret tt, [], script).
Proof. intros H. destruct script; simpl; rewrite H; reflexivity. Qed.

Lemma poll_accepts rq (count : Z) r rest :
  (count <? 3) = true -> poll_ok r ->
  poll rq count (r :: rest)
  = let '(res, t, rest') := poll rq (if licensed r then count + 1 else 0) rest in
    (res, (rq, r) :: t, rest').
Proof.
  intros Hc [Hcode [status Hs]]. simpl. rewrite Hc, Hcode. simpl.
  unfold licensed. rewrite Hs. reflexivity.
Qed.

Lemma poll_never_raises rq : forall polls count,
  Forall poll_ok polls -> forall e, fst (fst (poll rq count polls)) <> Raise e.
Proof.
  induction polls as [|r rest IH]; intros count Hok e.
  - simpl. destruct (count <? 3); discriminate.
  - inversion Hok as [|? ? Hr Hrest]; subst.
    destruct (count <? 3) eqn:Hc.
    + rewrite poll_accepts by assumption.
      specialize (IH (if licensed r then count + 1 else 0) Hrest e).
      destruct (poll rq _ rest) as [[res t] rest']. exact IH.
    + rewrite poll_done by assumption. discriminate.
Qed.

(** The loop entered with [count = k]: it behaves as if [k] polls reading
    "LICENSED" had come before the ones it makes. *)
Lemma poll_streak rq : forall polls k,
  (k <= 2)%nat -> Forall poll_ok polls ->
  (forall i,
     streak3 (repeat true k ++ map licensed polls) i = true ->
     (forall j, (j < i)%nat ->
        streak3 (repeat true k ++ map licensed polls) j = false) ->
     poll rq (Z.of_nat k) polls
     = (Ret tt, map (pair rq) (firstn (i + 3 - k) polls), skipn (i + 3 - k) polls))
  /\ ((forall i, streak3 (repeat true k ++ map licensed polls) i = false) ->
      poll rq (Z.of_nat k) polls = (Starved, map (pair rq) polls, [])).
Proof.
  induction polls as [|r rest IH]; intros k Hk Hok.
  - split.
    + intros i Hi _. exfalso.
      destruct k as [|[|[|k]]]; [| | |lia];
        destruct i as [|[|i]]; simpl in Hi; try discriminate Hi;
        destruct i; discriminate Hi.
    + intros _. destruct k as [|[|[|k]]]; [reflexivity..|lia].
  - inversion Hok as [|? ? Hr Hrest]; subst.
    assert (Hc : (Z.of_nat k <? 3) = true) by (apply Z.ltb_lt; lia).
    rewrite (poll_accepts rq _ r rest Hc Hr).
    destruct (licensed r) eqn:Hl.
    + (* the poll reads "LICENSED": the streak grows *)
      destruct (Nat.eq_dec k 2) as [->|Hk2].
      * (* third in a row: the loop ends *)
        rewrite poll_done by reflexivity. simpl map. rewrite Hl. split.
        -- intros i Hi Hmin. destruct i as [|i]; [reflexivity|].
           specialize (Hmin O ltac:(lia)). discriminate Hmin.
        -- intros Hnone. specialize (Hnone O). discriminate Hnone.
      * destruct (IH (S k) ltac:(lia) Hrest) as [IHret IHstarve].
        replace (Z.of_nat k + 1) with (Z.of_nat (S k)) by lia.
        assert (Hflags : repeat true k ++ map licensed (r :: rest)
                         = repeat true (S k) ++ map licensed rest).
        { simpl map. rewrite Hl. change (true :: map licensed rest)
            with ([true] ++ map licensed rest).
          rewrite app_assoc. f_equal. symmetry. apply (repeat_cons k true). }
        rewrite Hflags. split.
        -- intros i Hi Hmin. rewrite (IHret i Hi Hmin).
           replace (i + 3 - k)%nat with (S (i + 3 - S k)) by lia. reflexivity.
        -- intros Hnone. rewrite (IHstarve Hnone). reflexivity.
    + (* the poll reads something else: the count starts again *)
      destruct (IH O ltac:(lia) Hrest) as [IHret IHstarve].
      change (Z.of_nat 0) with 0 in *. simpl repeat in IHret, IHstarve.
      simpl app in IHret, IHstarve. simpl map. rewrite Hl.
      assert (Hshift : forall i,
                streak3 (repeat true k ++ false :: map licensed rest) (i + S k)
                = streak3 (map licensed rest) i).
      { intros i. destruct k as [|[|[|k]]]; [| | |lia]; simpl repeat; simpl app;
          unfold streak3;
          [replace (i + 1)%nat with (S i) by lia
          |replace (i + 2)%nat with (S (S i)) by lia
          |replace (i + 3)%nat with (S (S (S i))) by lia]; reflexivity. }
      assert (Hearly : forall i, (i <= k)%nat ->
                streak3 (repeat true k ++ false :: map licensed rest) i = false).
      { intros i Hi.
        destruct k as [|[|[|k]]]; [| | |lia];
          destruct i as [|[|[|i]]]; try lia; simpl; unfold streak3; simpl;
          try reflexivity; rewrite ?andb_false_r; reflexivity. }
      split.
      * intros i Hi Hmin.
        destruct (le_lt_dec i k) as [Hle|Hgt];
          [rewrite (Hearly i Hle) in Hi; discriminate Hi|].
        replace i with ((i - S k) + S k)%nat in Hi by lia.
        rewrite Hshift in Hi.
        rewrite (IHret (i - S k)%nat Hi).
        -- replace (i + 3 - k)%nat with (S (i - S k + 3 - 0)) by lia. reflexivity.
        -- intros j Hj. rewrite <- Hshift. apply Hmin. lia.
      * intros Hnone. rewrite IHstarve; [reflexivity|].
        intros i. rewrite <- Hshift. apply Hnone.
Qed.

Lemma observe_polling rq count polls c :
  observe (polling rq count {| pending := polls; changes := c |})
  = let '(r, t, rest) := poll rq count polls in
    (r, map erase t, {| pending := rest; changes := c |}).
Proof.
  unfold polling, observe. simpl.
  destruct (poll rq count polls) as [[r t] rest]. reflexivity.
Qed.

Lemma erase_polls rq (polls : list response) :
  meth rq = GET -> site rq = member_poll ->
  map erase (map (pair rq) polls) = map (fun r => (GET, member_poll, r)) polls.
Proof.
  intros Hm Hs. rewrite map_map. apply map_ext. intros r.
  unfold erase. simpl. now rewrite Hm, Hs.
Qed.

(** [wait_for_device_to_be_licensed] once its three lookups have succeeded:
    what is left is the loop, entered with [count = 0]. *)
Lemma observe_wait ext want l1 l2 l3 polls c :
  found ModuleParameters.offering_id_of l1 ->
  found ModuleParameters.offering_id_of l2 ->
  found ModuleParameters.member_id_of l3 ->
  exists rq, meth rq = GET /\ site rq = member_poll
    /\ observe (ModuleManager.wait_for_device_to_be_licensed ext want
                  {| pending := l1 :: l2 :: l3 :: polls; changes := c |})
       = let '(r, t, rest) := poll rq 0 polls in
         (r,
          [(GET, offerings_query, l1); (GET, offerings_query, l2);
           (GET, members_query, l3)] ++ map erase t,
          {| pending := rest; changes := c |}).
Proof.
  intros [oid H1] H2 [mid H3].
  unfold ModuleManager.wait_for_device_to_be_licensed.
  run_step. rewrite observe_offering_id, H1. cbn [then_observe].
  run_step. rewrite observe_member_id by exact H2. rewrite H3.
  cbn [then_observe]. rewrite observe_polling.
  match goal with |- context [poll ?q 0 polls] => exists q end.
  split; [reflexivity|]. split; [reflexivity|].
  destruct (poll _ 0 polls) as [[r t] rest]. reflexivity.
Qed.

Lemma pending_poll_ok : poll_ok (member_response "PENDING").
Proof. split; [reflexivity|]. eexists. reflexivity. Qed.

Lemma poll_pending rq : forall n,
  poll rq 0 (repeat (member_response "PENDING") n)
  = (Starved, map (pair rq) (repeat (member_response "PENDING") n), []).
Proof.
  induction n as [|n IH]; [reflexivity|].
  simpl repeat. rewrite poll_accepts by (reflexivity || apply pending_poll_ok).
  change (licensed (member_response "PENDING")) with false. cbv iota.
  rewrite IH. reflexivity.
Qed.

(** C1 as stated fails: the loop has no bound.  While the status does not
    read "LICENSED" the function keeps polling: after any number [n] of
    responses, all of them 200, it has made [n] polls and is waiting for the
    next response.  And when it does return, it may have polled more than
    three times: four times below. *)
Lemma polling_has_no_bound :
  (forall n : nat,
     res (ModuleManager.wait_for_device_to_be_licensed sample_ext unmanaged_want
            (ModuleManager.init
               (wait_lookups ++ repeat (member_response "PENDING") n)))
     = Starved
     /\ List.length
          (trace (ModuleManager.wait_for_device_to_be_licensed sample_ext unmanaged_want
                    (ModuleManager.init
                       (wait_lookups ++ repeat (member_response "PENDING") n))))
        = (3 + n)%nat)
  /\ observe (ModuleManager.wait_for_device_to_be_licensed sample_ext unmanaged_want
                (ModuleManager.init
                   (wait_lookups
                    ++ [member_response "PENDING"; member_response "LICENSED";
                        member_response "LICENSED"; member_response "LICENSED"])))
     = (Ret tt,
        [ (GET, offerings_query, found_response "offering");
          (GET, offerings_query, found_response "offering");
          (GET, members_query, found_response "member");
          (GET, member_poll, member_response "PENDING");
          (GET, member_poll, member_response "LICENSED");
          (GET, member_poll, member_response "LICENSED");
          (GET, member_poll, member_response "LICENSED") ],
        ModuleManager.init []).
Proof.
  split; [|reflexivity].
  intros n.
  destruct (observe_wait sample_ext unmanaged_want
              (found_response "offering") (found_response "offering")
              (found_response "member")
              (repeat (member_response "PENDING") n) (UsableChanges_ []))
    as [rq [Hm [Hs H]]]; try (eexists; reflexivity).
  rewrite poll_pending in H.
  apply observed_trace in H. destruct H as (Hres & Htrace & _).
  split; [exact Hres|].
  apply (f_equal (@List.length event)) in Htrace.
  rewrite length_map in Htrace. unfold wait_lookups, ModuleManager.init. simpl app.
  rewrite Htrace. simpl. rewrite !length_map, repeat_length. reflexivity.
Qed.

(** C1, amended.  Once its lookups have succeeded,
    [wait_for_device_to_be_licensed] polls the member until its status has
    read "LICENSED" on three consecutive polls, and there is no bound on the
    number of polls.  For every sequence of polling responses that carry a
    code 200, 201 or 202 and a status:
    - if polls [i], [i+1], [i+2] are the first three consecutive ones that
      read "LICENSED", it returns after exactly [i+3] polls;
    - if no three consecutive polls read "LICENSED", it has polled every
      response and is waiting for the next;
    - it never raises. *)
Theorem wait_returns_after_three_consecutive_licensed
    (ext : externals) (want : params) (c : changes_obj)
    (l1 l2 l3 : response) (polls : list response) :
  found ModuleParameters.offering_id_of l1 ->
  found ModuleParameters.offering_id_of l2 ->
  found ModuleParameters.member_id_of l3 ->
  Forall poll_ok polls ->
  let run := ModuleManager.wait_for_device_to_be_licensed ext want
               {| pending := l1 :: l2 :: l3 :: polls; changes := c |} in
  (forall i,
     three_licensed_from polls i = true ->
     (forall j, (j < i)%nat -> three_licensed_from polls j = false) ->
     observe run
     = (Ret tt,
        [(GET, offerings_query, l1); (GET, offerings_query, l2);
         (GET, members_query, l3)]
        ++ map (fun r => (GET, member_poll, r)) (firstn (i + 3) polls),
        {| pending := skipn (i + 3) polls; changes := c |}))
  /\ ((forall i, three_licensed_from polls i = false) ->
      observe run
      = (Starved,
         [(GET, offerings_query, l1); (GET, offerings_query, l2);
          (GET, members_query, l3)]
         ++ map (fun r => (GET, member_poll, r)) polls,
         {| pending := []; changes := c |}))
  /\ forall e, res run <> Raise e.
Proof.
  intros H1 H2 H3 Hok run. subst run.
  destruct (observe_wait ext want l1 l2 l3 polls c H1 H2 H3) as [rq [Hm [Hs H]]].
  destruct (poll_streak rq polls 0 ltac:(lia) Hok) as [Hret Hstarve].
  simpl repeat in Hret, Hstarve. simpl app in Hret, Hstarve.
  change (Z.of_nat 0) with 0 in Hret, Hstarve.
  split; [|split].
  - intros i Hi Hmin. rewrite H, (Hret i Hi Hmin).
    rewrite Nat.sub_0_r, erase_polls by assumption. reflexivity.
  - intros Hnone. rewrite H, (Hstarve Hnone).
    rewrite erase_polls by assumption. reflexivity.
  - intros e He. pose proof (poll_never_raises rq polls 0 Hok e) as Hnever.
    destruct (poll rq 0 polls) as [[r t] rest]. simpl in Hnever.
    apply observed_trace in H.
    destruct H as (Hres & _). rewrite Hres in He. contradiction.
Qed.

Lemma wait_returns_after_three_consecutive_licensed_witness :
  observe (ModuleManager.wait_for_device_to_be_licensed sample_ext unmanaged_want
             (ModuleManager.init
                (wait_lookups
                 ++ [member_response "PENDING"; member_response "LICENSED";
                     member_response "LICENSED"; member_response "LICENSED";
                     member_response "REVOKED"])))
  = (Ret tt,
     [ (GET, offerings_query, found_response "offering");
       (GET, offerings_query, found_response "offering");
       (GET, members_query, found_response "member");
       (GET, member_poll, member_response "PENDING");
       (GET, member_poll, member_response "LICENSED");
       (GET, member_poll, member_response "LICENSED");
       (GET, member_poll, member_response "LICENSED") ],
     ModuleManager.init [member_response "REVOKED"]).
Proof.
  refine (proj1 (wait_returns_after_three_consecutive_licensed
                   sample_ext unmanaged_want (UsableChanges_ [])
                   (found_response "offering") (found_response "offering")
                   (found_response "member")
                   [member_response "PENDING"; member_response "LICENSED";
                    member_response "LICENSED"; member_response "LICENSED";
                    member_response "REVOKED"] _ _ _ _) 1%nat _ _).
  - eexists; reflexivity.
  - eexists; reflexivity.
  - eexists; reflexivity.
  - repeat constructor; eexists; reflexivity.
  - reflexivity.
  - intros j Hj. destruct j as [|j]; [reflexivity|lia].
Defined.

(** * More of the module *)

(** ** Every answer is checked, but one *)

Lemma unaccepted_code_is_raised_at_once_witness :
  res (ModuleManager.exec_module sample_ext managed_want false
         (ModuleManager.init
            [found_response "offering"; empty_response;
             found_response "device"; found_response "device";
             found_response "offering";
             plain_response 500 "Internal Server Error";
             found_response "offering"]))
  = Raise (F5ModuleError (PStr "Internal Server Error")).
Proof.
  refine (proj1 (unaccepted_code_is_raised_at_once sample_ext managed_want false
                   (ModuleManager.init
                      [found_response "offering"; empty_response;
                       found_response "device"; found_response "device";
                       found_response "offering";
                       plain_response 500 "Internal Server Error";
                       found_response "offering"])
                   _ (plain_response 500 "Internal Server Error") _ _ _ _)).
  - do 5 right. left. reflexivity.
  - discriminate.
  - reflexivity.
  - intros [Hsite _]. discriminate Hsite.
Defined.

(** ** Requests that change something *)

Lemma only_weaken (P Q : exchange -> Prop) {A} (m : M A) :
  (forall x, P x -> Q x) -> only P m -> only Q m.
Proof. intros H Hm s. eapply Forall_impl; [exact H|apply Hm]. Qed.

Lemma bounded_of_gets {A} (m : M A) : only is_get m -> bounded 0 m.
Proof.
  intros H s. specialize (H s).
  induction (trace (m s)) as [|x t IH]; [constructor|].
  inversion H as [|? ? Hx Ht]; subst. simpl. unfold mutating at 1.
  unfold is_get in Hx. rewrite Hx. auto.
Qed.

Lemma bounded_le (n n' : nat) {A} (m : M A) :
  (n <= n')%nat -> bounded n m -> bounded n' m.
Proof. intros Hle H s. specialize (H s). lia. Qed.

Lemma bounded_bind (n1 n2 : nat) {A B} (c : M A) (f : A -> M B) :
  bounded n1 c -> (forall a, bounded n2 (f a)) -> bounded (n1 + n2) (x <- c ;; f x).
Proof.
  intros Hc Hf s. simpl. unfold M_bind.
  specialize (Hc s). destruct (c s) as [[a|e|] t s1]; simpl in *; try lia.
  specialize (Hf a s1). destruct (f a s1) as [r t' s2]; simpl in *.
  rewrite filter_app, length_app. lia.
Qed.

Lemma bounded_send rq : bounded 1 (send rq).
Proof.
  intros s. unfold send. destruct (pending s); simpl; [lia|].
  destruct (mutating _); simpl; lia.
Qed.

Lemma bounded_silent {A} (m : M A) : (forall s, trace (m s) = []) -> bounded 0 m.
Proof. intros H s. rewrite H. constructor. Qed.

Section Mutations.

Variable ext : externals.
Variable want : params.
Variable check_mode : bool.

Lemma bounded_create_on_device : bounded 1 (ModuleManager.create_on_device ext want).
Proof.
  unfold ModuleManager.create_on_device.
  apply (bounded_bind 0 1); [now apply bounded_silent|intros c].
  apply (bounded_bind 0 1);
    [apply bounded_of_gets, only_get_offering_id|intros oid].
  apply (bounded_bind 1 0); [apply bounded_send|intros r].
  destruct (negb _); now apply bounded_silent.
Qed.

Lemma bounded_remove_from_device :
  bounded 1 (ModuleManager.remove_from_device ext want).
Proof.
  unfold ModuleManager.remove_from_device.
  apply (bounded_bind 0 1);
    [apply bounded_of_gets, only_get_offering_id|intros oid].
  apply (bounded_bind 0 1);
    [apply bounded_of_gets, only_get_member_id|intros mid].
  apply (bounded_bind 0 1).
  - destruct (negb _); [|now apply bounded_silent].
    apply (bounded_bind 0 0); [now apply bounded_silent|intros c].
    apply (bounded_bind 0 0);
      [apply bounded_of_gets, only_get_member_id|intros mid'].
    now apply bounded_silent.
  - intros data. apply (bounded_bind 1 0); [apply bounded_send|intros r].
    now apply bounded_silent.
Qed.

Lemma bounded_create : bounded 1 (ModuleManager.create ext want check_mode).
Proof.
  unfold ModuleManager.create.
  apply (bounded_bind 0 1);
    [apply bounded_of_gets, only_get__set_changed_options|intros _].
  apply (bounded_bind 0 1).
  { repeat match goal with
           | |- bounded _ (if ?b then _ else _) => destruct b
           | |- bounded 0 _ => now apply bounded_silent
           end. }
  intros _. destruct check_mode;
    [apply (bounded_le 0); [lia|now apply bounded_silent]|].
  apply (bounded_bind 1 0); [apply bounded_create_on_device|intros _].
  apply (bounded_bind 0 0); [apply bounded_of_gets, only_get_exists|intros found].
  destruct (negb found); [now apply bounded_silent|].
  apply (bounded_bind 0 0); [apply bounded_of_gets, only_get_wait|intros _].
  now apply bounded_silent.
Qed.

Lemma bounded_remove : bounded 1 (ModuleManager.remove ext want check_mode).
Proof.
  unfold ModuleManager.remove.
  apply (bounded_bind 0 1);
    [apply bounded_of_gets, only_get__set_changed_options|intros _].
  destruct check_mode;
    [apply (bounded_le 0); [lia|now apply bounded_silent]|].
  apply (bounded_bind 1 0); [apply bounded_remove_from_device|intros _].
  apply (bounded_bind 0 0); [apply bounded_of_gets, only_get_exists|intros found].
  destruct found; now apply bounded_silent.
Qed.

Lemma bounded_exec_module : bounded 1 (ModuleManager.exec_module ext want check_mode).
Proof.
  unfold ModuleManager.exec_module, ModuleManager.present, ModuleManager.absent.
  apply (bounded_bind 1 0).
  - destruct (String.eqb _ "present"); [|destruct (String.eqb _ "absent")].
    + apply (bounded_bind 0 1); [apply bounded_of_gets, only_get_exists|intros found].
      destruct found;
        [apply (bounded_le 0); [lia|now apply bounded_silent]|apply bounded_create].
    + apply (bounded_bind 0 1); [apply bounded_of_gets, only_get_exists|intros found].
      destruct found;
        [apply bounded_remove|apply (bounded_le 0); [lia|now apply bounded_silent]].
    + apply (bounded_le 0); [lia|now apply bounded_silent].
  - intros changed. apply (bounded_bind 0 0); [|intros c]; now apply bounded_silent.
Qed.

(** [create] and what it calls never DELETE; [remove] and what it calls
    never POST. *)
Ltac only_method :=
  repeat match goal with
         | |- only _ (bind _ _) => apply only_bind; [|intros ?]
         | |- only _ (ret _) => apply only_ret
         | |- only _ (raise _) => apply only_raise
         | |- only _ (lift _) => apply only_lift
         | |- only _ get_changes => apply only_get_changes
         | |- only _ (set_changes _) => apply only_set_changes
         | |- only _ (client.post _ _ _) => apply only_send; intros ?; discriminate
         | |- only _ (client.delete _ _ _) => apply only_send; intros ?; discriminate
         | |- only _ (if ?b then _ else _) => destruct b
         | |- only _ (ModuleParameters.offering_id _) =>
             apply (only_weaken is_get);
             [intros ? Hget ?; unfold is_get in Hget; congruence
             |apply only_get_offering_id]
         | |- only _ (ModuleParameters.member_id _ _) =>
             apply (only_weaken is_get);
             [intros ? Hget ?; unfold is_get in Hget; congruence
             |apply only_get_member_id]
         | |- only _ (ModuleManager._set_changed_options _ _) =>
             apply (only_weaken is_get);
             [intros ? Hget ?; unfold is_get in Hget; congruence
             |apply only_get__set_changed_options]
         | |- only _ (ModuleManager.exists_ _ _) =>
             apply (only_weaken is_get);
             [intros ? Hget ?; unfold is_get in Hget; congruence
             |apply only_get_exists]
         | |- only _ (ModuleManager.wait_for_device_to_be_licensed _ _) =>
             apply (only_weaken is_get);
             [intros ? Hget ?; unfold is_get in Hget; congruence
             |apply only_get_wait]
         end.

Lemma create_never_deletes :
  only (fun x => meth (fst x) <> DELETE) (ModuleManager.create ext want check_mode).
Proof.
  unfold ModuleManager.create, ModuleManager.create_on_device. only_method.
Qed.

Lemma remove_never_posts :
  only (fun x => meth (fst x) <> POST) (ModuleManager.remove ext want check_mode).
Proof.
  unfold ModuleManager.remove, ModuleManager.remove_from_device. only_method.
Qed.

Lemma posts_only_when_present :
  only (fun x => meth (fst x) = POST -> _state want = "present")
       (ModuleManager.exec_module ext want check_mode).
Proof.
  unfold ModuleManager.exec_module, ModuleManager.present, ModuleManager.absent.
  apply only_bind; [|intros changed; only_method].
  destruct (String.eqb _ "present") eqn:Hstate.
  - apply String.eqb_eq in Hstate.
    apply (only_weaken (fun _ => True)); [auto|]. intros s.
    apply Forall_forall. auto.
  - destruct (String.eqb _ "absent"); [|apply only_ret].
    apply only_bind.
    + apply (only_weaken is_get); [|apply only_get_exists].
      intros x Hget Hpost. unfold is_get in Hget. congruence.
    + intros found. destruct found; [|apply only_ret].
      apply (only_weaken (fun x => meth (fst x) <> POST)); [|apply remove_never_posts].
      intros x Hx Hpost. contradiction.
Qed.

Lemma deletes_only_when_absent :
  only (fun x => meth (fst x) = DELETE -> _state want = "absent")
       (ModuleManager.exec_module ext want check_mode).
Proof.
  unfold ModuleManager.exec_module, ModuleManager.present, ModuleManager.absent.
  apply only_bind; [|intros changed; only_method].
  destruct (String.eqb _ "present").
  - apply only_bind.
    + apply (only_weaken is_get); [|apply only_get_exists].
      intros x Hget Hdel. unfold is_get in Hget. congruence.
    + intros found. destruct found; [apply only_ret|].
      apply (only_weaken (fun x => meth (fst x) <> DELETE));
        [|apply create_never_deletes].
      intros x Hx Hdel. contradiction.
  - destruct (String.eqb _ "absent") eqn:Hstate; [|apply only_ret].
    apply String.eqb_eq in Hstate.
    apply (only_weaken (fun _ => True)); [auto|]. intros s.
    apply Forall_forall. auto.
Qed.

End Mutations.

(** X2. A run makes at most one request that changes something on the
    BIG-IQ, whatever the answers it gets: a POST is only ever issued with
    [state=present] and a DELETE only with [state=absent]. *)
Theorem at_most_one_mutating_request
    (ext : externals) (want : params) (check_mode : bool) (s : mstate) :
  (List.length
     (filter mutating (trace (ModuleManager.exec_module ext want check_mode s)))
   <= 1)%nat
  /\ Forall (fun x => meth (fst x) = POST -> _state want = "present")
            (trace (ModuleManager.exec_module ext want check_mode s))
  /\ Forall (fun x => meth (fst x) = DELETE -> _state want = "absent")
            (trace (ModuleManager.exec_module ext want check_mode s)).
Proof.
  split; [apply bounded_exec_module|].
  split; [apply posts_only_when_present|apply deletes_only_when_absent].
Qed.

(** ** What a run reports *)

Lemma exec_module_unfold ext want check_mode :
  ModuleManager.exec_module ext want check_mode
  = (changed <- reconcile ext want check_mode ;;
     changes <- get_changes ;;
     ret (report_of changes changed)).
Proof. reflexivity. Qed.

(** A run that returns has reconciled, and reports on the state that left. *)
Lemma exec_module_returns ext want check_mode s report :
  res (ModuleManager.exec_module ext want check_mode s) = Ret report ->
  exists changed,
    res (reconcile ext want check_mode s) = Ret changed
    /\ trace (ModuleManager.exec_module ext want check_mode s)
       = trace (reconcile ext want check_mode s)
    /\ report = report_of (changes (final (reconcile ext want check_mode s))) changed.
Proof.
  rewrite exec_module_unfold. simpl. unfold M_bind.
  destruct (reconcile ext want check_mode s) as [[changed|e|] t s1]; simpl;
    try discriminate.
  intros H. inversion H. exists changed.
  rewrite app_nil_r. repeat split; reflexivity.
Qed.

Lemma dict_set_in d k v k' v' :
  In (k', v') (dict_set d k v) -> In (k', v') d \/ (k', v') = (k, v).
Proof.
  induction d as [|[k0 v0] d IH]; simpl.
  - intros [H|[]]. right. now symmetry.
  - destruct (String.eqb k0 k); simpl.
    + intros [H|H]; [right; now symmetry|left; now right].
    + intros [H|H]; [left; now left|].
      destruct (IH H) as [Hin|Heq]; [left; now right|now right].
Qed.

Lemma dict_update_in other : forall d k v,
  In (k, v) (dict_update d other) -> In (k, v) d \/ In (k, v) other.
Proof.
  unfold dict_update. induction other as [|[k0 v0] other IH]; intros d k v; simpl.
  - now left.
  - intros H. destruct (IH _ _ _ H) as [Hin|Hin]; [|right; now right].
    destruct (dict_set_in _ _ _ _ _ Hin) as [Hd|Heq]; [now left|].
    right. left. now symmetry.
Qed.

Lemma dict_get_set_same d k v : dict_get (dict_set d k v) k = Some v.
Proof.
  induction d as [|[k0 v0] d IH]; simpl.
  - now rewrite String.eqb_refl.
  - destruct (String.eqb k0 k) eqn:E; simpl.
    + now rewrite String.eqb_refl.
    + now rewrite E.
Qed.

Lemma dict_get_pop_other d k k' :
  String.eqb k' k = false -> dict_get (dict_pop d k') k = dict_get d k.
Proof.
  intros Hk. unfold dict_pop. induction d as [|[k0 v0] d IH]; simpl; [reflexivity|].
  destruct (String.eqb k0 k') eqn:E; simpl.
  - apply String.eqb_eq in E. subst k0. now rewrite Hk.
  - now rewrite IH.
Qed.

Lemma report_of_changed c changed :
  dict_get (report_of c changed) "changed" = Some (PBool changed).
Proof.
  unfold report_of, ModuleManager._announce_deprecations.
  rewrite dict_get_pop_other by reflexivity.
  unfold dict_update at 1. simpl fold_left. apply dict_get_set_same.
Qed.

Lemma to_return_entries getattr k v :
  In (k, v) (Parameters.to_return getattr) ->
  In k Parameters.returnables /\ v <> PNone.
Proof.
  unfold Parameters.to_return, AnsibleF5Parameters._filter_params.
  intros H. apply filter_In in H. destruct H as [Hin Hnone]. split.
  - apply in_map_iff in Hin. destruct Hin as [r [Heq Hr]]. now inversion Heq; subst.
  - intros ->. discriminate Hnone.
Qed.

Lemma report_of_entries c changed k v :
  In (k, v) (report_of c changed) ->
  (k, v) = ("changed", PBool changed)
  \/ (In k Parameters.returnables /\ v <> PNone).
Proof.
  unfold report_of, ModuleManager._announce_deprecations, dict_pop.
  intros H. apply filter_In in H. destruct H as [H _].
  apply dict_update_in in H. destruct H as [H|[H|[]]]; [|left; now symmetry].
  apply dict_update_in in H. destruct H as [[]|H].
  right. eapply to_return_entries. exact H.
Qed.

(** X3. Whenever [exec_module] returns, its result says whether something
    changed, as a boolean under ['changed'], and every other entry of the
    result is one of the [returnables] with a value that is not [None]. *)
Theorem result_is_well_formed
    (ext : externals) (want : params) (check_mode : bool) (s : mstate)
    (report : dict) :
  res (ModuleManager.exec_module ext want check_mode s) = Ret report ->
  (exists changed, dict_get report "changed" = Some (PBool changed))
  /\ forall k v, In (k, v) report ->
       k = "changed" \/ (In k Parameters.returnables /\ v <> PNone).
Proof.
  intros H. destruct (exec_module_returns _ _ _ _ _ H) as [changed (_ & _ & ->)].
  split.
  - exists changed. apply report_of_changed.
  - intros k v Hin. destruct (report_of_entries _ _ _ _ Hin) as [Heq|Hret].
    + left. now inversion Heq.
    + now right.
Qed.

Lemma result_is_well_formed_witness :
  (exists changed,
     dict_get
       [("device_address", PStr "1.1.1.1"); ("device_username", PStr "admin");
        ("device_password", PStr "secret"); ("device_port", PInt 443);
        ("managed", PBool false); ("unit_of_measure", PStr "hourly");
        ("changed", PBool true)]
       "changed" = Some (PBool changed))
  /\ forall k v,
       In (k, v)
         [("device_address", PStr "1.1.1.1"); ("device_username", PStr "admin");
          ("device_password", PStr "secret"); ("device_port", PInt 443);
          ("managed", PBool false); ("unit_of_measure", PStr "hourly");
          ("changed", PBool true)] ->
       k = "changed" \/ (In k Parameters.returnables /\ v <> PNone).
Proof.
  apply (result_is_well_formed sample_ext unmanaged_want true
           (ModuleManager.init [found_response "offering"; empty_response])).
  reflexivity.
Defined.

Section Unchanged_runs.

Variable ext : externals.
Variable want : params.
Variable check_mode : bool.

Lemma create_never_returns_false s :
  res (ModuleManager.create ext want check_mode s) <> Ret false.
Proof.
  unfold ModuleManager.create.
  apply never_false_bind; intros _ s1.
  apply never_false_bind; intros _ s2.
  destruct check_mode; [discriminate|].
  apply never_false_bind; intros _ s3.
  apply never_false_bind; intros found s4.
  destruct (negb found); [discriminate|].
  apply never_false_bind; intros _ s5. discriminate.
Qed.

Lemma remove_never_returns_false s :
  res (ModuleManager.remove ext want check_mode s) <> Ret false.
Proof.
  unfold ModuleManager.remove.
  apply never_false_bind; intros _ s1.
  destruct check_mode; [discriminate|].
  apply never_false_bind; intros _ s2.
  apply never_false_bind; intros found s3.
  destruct found; discriminate.
Qed.

Lemma reconcile_false_only_gets s :
  res (reconcile ext want check_mode s) = Ret false ->
  Forall is_get (trace (reconcile ext want check_mode s)).
Proof.
  unfold reconcile, ModuleManager.present, ModuleManager.absent.
  destruct (String.eqb _ "present"); [|destruct (String.eqb _ "absent")].
  - simpl. unfold M_bind.
    pose proof (only_get_exists ext want s) as Hgets.
    destruct (ModuleManager.exists_ ext want s) as [[found|e|] t s1]; simpl in *;
      try discriminate.
    destruct found; simpl; [intros _; now rewrite app_nil_r|].
    pose proof (create_never_returns_false s1) as Hnever.
    destruct (ModuleManager.create ext want check_mode s1) as [r t' s2]; simpl in *.
    intros H. contradiction.
  - simpl. unfold M_bind.
    pose proof (only_get_exists ext want s) as Hgets.
    destruct (ModuleManager.exists_ ext want s) as [[found|e|] t s1]; simpl in *;
      try discriminate.
    destruct found; simpl; [|intros _; now rewrite app_nil_r].
    pose proof (remove_never_returns_false s1) as Hnever.
    destruct (ModuleManager.remove ext want check_mode s1) as [r t' s2]; simpl in *.
    intros H. contradiction.
  - intros _. constructor.
Qed.

End Unchanged_runs.

(** X4. A run that reports [changed=False] has changed nothing: every
    request it made was a GET. *)
Theorem unchanged_means_only_gets
    (ext : externals) (want : params) (check_mode : bool) (s : mstate)
    (report : dict) :
  res (ModuleManager.exec_module ext want check_mode s) = Ret report ->
  dict_get report "changed" = Some (PBool false) ->
  Forall is_get (trace (ModuleManager.exec_module ext want check_mode s)).
Proof.
  intros H Hchanged.
  destruct (exec_module_returns _ _ _ _ _ H) as [changed (Hres & Htrace & ->)].
  rewrite report_of_changed in Hchanged. inversion Hchanged; subst changed.
  rewrite Htrace. now apply reconcile_false_only_gets.
Qed.

Lemma unchanged_means_only_gets_witness :
  Forall is_get
    (trace (ModuleManager.exec_module sample_ext unmanaged_want false
              (ModuleManager.init
                 [found_response "offering"; found_response "member";
                  found_response "offering";
                  found_response "offering"; found_response "member";
                  member_response "LICENSED"]))).
Proof.
  apply (unchanged_means_only_gets sample_ext unmanaged_want false
           (ModuleManager.init
              [found_response "offering"; found_response "member";
               found_response "offering";
               found_response "offering"; found_response "member";
               member_response "LICENSED"])
           [("changed", PBool false)]).
  - reflexivity.
  - reflexivity.
Defined.

(** ** Who writes the change set *)

Lemma frames_silent {A} (m : M A) : (forall s, final (m s) = s) -> frames m.
Proof. intros H s. now rewrite H. Qed.

Lemma frames_send rq : frames (send rq).
Proof. intros s. unfold send. destruct (pending s); reflexivity. Qed.

Lemma frames_bind {A B} (c : M A) (f : A -> M B) :
  frames c -> (forall a, frames (f a)) -> frames (x <- c ;; f x).
Proof.
  intros Hc Hf s. simpl. unfold M_bind.
  specialize (Hc s). destruct (c s) as [[a|e|] t s1]; simpl in *; auto.
  specialize (Hf a s1). destruct (f a s1) as [r t' s2]; simpl in *. congruence.
Qed.

Lemma frames_polling rq count : frames (polling rq count).
Proof.
  intros s. unfold polling. destruct (poll rq count (pending s)) as [[r t] rest].
  reflexivity.
Qed.

Ltac frames_step :=
  match goal with
  | |- frames (bind _ _) => apply frames_bind; [|intros ?]
  | |- frames (ret _) => apply frames_silent; reflexivity
  | |- frames (raise _) => apply frames_silent; reflexivity
  | |- frames (lift _) => apply frames_silent; reflexivity
  | |- frames get_changes => apply frames_silent; reflexivity
  | |- frames (client.get _ _) => apply frames_send
  | |- frames (client.post _ _ _) => apply frames_send
  | |- frames (client.delete _ _ _) => apply frames_send
  | |- frames (polling _ _) => apply frames_polling
  | |- frames (if ?b then _ else _) => destruct b
  end.

Section Frames.

Variable ext : externals.
Variable want : params.

Lemma frames_offering_id : frames (ModuleParameters.offering_id want).
Proof. unfold ModuleParameters.offering_id. repeat frames_step. Qed.

Lemma frames_member_id : frames (ModuleParameters.member_id ext want).
Proof.
  unfold ModuleParameters.member_id.
  repeat (apply frames_offering_id || frames_step).
Qed.

Lemma frames_exists : frames (ModuleManager.exists_ ext want).
Proof.
  unfold ModuleManager.exists_.
  repeat (apply frames_offering_id || apply frames_member_id || frames_step).
Qed.

Lemma frames_create_on_device : frames (ModuleManager.create_on_device ext want).
Proof.
  unfold ModuleManager.create_on_device.
  repeat (apply frames_offering_id || frames_step).
Qed.

Lemma frames_wait : frames (ModuleManager.wait_for_device_to_be_licensed ext want).
Proof.
  unfold ModuleManager.wait_for_device_to_be_licensed.
  repeat (apply frames_offering_id || apply frames_member_id || frames_step).
Qed.

Lemma frames_remove_from_device : frames (ModuleManager.remove_from_device ext want).
Proof.
  unfold ModuleManager.remove_from_device.
  repeat (apply frames_offering_id || apply frames_member_id || frames_step).
Qed.

End Frames.

(** ** Check mode as a dry run *)

(** What comes after the check of [check_mode] in [create] and in [remove]
    adds requests and may fail, but when it returns it returns [True] and has
    left the change set alone. *)
Lemma dry_run_of_tail {A} (c : M A) (tail : M bool) s :
  frames tail ->
  (forall s', res (tail s') <> Ret false) ->
  forall changed,
    res ((c ;; tail) s) = Ret changed ->
    res ((c ;; (ret true : M bool)) s) = Ret changed
    /\ changes (final ((c ;; (ret true : M bool)) s)) = changes (final ((c ;; tail) s))
    /\ exists more,
         trace ((c ;; tail) s) = trace ((c ;; (ret true : M bool)) s) ++ more.
Proof.
  intros Hframes Hnever changed. simpl. unfold M_bind.
  destruct (c s) as [[a|e|] t s1]; simpl; try discriminate.
  specialize (Hframes s1). specialize (Hnever s1).
  destruct (tail s1) as [r t' s2]; simpl in *.
  intros ->. destruct changed; [|contradiction].
  split; [reflexivity|]. split; [now symmetry|].
  exists t'. now rewrite app_nil_r.
Qed.

Section DryRun.

Variable ext : externals.
Variable want : params.

Lemma dry_run_bind {A} (c : M A) (real dry : A -> M bool) s :
  (forall a s1 changed,
     res (real a s1) = Ret changed ->
     res (dry a s1) = Ret changed
     /\ changes (final (dry a s1)) = changes (final (real a s1))
     /\ exists more, trace (real a s1) = trace (dry a s1) ++ more) ->
  forall changed,
    res ((x <- c ;; real x) s) = Ret changed ->
    res ((x <- c ;; dry x) s) = Ret changed
    /\ changes (final ((x <- c ;; dry x) s)) = changes (final ((x <- c ;; real x) s))
    /\ exists more, trace ((x <- c ;; real x) s) = trace ((x <- c ;; dry x) s) ++ more.
Proof.
  intros H changed. simpl. unfold M_bind.
  destruct (c s) as [[a|e|] t s1]; simpl; try discriminate.
  specialize (H a s1 changed).
  destruct (real a s1) as [r t' s2]; destruct (dry a s1) as [r' t'' s2']; simpl in *.
  intros Hr. destruct (H Hr) as (Hres & Hch & [more Hmore]).
  split; [exact Hres|]. split; [exact Hch|].
  exists more. rewrite Hmore. apply app_assoc.
Qed.

Lemma dry_run_same {A} (m : M A) s (changed : A) :
  res (m s) = Ret changed ->
  res (m s) = Ret changed
  /\ changes (final (m s)) = changes (final (m s))
  /\ exists more, trace (m s) = trace (m s) ++ more.
Proof. intros H. split; [exact H|]. split; [reflexivity|]. exists []. now rewrite app_nil_r. Qed.

Lemma dry_run_create s changed :
  res (ModuleManager.create ext want false s) = Ret changed ->
  res (ModuleManager.create ext want true s) = Ret changed
  /\ changes (final (ModuleManager.create ext want true s))
     = changes (final (ModuleManager.create ext want false s))
  /\ exists more,
       trace (ModuleManager.create ext want false s)
       = trace (ModuleManager.create ext want true s) ++ more.
Proof.
  unfold ModuleManager.create. revert changed.
  apply dry_run_bind. intros _ s1.
  apply dry_run_of_tail.
  - repeat (apply frames_create_on_device || apply frames_exists
            || apply frames_wait || frames_step).
  - intros s'. apply never_false_bind; intros _ s2.
    apply never_false_bind; intros found s3.
    destruct (negb found); [discriminate|].
    apply never_false_bind; intros _ s4. discriminate.
Qed.

Lemma dry_run_remove s changed :
  res (ModuleManager.remove ext want false s) = Ret changed ->
  res (ModuleManager.remove ext want true s) = Ret changed
  /\ changes (final (ModuleManager.remove ext want true s))
     = changes (final (ModuleManager.remove ext want false s))
  /\ exists more,
       trace (ModuleManager.remove ext want false s)
       = trace (ModuleManager.remove ext want true s) ++ more.
Proof.
  unfold ModuleManager.remove. revert changed.
  apply dry_run_of_tail.
  - repeat (apply frames_remove_from_device || apply frames_exists || frames_step).
  - intros s'. apply never_false_bind; intros _ s2.
    apply never_false_bind; intros found s3.
    destruct found; discriminate.
Qed.

Lemma dry_run_reconcile s changed :
  res (reconcile ext want false s) = Ret changed ->
  res (reconcile ext want true s) = Ret changed
  /\ changes (final (reconcile ext want true s))
     = changes (final (reconcile ext want false s))
  /\ exists more,
       trace (reconcile ext want false s) = trace (reconcile ext want true s) ++ more.
Proof.
  unfold reconcile, ModuleManager.present, ModuleManager.absent.
  destruct (String.eqb _ "present"); [|destruct (String.eqb _ "absent")].
  - revert changed. apply dry_run_bind. intros found s1 changed.
    destruct found; [apply dry_run_same|apply dry_run_create].
  - revert changed. apply dry_run_bind. intros found s1 changed.
    destruct found; [apply dry_run_remove|apply dry_run_same].
  - apply dry_run_same.
Qed.

End DryRun.

(** X5. Check mode is a faithful dry run.  Whenever a run returns a result,
    the run in check mode against the same answers returns the very same
    result, and the requests it makes are the first requests of the real
    run. *)
Theorem check_mode_predicts_the_result
    (ext : externals) (want : params) (s : mstate) (report : dict) :
  res (ModuleManager.exec_module ext want false s) = Ret report ->
  res (ModuleManager.exec_module ext want true s) = Ret report
  /\ exists more,
       trace (ModuleManager.exec_module ext want false s)
       = trace (ModuleManager.exec_module ext want true s) ++ more.
Proof.
  intros H.
  destruct (exec_module_returns _ _ _ _ _ H) as [changed (Hres & Htrace & ->)].
  destruct (dry_run_reconcile ext want s changed Hres) as (Hdry & Hch & [more Hmore]).
  rewrite Htrace, Hmore. rewrite !exec_module_unfold. simpl. unfold M_bind.
  destruct (reconcile ext want true s) as [r t s1]; simpl in *. subst r. simpl.
  rewrite Hch. split; [reflexivity|]. exists more. now rewrite app_nil_r.
Qed.

Lemma check_mode_predicts_the_result_witness :
  res (ModuleManager.exec_module sample_ext managed_absent true
         (ModuleManager.init failed_delete_script))
  = Ret [("device_reference", PDict [("link", PStr
            "https://localhost/mgmt/shared/resolver/device-groups/cm-bigip-allBigIpDevices/devices/device")]);
         ("device_port", PInt 443); ("managed", PBool true);
         ("unit_of_measure", PStr "hourly"); ("changed", PBool true)].
Proof.
  apply (check_mode_predicts_the_result sample_ext managed_absent
           (ModuleManager.init failed_delete_script)).
  reflexivity.
Defined.

(** ** Building the change set *)

Lemma set_changed_options_unmanaged_run
    (ext : externals) (want : params) (s : mstate) :
  truthy (ModuleParameters.managed want) = false ->
  ModuleManager._set_changed_options ext want s
  = Ran (Ret tt) []
        {| pending := pending s;
           changes := if truthy (PDict (wanted ext want PNone))
                      then Changes_ (wanted ext want PNone)
                      else changes s |}.
Proof.
  destruct ext as [ip st]. destruct want as [k o d m port u pw unit state].
  destruct s as [script c].
  unfold ModuleParameters.managed. simpl _managed.
  destruct m as [[|]|]; simpl; try discriminate; intros _;
    unfold ModuleManager._set_changed_options, wanted, ModuleParameters.getattr,
      ModuleParameters.device_reference, ModuleParameters.device_address,
      ModuleParameters.device_is_address, ModuleParameters.device_username,
      ModuleParameters.device_password, ModuleParameters.device_port,
      ModuleParameters.managed; simpl;
    destruct (ip d); destruct u; destruct pw; destruct port; destruct unit;
    reflexivity.
Qed.


(** X6. For an unmanaged device [_set_changed_options] makes no request.  It
    stores the arguments that are not [None] as the new change set, and
    leaves the change set alone when every one of them is [None]. *)
Theorem set_changed_options_of_unmanaged
    (ext : externals) (want : params) (s : mstate) :
  truthy (ModuleParameters.managed want) = false ->
  ModuleManager._set_changed_options ext want s
  = Ran (Ret tt) []
        {| pending := pending s;
           changes := if truthy (PDict (wanted ext want PNone))
                      then Changes_ (wanted ext want PNone)
                      else changes s |}.
Proof. apply set_changed_options_unmanaged_run. Qed.

Lemma set_changed_options_of_unmanaged_witness :
  ModuleManager._set_changed_options sample_ext unmanaged_want (ModuleManager.init [])
  = Ran (Ret tt) []
        {| pending := [];
           changes := Changes_
             [("device_address", PStr "1.1.1.1"); ("device_username", PStr "admin");
              ("device_password", PStr "secret"); ("device_port", PInt 443);
              ("managed", PBool false); ("unit_of_measure", PStr "hourly")] |}.
Proof.
  apply (set_changed_options_of_unmanaged sample_ext unmanaged_want
           (ModuleManager.init [])).
  reflexivity.
Defined.

Lemma device_reference_of_is_link ext r v :
  ModuleParameters.device_reference_of ext r = Ret v -> exists link, v = PDict [("link", PStr link)].
Proof.
  unfold ModuleParameters.device_reference_of.
  destruct (negb _); [discriminate|].
  destruct (ModuleParameters.no_items r) as [[|]|e|]; simpl; try discriminate.
  destruct (ModuleParameters.first_item r "uuid") as [id|e|]; simpl; try discriminate.
  intros H. inversion H. eauto.
Qed.

Lemma observe_device_reference ext want r rest c :
  truthy (ModuleParameters.managed want) = true ->
  observe (ModuleParameters.device_reference ext want
             {| pending := r :: rest; changes := c |})
  = (ModuleParameters.device_reference_of ext r, [(GET, devices_query, r)],
     {| pending := rest; changes := c |}).
Proof.
  intros Hm. destruct (device_reference_filter_total ext want) as [f Hf].
  unfold ModuleParameters.device_reference. rewrite Hm, Hf. cbn [negb].
  unfold client.get. repeat run_step. reflexivity.
Qed.

Lemma observe_pure_attribute key (v : pyval) (changed : dict) s :
  observe ((v0 <- (ret v : M pyval) ;;
            if negb (is_None v0) then
              v' <- (ret v : M pyval) ;; ret (dict_set changed key v')
            else ret changed) s)
  = (Ret (if is_None v then changed else dict_set changed key v), [], s).
Proof. destruct (is_None v) eqn:E; repeat run_step; rewrite E; repeat run_step; reflexivity. Qed.

(** X7. For a managed device [_set_changed_options] looks the device up
    twice, once to see that the reference is not [None] and once more to
    store it: the change set holds the reference of the second answer, beside
    the arguments that are not [None]. *)
Theorem set_changed_options_of_managed
    (ext : externals) (want : params) (d1 d2 : response) (rest : list response)
    (c : changes_obj) (v1 v2 : pyval) :
  truthy (ModuleParameters.managed want) = true ->
  ModuleParameters.device_reference_of ext d1 = Ret v1 ->
  ModuleParameters.device_reference_of ext d2 = Ret v2 ->
  observe (ModuleManager._set_changed_options ext want
             {| pending := d1 :: d2 :: rest; changes := c |})
  = (Ret tt, [(GET, devices_query, d1); (GET, devices_query, d2)],
     {| pending := rest; changes := Changes_ (wanted ext want v2) |}).
Proof.
  intros Hm H1 H2.
  destruct (device_reference_of_is_link _ _ _ H1) as [link1 ->].
  destruct (device_reference_of_is_link _ _ _ H2) as [link2 ->].
  unfold ModuleManager._set_changed_options. cbn [for_each Parameters.returnables].
  change (ModuleParameters.getattr ext want "device_address")
    with (ret (ModuleParameters.device_address ext want) : M pyval).
  change (ModuleParameters.getattr ext want "device_reference")
    with (ModuleParameters.device_reference ext want).
  change (ModuleParameters.getattr ext want "device_username")
    with (ret (ModuleParameters.device_username want) : M pyval).
  change (ModuleParameters.getattr ext want "device_password")
    with (ret (ModuleParameters.device_password want) : M pyval).
  change (ModuleParameters.getattr ext want "device_port")
    with (ret (ModuleParameters.device_port want) : M pyval).
  change (ModuleParameters.getattr ext want "managed")
    with (ret (ModuleParameters.managed want) : M pyval).
  change (ModuleParameters.getattr ext want "unit_of_measure")
    with (ret (of_opt_str (_unit_of_measure want)) : M pyval).
  rewrite observe_bind.
  rewrite observe_bind, observe_pure_attribute. cbn [then_observe].
  rewrite observe_bind, observe_bind, observe_device_reference, H1 by exact Hm.
  cbn [then_observe negb is_None].
  rewrite observe_bind, observe_device_reference, H2 by exact Hm.
  cbn [then_observe]. rewrite observe_ret. cbn [then_observe app].
  do 5 (rewrite observe_bind, observe_pure_attribute; cbn [then_observe app]).
  rewrite observe_ret. cbn [then_observe app].
  unfold wanted, AnsibleF5Parameters._filter_params. cbn [filter snd negb is_None].
  assert (Hg : is_None (ModuleParameters.managed want) = false).
  { destruct (ModuleParameters.managed want); try reflexivity. discriminate Hm. }
  rewrite Hg.
  destruct (is_None (ModuleParameters.device_address ext want));
    destruct (is_None (ModuleParameters.device_username want));
    destruct (is_None (ModuleParameters.device_password want));
    destruct (is_None (ModuleParameters.device_port want));
    destruct (is_None (of_opt_str (_unit_of_measure want)));
    reflexivity.
Qed.

Lemma set_changed_options_of_managed_witness :
  observe (ModuleManager._set_changed_options sample_ext managed_want
             {| pending := [found_response "first"; found_response "second"];
                changes := UsableChanges_ [] |})
  = (Ret tt,
     [ (GET, devices_query, found_response "first");
       (GET, devices_query, found_response "second") ],
     {| pending := [];
        changes := Changes_
          [("device_reference", PDict [("link", PStr
              "https://localhost/mgmt/shared/resolver/device-groups/cm-bigip-allBigIpDevices/devices/second")]);
           ("device_port", PInt 443); ("managed", PBool true);
           ("unit_of_measure", PStr "hourly")] |}).
Proof.
  apply (set_changed_options_of_managed sample_ext managed_want
           (found_response "first") (found_response "second") [] (UsableChanges_ [])
           (PDict [("link", PStr
              "https://localhost/mgmt/shared/resolver/device-groups/cm-bigip-allBigIpDevices/devices/first")])
           (PDict [("link", PStr
              "https://localhost/mgmt/shared/resolver/device-groups/cm-bigip-allBigIpDevices/devices/second")]));
    reflexivity.
Defined.

(** ** Creating and removing, step by step *)

Lemma observe_reconciled ext want check_mode s r t s1 :
  observe (reconcile ext want check_mode s) = (r, t, s1) ->
  observe (ModuleManager.exec_module ext want check_mode s)
  = (match r with
     | Ret changed => Ret (report_of (changes s1) changed)
     | Raise e => Raise e
     | Starved => Starved
     end, t, s1).
Proof.
  intros H. rewrite exec_module_unfold. run_step. rewrite H.
  destruct r as [changed|e|]; cbn [then_observe]; [|reflexivity..].
  repeat run_step. now rewrite app_nil_r.
Qed.

Section UnmanagedRuns.

Variable ext : externals.
Variable want : params.
Hypothesis unmanaged : truthy (ModuleParameters.managed want) = false.

Lemma observe_set_changed_options_unmanaged script c :
  observe (ModuleManager._set_changed_options ext want
             {| pending := script; changes := c |})
  = (Ret tt, [], {| pending := script; changes := changes_of_unmanaged ext want c |}).
Proof.
  unfold observe. now rewrite set_changed_options_unmanaged_run.
Qed.

Lemma observe_create_on_device o p rest c :
  found ModuleParameters.offering_id_of o ->
  observe (ModuleManager.create_on_device ext want
             {| pending := o :: p :: rest; changes := c |})
  = ((if negb (code_in p [200; 201; 202]) then Raise (F5ModuleError (contents p))
      else Ret true),
     creation_events o p, {| pending := rest; changes := c |}).
Proof.
  intros [oid Ho]. unfold ModuleManager.create_on_device.
  do 2 run_step. cbn [changes].
  run_step. rewrite observe_offering_id, Ho. cbn [then_observe].
  run_step. unfold client.post. run_step.
  destruct (negb (code_in p [200; 201; 202])); run_step; reflexivity.
Qed.

Lemma observe_remove_from_device o1 o2 m2 o3 m3 d rest c :
  removal_lookups o1 o2 m2 o3 m3 ->
  observe (ModuleManager.remove_from_device ext want
             {| pending := o1 :: o2 :: m2 :: o3 :: m3 :: d :: rest; changes := c |})
  = (Ret tt, removal_events o1 o2 m2 o3 m3 d, {| pending := rest; changes := c |}).
Proof.
  intros ([oid1 H1] & H2 & [mid2 Hm2] & H3 & [mid3 Hm3]).
  unfold ModuleManager.remove_from_device.
  run_step. rewrite observe_offering_id, H1. cbn [then_observe].
  run_step. rewrite observe_member_id, Hm2 by exact H2. cbn [then_observe].
  run_step. rewrite unmanaged. cbn [negb].
  repeat run_step. cbn [changes].
  rewrite observe_member_id, Hm3 by exact H3. cbn [then_observe].
  unfold client.delete. repeat run_step. reflexivity.
Qed.

(** [remove]: whatever the DELETE is answered, the existence check that
    follows decides. *)
Lemma observe_remove o1 o2 m2 o3 m3 d after c :
  removal_lookups o1 o2 m2 o3 m3 ->
  observe (ModuleManager.remove ext want false
             {| pending := o1 :: o2 :: m2 :: o3 :: m3 :: d :: after; changes := c |})
  = then_observe
      (Ret tt, removal_events o1 o2 m2 o3 m3 d,
       {| pending := after; changes := changes_of_unmanaged ext want c |})
      (fun _ s1 =>
         then_observe (observe (ModuleManager.exists_ ext want s1))
           (fun (found : bool) s2 =>
              ((if found then Raise (F5ModuleError (PStr "Failed to delete the resource."))
                else Ret true), [], s2))).
Proof.
  intros Hlook. unfold ModuleManager.remove.
  run_step. rewrite observe_set_changed_options_unmanaged. cbn [then_observe app].
  run_step. rewrite observe_remove_from_device by exact Hlook. cbn [then_observe].
  run_step. destruct (observe (ModuleManager.exists_ ext want _)) as [[[found|e|] t] s2];
    cbn [then_observe]; try reflexivity.
  destruct found; run_step; reflexivity.
Qed.

Hypothesis username_given : is_None (ModuleParameters.device_username want) = false.
Hypothesis password_given : is_None (ModuleParameters.device_password want) = false.

(** [create] up to the POST: when the POST is accepted, the existence check
    that follows decides whether the wait begins. *)
Lemma observe_create o p after c :
  found ModuleParameters.offering_id_of o ->
  code_in p [200; 201; 202] = true ->
  observe (ModuleManager.create ext want false
             {| pending := o :: p :: after; changes := c |})
  = then_observe
      (Ret true, creation_events o p,
       {| pending := after; changes := changes_of_unmanaged ext want c |})
      (fun _ s1 =>
         then_observe (observe (ModuleManager.exists_ ext want s1))
           (fun (found : bool) s2 =>
              if found then
                then_observe
                  (observe (ModuleManager.wait_for_device_to_be_licensed ext want s2))
                  (fun _ s3 => (Ret true, [], s3))
              else
                (Raise (F5ModuleError (PStr "Failed to license the remote device.")),
                 [], s2))).
Proof.
  intros Ho Hp. unfold ModuleManager.create.
  run_step. rewrite observe_set_changed_options_unmanaged. cbn [then_observe app].
  run_step. rewrite unmanaged, username_given, password_given. cbn [negb].
  run_step. cbn [then_observe app].
  run_step. rewrite observe_create_on_device by exact Ho. rewrite Hp.
  cbn [negb then_observe].
  run_step.
  destruct (observe (ModuleManager.exists_ ext want _)) as [[[found|e|] t] s2];
    cbn [then_observe]; try reflexivity.
  destruct found; cbn [negb]; [|run_step; reflexivity].
  run_step.
  destruct (observe (ModuleManager.wait_for_device_to_be_licensed ext want s2))
    as [[[[]|e|] t'] s3]; cbn [then_observe]; try reflexivity.
Qed.

End UnmanagedRuns.

Lemma reconcile_absent ext want check_mode :
  _state want = "absent" ->
  reconcile ext want check_mode = ModuleManager.absent ext want check_mode.
Proof. intros H. unfold reconcile. now rewrite H. Qed.

Lemma reconcile_present ext want check_mode :
  _state want = "present" ->
  reconcile ext want check_mode = ModuleManager.present ext want check_mode.
Proof. intros H. unfold reconcile. now rewrite H. Qed.

(** X8. Removing the assignment of an unmanaged device: the answer to the
    DELETE plays no part.  Whatever it is, the run is judged by the existence
    check that follows: it reports [changed=True] when the assignment is
    gone, and fails with "Failed to delete the resource." when the member can
    still be read. *)
Theorem remove_is_judged_by_the_check_after
    (ext : externals) (want : params)
    (r1 r2 r3 r4 r5 r6 o1 o2 m2 o3 m3 d : response) (after : list response) :
  _state want = "absent" ->
  truthy (ModuleParameters.managed want) = false ->
  lookups_succeed r1 r2 r3 r4 r5 ->
  code_in r6 [200; 201; 202] = true ->
  removal_lookups o1 o2 m2 o3 m3 ->
  let run := ModuleManager.exec_module ext want false
               (ModuleManager.init
                  (r1 :: r2 :: r3 :: r4 :: r5 :: r6
                   :: o1 :: o2 :: m2 :: o3 :: m3 :: d :: after)) in
  let c := changes_of_unmanaged ext want (UsableChanges_ []) in
  (forall events rest,
     not_assigned after events rest ->
     observe run
     = (Ret (report_of c true),
        exists_events r1 r2 r3 r4 r5 r6 ++ removal_events o1 o2 m2 o3 m3 d ++ events,
        {| pending := rest; changes := c |}))
  /\ (forall a1 a2 a3 a4 a5 a6 rest,
        after = a1 :: a2 :: a3 :: a4 :: a5 :: a6 :: rest ->
        lookups_succeed a1 a2 a3 a4 a5 ->
        code_in a6 [200; 201; 202] = true ->
        observe run
        = (Raise (F5ModuleError (PStr "Failed to delete the resource.")),
           exists_events r1 r2 r3 r4 r5 r6 ++ removal_events o1 o2 m2 o3 m3 d
           ++ exists_events a1 a2 a3 a4 a5 a6,
           {| pending := rest; changes := c |})).
Proof.
  intros Hstate Hmanaged Hlook Hcode Hremoval run c. subst run c.
  assert (Habsent : forall outcome,
            observe (ModuleManager.exists_ ext want
                       {| pending := after;
                          changes := changes_of_unmanaged ext want (UsableChanges_ []) |})
            = outcome ->
            observe (reconcile ext want false
                       (ModuleManager.init
                          (r1 :: r2 :: r3 :: r4 :: r5 :: r6
                           :: o1 :: o2 :: m2 :: o3 :: m3 :: d :: after)))
            = then_observe
                (Ret tt, exists_events r1 r2 r3 r4 r5 r6 ++ removal_events o1 o2 m2 o3 m3 d,
                 {| pending := after;
                    changes := changes_of_unmanaged ext want (UsableChanges_ []) |})
                (fun _ _ =>
                   then_observe outcome
                     (fun (found : bool) s2 =>
                        ((if found then
                            Raise (F5ModuleError (PStr "Failed to delete the resource."))
                          else Ret true), [], s2)))).
  { intros outcome Hout. rewrite reconcile_absent by exact Hstate.
    unfold ModuleManager.absent, ModuleManager.init.
    run_step. rewrite observe_exists_assigned by assumption. cbn [then_observe].
    rewrite observe_remove by assumption. cbn [then_observe]. rewrite Hout.
    destruct outcome as [[[found|e|] t] s2]; cbn [then_observe];
      rewrite ?app_assoc; reflexivity. }
  split.
  - intros events rest Hno.
    pose proof (Habsent _ (observe_exists_not_assigned _ _ _ _ _ _ Hno)) as H.
    cbn [then_observe] in H. rewrite (observe_reconciled _ _ _ _ _ _ _ H).
    cbn [changes]. now rewrite app_nil_r, app_assoc.
  - intros a1 a2 a3 a4 a5 a6 rest -> Ha Hcode6.
    pose proof (Habsent _ (observe_exists_assigned ext want _ _ _ _ _ _ rest _
                             Ha Hcode6)) as H.
    cbn [then_observe] in H. rewrite (observe_reconciled _ _ _ _ _ _ _ H).
    now rewrite app_nil_r, app_assoc.
Qed.

Lemma remove_is_judged_by_the_check_after_witness :
  res (ModuleManager.exec_module sample_ext unmanaged_absent false
         (ModuleManager.init
            [found_response "offering"; found_response "member";
             found_response "offering";
             found_response "offering"; found_response "member";
             member_response "LICENSED";
             found_response "offering";
             found_response "offering"; found_response "member";
             found_response "offering"; found_response "member";
             plain_response 500 "Internal Server Error";
             found_response "offering"; empty_response]))
  = Ret [("device_address", PStr "1.1.1.1"); ("device_username", PStr "admin");
         ("device_password", PStr "secret"); ("device_port", PInt 443);
         ("managed", PBool false); ("unit_of_measure", PStr "hourly");
         ("changed", PBool true)].
Proof.
  refine (proj1 (observed_trace _ _ _ _
    (proj1 (remove_is_judged_by_the_check_after sample_ext unmanaged_absent
              (found_response "offering") (found_response "member")
              (found_response "offering")
              (found_response "offering") (found_response "member")
              (member_response "LICENSED")
              (found_response "offering")
              (found_response "offering") (found_response "member")
              (found_response "offering") (found_response "member")
              (plain_response 500 "Internal Server Error")
              [found_response "offering"; empty_response] _ _ _ _ _)
       _ [] (no_member_found _ _ [] _ _)))).
  - reflexivity.
  - reflexivity.
  - repeat split; eexists; try split; reflexivity.
  - reflexivity.
  - repeat split; eexists; reflexivity.
  - eexists; reflexivity.
  - split; [reflexivity|]. exists (PInt 0). split; reflexivity.
Defined.

Lemma observe_wait_returns ext want l1 l2 l3 polls c i :
  found ModuleParameters.offering_id_of l1 ->
  found ModuleParameters.offering_id_of l2 ->
  found ModuleParameters.member_id_of l3 ->
  Forall poll_ok polls ->
  three_licensed_from polls i = true ->
  (forall j, (j < i)%nat -> three_licensed_from polls j = false) ->
  observe (ModuleManager.wait_for_device_to_be_licensed ext want
             {| pending := l1 :: l2 :: l3 :: polls; changes := c |})
  = (Ret tt, waiting_events l1 l2 l3 (firstn (i + 3) polls),
     {| pending := skipn (i + 3) polls; changes := c |}).
Proof.
  intros H1 H2 H3 Hok Hi Hmin.
  destruct (observe_wait ext want l1 l2 l3 polls c H1 H2 H3) as [rq [Hm [Hs H]]].
  destruct (poll_streak rq polls 0 ltac:(lia) Hok) as [Hret _].
  simpl repeat in Hret. simpl app in Hret. change (Z.of_nat 0) with 0 in Hret.
  rewrite H, (Hret i Hi Hmin).
  rewrite Nat.sub_0_r, erase_polls by assumption. reflexivity.
Qed.

Section Creation.

Variable ext : externals.
Variable want : params.
Hypothesis present : _state want = "present".
Hypothesis unmanaged : truthy (ModuleParameters.managed want) = false.
Hypothesis username_given : is_None (ModuleParameters.device_username want) = false.
Hypothesis password_given : is_None (ModuleParameters.device_password want) = false.

Lemma observe_reconcile_create script events o p after outcome :
  not_assigned script events (o :: p :: after) ->
  found ModuleParameters.offering_id_of o ->
  code_in p [200; 201; 202] = true ->
  observe (ModuleManager.exists_ ext want
             {| pending := after;
                changes := changes_of_unmanaged ext want (UsableChanges_ []) |})
  = outcome ->
  observe (reconcile ext want false (ModuleManager.init script))
  = then_observe
      (Ret tt, events ++ creation_events o p,
       {| pending := after;
          changes := changes_of_unmanaged ext want (UsableChanges_ []) |})
      (fun _ _ =>
         then_observe outcome
           (fun (found : bool) s2 =>
              if found then
                then_observe
                  (observe (ModuleManager.wait_for_device_to_be_licensed ext want s2))
                  (fun _ s3 => (Ret true, [], s3))
              else
                (Raise (F5ModuleError (PStr "Failed to license the remote device.")),
                 [], s2))).
Proof.
  intros Hno Ho Hp Hout. rewrite reconcile_present by exact present.
  unfold ModuleManager.present, ModuleManager.init.
  run_step. rewrite (observe_exists_not_assigned _ _ _ _ _ _ Hno).
  cbn [then_observe].
  rewrite observe_create by assumption. cbn [then_observe]. rewrite Hout.
  destruct outcome as [[[found|e|] t] s2]; cbn [then_observe];
    rewrite ?app_assoc; try reflexivity.
  destruct found; [|now rewrite !app_assoc].
  destruct (observe (ModuleManager.wait_for_device_to_be_licensed ext want s2))
    as [[[[]|e|] t'] s3]; cbn [then_observe]; now rewrite !app_assoc.
Qed.

End Creation.

(** X9. Licensing an unmanaged device that has no assignment yet: after the
    existence check the run POSTs the assignment once, checks that the
    member is there, and polls it until three polls in a row read
    "LICENSED"; then it reports [changed=True] together with the arguments
    it was given. *)
Theorem create_licenses_the_device
    (ext : externals) (want : params) (script : list response) (events : list event)
    (o p r1 r2 r3 r4 r5 r6 l1 l2 l3 : response) (polls : list response) (i : nat) :
  _state want = "present" ->
  truthy (ModuleParameters.managed want) = false ->
  is_None (ModuleParameters.device_username want) = false ->
  is_None (ModuleParameters.device_password want) = false ->
  not_assigned script events
    (o :: p :: r1 :: r2 :: r3 :: r4 :: r5 :: r6 :: l1 :: l2 :: l3 :: polls) ->
  found ModuleParameters.offering_id_of o ->
  code_in p [200; 201; 202] = true ->
  lookups_succeed r1 r2 r3 r4 r5 ->
  code_in r6 [200; 201; 202] = true ->
  found ModuleParameters.offering_id_of l1 ->
  found ModuleParameters.offering_id_of l2 ->
  found ModuleParameters.member_id_of l3 ->
  Forall poll_ok polls ->
  three_licensed_from polls i = true ->
  (forall j, (j < i)%nat -> three_licensed_from polls j = false) ->
  let c := changes_of_unmanaged ext want (UsableChanges_ []) in
  observe (ModuleManager.exec_module ext want false (ModuleManager.init script))
  = (Ret (report_of c true),
     events ++ creation_events o p ++ exists_events r1 r2 r3 r4 r5 r6
     ++ waiting_events l1 l2 l3 (firstn (i + 3) polls),
     {| pending := skipn (i + 3) polls; changes := c |}).
Proof.
  intros Hstate Hmanaged Hu Hpw Hno Ho Hp Hlook Hcode H1 H2 H3 Hok Hi Hmin c.
  subst c.
  pose proof (observe_reconcile_create ext want Hstate Hmanaged Hu Hpw
                script events o p _ _ Hno Ho Hp
                (observe_exists_assigned ext want _ _ _ _ _ _ _ _ Hlook Hcode)) as H.
  cbn [then_observe] in H.
  rewrite (observe_wait_returns ext want l1 l2 l3 polls _ i H1 H2 H3 Hok Hi Hmin) in H.
  cbn [then_observe] in H.
  rewrite (observe_reconciled _ _ _ _ _ _ _ H). cbn [changes].
  now rewrite !app_nil_r, <- !app_assoc.
Qed.

(** X10. When the POST is accepted but the existence check that follows
    finds no assignment, the run fails with "Failed to license the remote
    device." and never starts to poll. *)
Theorem create_fails_when_the_member_is_missing
    (ext : externals) (want : params) (script : list response)
    (events events' : list event) (o p : response) (after rest : list response) :
  _state want = "present" ->
  truthy (ModuleParameters.managed want) = false ->
  is_None (ModuleParameters.device_username want) = false ->
  is_None (ModuleParameters.device_password want) = false ->
  not_assigned script events (o :: p :: after) ->
  found ModuleParameters.offering_id_of o ->
  code_in p [200; 201; 202] = true ->
  not_assigned after events' rest ->
  observe (ModuleManager.exec_module ext want false (ModuleManager.init script))
  = (Raise (F5ModuleError (PStr "Failed to license the remote device.")),
     events ++ creation_events o p ++ events',
     {| pending := rest;
        changes := changes_of_unmanaged ext want (UsableChanges_ []) |}).
Proof.
  intros Hstate Hmanaged Hu Hpw Hno Ho Hp Hafter.
  pose proof (observe_reconcile_create ext want Hstate Hmanaged Hu Hpw
                script events o p _ _ Hno Ho Hp
                (observe_exists_not_assigned ext want _ _ _ _ Hafter)) as H.
  cbn [then_observe] in H.
  rewrite (observe_reconciled _ _ _ _ _ _ _ H).
  now rewrite !app_nil_r, <- !app_assoc.
Qed.

Lemma create_licenses_the_device_witness :
  observe (ModuleManager.exec_module sample_ext unmanaged_want false
             (ModuleManager.init
                ([found_response "offering"; empty_response;
                  found_response "offering"; plain_response 200 "OK";
                  found_response "offering"; found_response "member";
                  found_response "offering";
                  found_response "offering"; found_response "member";
                  member_response "PENDING"]
                 ++ wait_lookups
                 ++ [member_response "PENDING"; member_response "LICENSED";
                     member_response "LICENSED"; member_response "LICENSED";
                     member_response "LICENSED"])))
  = (Ret [("device_address", PStr "1.1.1.1"); ("device_username", PStr "admin");
          ("device_password", PStr "secret"); ("device_port", PInt 443);
          ("managed", PBool false); ("unit_of_measure", PStr "hourly");
          ("changed", PBool true)],
     [ (GET, offerings_query, found_response "offering");
       (GET, members_query, empty_response) ]
     ++ creation_events (found_response "offering") (plain_response 200 "OK")
     ++ exists_events (found_response "offering") (found_response "member")
                      (found_response "offering")
                      (found_response "offering") (found_response "member")
                      (member_response "PENDING")
     ++ waiting_events (found_response "offering") (found_response "offering")
                       (found_response "member")
                       [member_response "PENDING"; member_response "LICENSED";
                        member_response "LICENSED"; member_response "LICENSED"],
     {| pending := [member_response "LICENSED"];
        changes := Changes_
          [("device_address", PStr "1.1.1.1"); ("device_username", PStr "admin");
           ("device_password", PStr "secret"); ("device_port", PInt 443);
           ("managed", PBool false); ("unit_of_measure", PStr "hourly")] |}).
Proof.
  apply (create_licenses_the_device sample_ext unmanaged_want _ _
           (found_response "offering") (plain_response 200 "OK")
           (found_response "offering") (found_response "member")
           (found_response "offering")
           (found_response "offering") (found_response "member")
           (member_response "PENDING")
           (found_response "offering") (found_response "offering")
           (found_response "member")
           [member_response "PENDING"; member_response "LICENSED";
            member_response "LICENSED"; member_response "LICENSED";
            member_response "LICENSED"] 1%nat).
  - reflexivity.
  - reflexivity.
  - reflexivity.
  - reflexivity.
  - apply no_member_found.
    + eexists; reflexivity.
    + split; [reflexivity|]. exists (PInt 0). split; reflexivity.
  - eexists; reflexivity.
  - reflexivity.
  - repeat split; eexists; try split; reflexivity.
  - reflexivity.
  - eexists; reflexivity.
  - eexists; reflexivity.
  - eexists; reflexivity.
  - repeat constructor; eexists; reflexivity.
  - reflexivity.
  - intros j Hj. destruct j as [|j]; [reflexivity|lia].
Defined.

Lemma create_fails_when_the_member_is_missing_witness :
  observe (ModuleManager.exec_module sample_ext unmanaged_want false
             (ModuleManager.init
                [found_response "offering"; empty_response;
                 found_response "offering"; plain_response 202 "Accepted";
                 found_response "offering"; empty_response]))
  = (Raise (F5ModuleError (PStr "Failed to license the remote device.")),
     [ (GET, offerings_query, found_response "offering");
       (GET, members_query, empty_response) ]
     ++ creation_events (found_response "offering") (plain_response 202 "Accepted")
     ++ [ (GET, offerings_query, found_response "offering");
          (GET, members_query, empty_response) ],
     {| pending := [];
        changes := Changes_
          [("device_address", PStr "1.1.1.1"); ("device_username", PStr "admin");
           ("device_password", PStr "secret"); ("device_port", PInt 443);
           ("managed", PBool false); ("unit_of_measure", PStr "hourly")] |}).
Proof.
  apply (create_fails_when_the_member_is_missing sample_ext unmanaged_want _ _ _
           (found_response "offering") (plain_response 202 "Accepted")
           [found_response "offering"; empty_response] []).
  - reflexivity.
  - reflexivity.
  - reflexivity.
  - reflexivity.
  - apply no_member_found.
    + eexists; reflexivity.
    + split; [reflexivity|]. exists (PInt 0). split; reflexivity.
  - eexists; reflexivity.
  - reflexivity.
  - apply no_member_found.
    + eexists; reflexivity.
    + split; [reflexivity|]. exists (PInt 0). split; reflexivity.
Defined.

(** ** The id pattern *)

Lemma re_match_prefix pattern : forall s rest,
  re_match pattern s = true -> re_match pattern (s ++ rest)%string = true.
Proof.
  induction pattern as [|cls pattern IH]; intros s rest; [reflexivity|].
  destruct s as [|c s]; simpl; [discriminate|].
  intros H. apply andb_true_iff in H. destruct H as [Hc Hs].
  rewrite Hc. simpl. now apply IH.
Qed.

Lemma re_match_length pattern : forall s,
  re_match pattern s = true -> (List.length pattern <= String.length s)%nat.
Proof.
  induction pattern as [|cls pattern IH]; intros s; simpl; [lia|].
  destruct s as [|c s]; [discriminate|].
  intros H. apply andb_true_iff in H. destruct H as [_ Hs].
  specialize (IH s Hs). simpl. lia.
Qed.

Lemma hyphen_is_hyphen c : hyphen c = true -> c = "-"%char.
Proof. unfold hyphen. apply Ascii.eqb_eq. Qed.

(** X11. [device_is_id] matches the pattern against the beginning of the
    device string only ([re.match], not a full match): a string it accepts
    has at least 36 characters with hyphens at positions 8, 13, 18 and 23,
    and it is still accepted with anything appended to it. *)
Theorem device_is_id_reads_a_prefix (want want' : params) (rest : string) :
  ModuleParameters.device_is_id want = true ->
  _device want' = (_device want ++ rest)%string ->
  ModuleParameters.device_is_id want' = true
  /\ (36 <= String.length (_device want))%nat
  /\ string_nth (_device want) 8 = Some "-"%char
  /\ string_nth (_device want) 13 = Some "-"%char
  /\ string_nth (_device want) 18 = Some "-"%char
  /\ string_nth (_device want) 23 = Some "-"%char.
Proof.
  unfold ModuleParameters.device_is_id. intros H Hdevice.
  destruct (re_match ModuleParameters.pattern (_device want)) eqn:Hm;
    [clear H|discriminate H].
  split; [rewrite Hdevice, (re_match_prefix _ _ _ Hm); reflexivity|].
  split; [apply (re_match_length _ _ Hm)|].
  repeat split;
    match goal with
    | |- string_nth _ ?n = _ =>
        destruct (re_match_position _ _ n hyphen Hm eq_refl) as [c [Hc Hh]];
        now rewrite Hc, (hyphen_is_hyphen _ Hh)
    end.
Qed.

Lemma device_is_id_reads_a_prefix_witness :
  ModuleParameters.device_is_id
    {| _key := "XXXX-XXXX-XXXX-XXXX-XXXX";
       _offering := "F5-BIG-MSP-AFM-10G-LIC";
       _device := "7141a063-7cf8-423f-9829-9d40599fa3e0.example.com";
       _managed := Some true;
       _device_port := Some 443;
       _device_username := None;
       _device_password := None;
       _unit_of_measure := Some "hourly";
       _state := "present" |} = true.
Proof.
  refine (proj1 (device_is_id_reads_a_prefix managed_want _ ".example.com" _ _)).
  - reflexivity.
  - reflexivity.
Defined.

(** ** Answers the module does not expect *)

Lemma created_or_accepted_is_in r :
  code r = 201 \/ code r = 202 ->
  code_in r [200; 201; 202] = true /\ (code r =? 200) = false.
Proof. unfold code_in. intros [H|H]; rewrite H; split; reflexivity. Qed.

Lemma lookups_of_no_items r :
  code r = 201 \/ code r = 202 ->
  subscript (contents r) (IStr "items") = Ret (PList []) ->
  ModuleParameters.offering_id_of r = Raise IndexError
  /\ ModuleParameters.member_id_of r = Raise IndexError.
Proof.
  intros Hcode Hitems. destruct (created_or_accepted_is_in r Hcode) as [Hin H200].
  unfold ModuleParameters.offering_id_of, ModuleParameters.member_id_of,
    ModuleParameters.no_items, ModuleParameters.first_item.
  rewrite Hin, H200. simpl. rewrite Hitems. split; reflexivity.
Qed.

(** X12. An empty result is recognised on code 200 only.  When the first
    query of a run, the offerings query, is answered 201 or 202 with an
    empty list of items, the module neither reports "No offering ..." nor an
    [F5ModuleError]: the run ends with the [IndexError] of [items[0]], after
    that one request. *)
Theorem empty_items_with_201_or_202
    (ext : externals) (want : params) (check_mode : bool)
    (r : response) (rest : list response) :
  _state want = "present" \/ _state want = "absent" ->
  code r = 201 \/ code r = 202 ->
  subscript (contents r) (IStr "items") = Ret (PList []) ->
  observe (ModuleManager.exec_module ext want check_mode
             (ModuleManager.init (r :: rest)))
  = (Raise IndexError, [(GET, offerings_query, r)], ModuleManager.init rest).
Proof.
  intros Hstate Hcode Hitems.
  destruct (lookups_of_no_items r Hcode Hitems) as [Hoffering _].
  destruct (member_id_filter_total ext want) as [f Hf].
  assert (Hexists : observe (ModuleManager.exists_ ext want (ModuleManager.init (r :: rest)))
                    = (Raise IndexError, [(GET, offerings_query, r)],
                       ModuleManager.init rest)).
  { unfold ModuleManager.exists_, ModuleParameters.member_id, ModuleManager.init.
    rewrite Hf. repeat run_step. rewrite observe_offering_id, Hoffering.
    reflexivity. }
  apply (observe_reconciled ext want check_mode _ (Raise IndexError)).
  unfold reconcile, ModuleManager.present, ModuleManager.absent.
  destruct Hstate as [Hstate|Hstate]; rewrite Hstate;
    [change (String.eqb "present" "present") with true
    |change (String.eqb "absent" "present") with false;
     change (String.eqb "absent" "absent") with true]; cbv iota;
    run_step; rewrite Hexists; reflexivity.
Qed.

Lemma empty_items_with_201_or_202_witness :
  observe (ModuleManager.exec_module sample_ext unmanaged_want false
             (ModuleManager.init
                [{| code := 202;
                    contents := PDict [("totalItems", PInt 0); ("items", PList [])] |}]))
  = (Raise IndexError,
     [(GET, offerings_query,
       {| code := 202;
          contents := PDict [("totalItems", PInt 0); ("items", PList [])] |})],
     ModuleManager.init []).
Proof.
  apply (empty_items_with_201_or_202 sample_ext unmanaged_want false
           {| code := 202;
              contents := PDict [("totalItems", PInt 0); ("items", PList [])] |} []).
  - left. reflexivity.
  - right. reflexivity.
  - reflexivity.
Defined.

(** The loop taken up after polls that did not end it. *)
Lemma poll_resumes rq : forall before k tail,
  (k <= 2)%nat -> Forall poll_ok before ->
  (forall i, streak3 (repeat true k ++ map licensed before) i = false) ->
  exists k', (k' <= 2)%nat
    /\ poll rq (Z.of_nat k) (before ++ tail)
       = let '(r, t, rest) := poll rq (Z.of_nat k') tail in
         (r, map (pair rq) before ++ t, rest).
Proof.
  induction before as [|r0 before IH]; intros k tail Hk Hok Hnone.
  - exists k. split; [exact Hk|]. simpl.
    destruct (poll rq (Z.of_nat k) tail) as [[r t] rest]. reflexivity.
  - inversion Hok as [|? ? Hr Hrest]; subst.
    assert (Hc : (Z.of_nat k <? 3) = true) by (apply Z.ltb_lt; lia).
    simpl app. rewrite (poll_accepts rq _ r0 _ Hc Hr).
    destruct (licensed r0) eqn:Hl.
    + assert (Hflags : repeat true k ++ map licensed (r0 :: before)
                       = repeat true (S k) ++ map licensed before).
      { simpl map. rewrite Hl. change (true :: map licensed before)
          with ([true] ++ map licensed before).
        rewrite app_assoc. f_equal. symmetry. apply (repeat_cons k true). }
      rewrite Hflags in Hnone.
      destruct (Nat.eq_dec k 2) as [->|Hk2];
        [specialize (Hnone O); discriminate Hnone|].
      destruct (IH (S k) tail ltac:(lia) Hrest Hnone) as [k' [Hk' Heq]].
      exists k'. split; [exact Hk'|].
      replace (Z.of_nat k + 1) with (Z.of_nat (S k)) by lia. rewrite Heq.
      destruct (poll rq (Z.of_nat k') tail) as [[r t] rest]. reflexivity.
    + assert (Hshift : forall i,
                streak3 (repeat true k ++ false :: map licensed before) (i + S k)
                = streak3 (map licensed before) i).
      { intros i. destruct k as [|[|[|k]]]; [| | |lia]; simpl repeat; simpl app;
          unfold streak3;
          [replace (i + 1)%nat with (S i) by lia
          |replace (i + 2)%nat with (S (S i)) by lia
          |replace (i + 3)%nat with (S (S (S i))) by lia]; reflexivity. }
      simpl map in Hnone. rewrite Hl in Hnone.
      destruct (IH O tail ltac:(lia) Hrest) as [k' [Hk' Heq]].
      { intros i. simpl. rewrite <- Hshift. apply Hnone. }
      exists k'. split; [exact Hk'|].
      change (Z.of_nat 0) with 0 in Heq. rewrite Heq.
      destruct (poll rq (Z.of_nat k') tail) as [[r t] rest]. reflexivity.
Qed.

(** X13. A polled member whose contents have no status to read ends the
    wait with the exception of that subscript, a [KeyError] for a dictionary
    without ['status'], at whatever point of the polling it comes; it is not
    an [F5ModuleError]. *)
Theorem poll_without_status_raises
    (ext : externals) (want : params) (c : changes_obj)
    (l1 l2 l3 : response) (before : list response) (r : response)
    (rest : list response) (e : exn) :
  found ModuleParameters.offering_id_of l1 ->
  found ModuleParameters.offering_id_of l2 ->
  found ModuleParameters.member_id_of l3 ->
  Forall poll_ok before ->
  (forall i, three_licensed_from before i = false) ->
  code_in r [200; 201; 202] = true ->
  subscript (contents r) (IStr "status") = Raise e ->
  observe (ModuleManager.wait_for_device_to_be_licensed ext want
             {| pending := l1 :: l2 :: l3 :: before ++ r :: rest; changes := c |})
  = (Raise e, waiting_events l1 l2 l3 (before ++ [r]),
     {| pending := rest; changes := c |}).
Proof.
  intros H1 H2 H3 Hok Hnone Hcode Hstatus.
  destruct (observe_wait ext want l1 l2 l3 (before ++ r :: rest) c H1 H2 H3)
    as [rq [Hm [Hs H]]].
  destruct (poll_resumes rq before 0 (r :: rest) ltac:(lia) Hok Hnone)
    as [k' [Hk' Heq]].
  change (Z.of_nat 0) with 0 in Heq. rewrite H, Heq.
  assert (Hlast : poll rq (Z.of_nat k') (r :: rest) = (Raise e, [(rq, r)], rest)).
  { simpl. replace (Z.of_nat k' <? 3) with true by (symmetry; apply Z.ltb_lt; lia).
    rewrite Hcode, Hstatus. reflexivity. }
  rewrite Hlast. unfold waiting_events.
  rewrite map_app, erase_polls by assumption. rewrite map_app.
  unfold erase. simpl. now rewrite Hm, Hs.
Qed.

Lemma poll_without_status_raises_witness :
  observe (ModuleManager.wait_for_device_to_be_licensed sample_ext unmanaged_want
             (ModuleManager.init
                (wait_lookups
                 ++ [member_response "PENDING"; member_response "LICENSED";
                     {| code := 200; contents := PDict [("state", PStr "LICENSED")] |};
                     member_response "LICENSED"])))
  = (Raise (KeyError (IStr "status")),
     waiting_events (found_response "offering") (found_response "offering")
                    (found_response "member")
                    [member_response "PENDING"; member_response "LICENSED";
                     {| code := 200; contents := PDict [("state", PStr "LICENSED")] |}],
     ModuleManager.init [member_response "LICENSED"]).
Proof.
  apply (poll_without_status_raises sample_ext unmanaged_want (UsableChanges_ [])
           (found_response "offering") (found_response "offering")
           (found_response "member")
           [member_response "PENDING"; member_response "LICENSED"]
           {| code := 200; contents := PDict [("state", PStr "LICENSED")] |}
           [member_response "LICENSED"]).
  - eexists; reflexivity.
  - eexists; reflexivity.
  - eexists; reflexivity.
  - repeat constructor; eexists; reflexivity.
  - intros [|[|[|i]]]; reflexivity.
  - reflexivity.
  - reflexivity.
Defined.

(** ** Comparing with what is there *)

Lemma observe_pure_difference (have : dict) key (v : pyval) (changed : dict) s :
  (forall d, v <> PDict d) ->
  observe ((change <- (attr1 <- (ret v : M pyval) ;;
                       let attr2 := AnsibleF5Parameters.__getattr__ have key in
                       if negb (py_eqb attr1 attr2) then ret attr1 else ret PNone) ;;
            if is_None change then ret changed
            else match change with
                 | PDict d => ret (dict_update changed d)
                 | _ => ret (dict_set changed key change)
                 end) s)
  = (Ret (if is_None v || py_eqb v (AnsibleF5Parameters.__getattr__ have key)
          then changed else dict_set changed key v), [], s).
Proof.
  intros Hv. repeat run_step.
  destruct (py_eqb v (AnsibleF5Parameters.__getattr__ have key)) eqn:E;
    cbn [negb]; repeat run_step.
  - now rewrite orb_true_r.
  - rewrite orb_false_r. destruct v as [| | | | |d]; repeat run_step; try reflexivity.
    now elim (Hv d).
Qed.

Lemma py_eqb_None v : py_eqb v PNone = is_None v.
Proof. now destruct v. Qed.

Section Plain.

Variable ext : externals.
Variable want : params.

Lemma device_address_is_plain d : ModuleParameters.device_address ext want <> PDict d.
Proof.
  unfold ModuleParameters.device_address.
  destruct (ModuleParameters.device_is_address ext want); discriminate.
Qed.

Lemma device_username_is_plain d : ModuleParameters.device_username want <> PDict d.
Proof.
  unfold ModuleParameters.device_username.
  destruct (_device_username want); discriminate.
Qed.

Lemma device_password_is_plain d : ModuleParameters.device_password want <> PDict d.
Proof.
  unfold ModuleParameters.device_password.
  destruct (_device_password want); discriminate.
Qed.

Lemma device_port_is_plain d : ModuleParameters.device_port want <> PDict d.
Proof.
  unfold ModuleParameters.device_port.
  destruct (_device_port want); discriminate.
Qed.

Lemma managed_is_plain d : ModuleParameters.managed want <> PDict d.
Proof.
  unfold ModuleParameters.managed.
  destruct (_managed want) as [[|]|]; discriminate.
Qed.

Lemma unit_of_measure_is_plain d : of_opt_str (_unit_of_measure want) <> PDict d.
Proof. destruct (_unit_of_measure want); discriminate. Qed.

End Plain.

Lemma filter_twice {A} (f g : A -> bool) (l : list A) :
  filter f (filter g l) = filter (fun x => g x && f x) l.
Proof.
  induction l as [|x l IH]; [reflexivity|]. simpl.
  destruct (g x); simpl; [destruct (f x)|]; now rewrite IH.
Qed.

Lemma observe_update_changed_options_unmanaged
    (ext : externals) (want : params) (have : dict) (s : mstate) :
  truthy (ModuleParameters.managed want) = false ->
  observe (ModuleManager._update_changed_options ext want have s)
  = (Ret (truthy (PDict (differing ext want have))), [],
     {| pending := pending s;
        changes := if truthy (PDict (differing ext want have))
                   then Changes_ (differing ext want have)
                   else changes s |}).
Proof.
  intros Hm.
  unfold ModuleManager._update_changed_options.
  cbn [for_each Parameters.updatables].
  unfold Difference.compare, Difference.__default.
  change (ModuleParameters.getattr ext want "device_address")
    with (ret (ModuleParameters.device_address ext want) : M pyval).
  change (ModuleParameters.getattr ext want "device_reference")
    with (ModuleParameters.device_reference ext want).
  change (ModuleParameters.getattr ext want "device_username")
    with (ret (ModuleParameters.device_username want) : M pyval).
  change (ModuleParameters.getattr ext want "device_password")
    with (ret (ModuleParameters.device_password want) : M pyval).
  change (ModuleParameters.getattr ext want "device_port")
    with (ret (ModuleParameters.device_port want) : M pyval).
  change (ModuleParameters.getattr ext want "managed")
    with (ret (ModuleParameters.managed want) : M pyval).
  change (ModuleParameters.getattr ext want "unit_of_measure")
    with (ret (of_opt_str (_unit_of_measure want)) : M pyval).
  unfold ModuleParameters.device_reference. rewrite Hm. cbn [negb].
  rewrite observe_bind.
  rewrite observe_bind, observe_pure_difference by discriminate.
  cbn [then_observe app is_None orb].
  rewrite observe_bind, observe_pure_difference by apply device_address_is_plain.
  cbn [then_observe app].
  rewrite observe_bind, observe_pure_difference by apply device_username_is_plain.
  cbn [then_observe app].
  rewrite observe_bind, observe_pure_difference by apply device_password_is_plain.
  cbn [then_observe app].
  rewrite observe_bind, observe_pure_difference by apply device_port_is_plain.
  cbn [then_observe app].
  rewrite observe_bind, observe_pure_difference by apply managed_is_plain.
  cbn [then_observe app].
  rewrite observe_bind, observe_pure_difference by apply unit_of_measure_is_plain.
  cbn [then_observe app].
  rewrite observe_ret. cbn [then_observe app].
  unfold differing, wanted, AnsibleF5Parameters._filter_params.
  rewrite filter_twice. cbn [filter fst snd is_None negb andb].
  rewrite <- !negb_orb.
  destruct s as [script c]. cbn [pending changes].
  destruct (is_None (ModuleParameters.device_address ext want) || _);
    destruct (is_None (ModuleParameters.device_username want) || _);
    destruct (is_None (ModuleParameters.device_password want) || _);
    destruct (is_None (ModuleParameters.device_port want) || _);
    destruct (is_None (ModuleParameters.managed want) || _);
    destruct (is_None (of_opt_str (_unit_of_measure want)) || _);
    vm_compute; reflexivity.
Qed.

(** X14. For an unmanaged device [should_update] makes no request, whatever
    [have] holds.  It answers [True] exactly when some argument that is given
    differs from what [have] holds under its name; it then stores exactly
    those arguments as the new change set, and otherwise leaves the change
    set alone. *)
Theorem should_update_of_unmanaged
    (ext : externals) (want : params) (have : dict) (s : mstate) :
  truthy (ModuleParameters.managed want) = false ->
  observe (ModuleManager.should_update ext want have s)
  = (Ret (truthy (PDict (differing ext want have))), [],
     {| pending := pending s;
        changes := if truthy (PDict (differing ext want have))
                   then Changes_ (differing ext want have)
                   else changes s |}).
Proof.
  intros Hm. unfold ModuleManager.should_update. run_step.
  rewrite (observe_update_changed_options_unmanaged ext want have s Hm).
  cbn [then_observe].
  destruct (truthy (PDict (differing ext want have))); run_step; reflexivity.
Qed.

Lemma should_update_of_unmanaged_witness :
  observe (ModuleManager.should_update sample_ext unmanaged_want
             [("device_address", PStr "1.1.1.1"); ("device_port", PInt 8443);
              ("managed", PInt 0)]
             (ModuleManager.init []))
  = (Ret true, [],
     {| pending := [];
        changes := Changes_
          [("device_username", PStr "admin"); ("device_password", PStr "secret");
           ("device_port", PInt 443); ("unit_of_measure", PStr "hourly")] |}).
Proof.
  apply (should_update_of_unmanaged sample_ext unmanaged_want
           [("device_address", PStr "1.1.1.1"); ("device_port", PInt 8443);
            ("managed", PInt 0)]
           (ModuleManager.init [])).
  reflexivity.
Defined.

Lemma differing_from_nothing ext want : differing ext want [] = wanted ext want PNone.
Proof.
  unfold differing, wanted, AnsibleF5Parameters._filter_params.
  rewrite filter_twice. apply filter_ext. intros [k v].
  cbn [fst snd AnsibleF5Parameters.__getattr__ dict_get].
  rewrite py_eqb_None. now destruct (is_None v).
Qed.

(** X15. With the empty [have] the manager is created with,
    [_update_changed_options] leaves for an unmanaged device the change set
    that [_set_changed_options] leaves, without a request, and answers
    whether any argument was given. *)
Theorem update_agrees_with_set_when_unmanaged
    (ext : externals) (want : params) (s : mstate) :
  truthy (ModuleParameters.managed want) = false ->
  observe (ModuleManager._update_changed_options ext want [] s)
  = (Ret (truthy (PDict (wanted ext want PNone))), [],
     final (ModuleManager._set_changed_options ext want s)).
Proof.
  intros Hm.
  rewrite (observe_update_changed_options_unmanaged ext want [] s Hm).
  rewrite differing_from_nothing.
  now rewrite (set_changed_options_unmanaged_run ext want s Hm).
Qed.

Lemma update_agrees_with_set_when_unmanaged_witness :
  observe (ModuleManager._update_changed_options sample_ext unmanaged_want []
             (ModuleManager.init []))
  = (Ret true, [],
     final (ModuleManager._set_changed_options sample_ext unmanaged_want
              (ModuleManager.init []))).
Proof.
  apply (update_agrees_with_set_when_unmanaged sample_ext unmanaged_want
           (ModuleManager.init [])).
  reflexivity.
Defined.

(** X16. For a managed device the two differ.  [_update_changed_options]
    looks the device up once, and as the reference is a dictionary it merges
    it into the change set: the link is stored under ['link'] and the change
    set has no ['device_reference']. *)
Theorem update_flattens_the_reference
    (ext : externals) (want : params) (d : response) (rest : list response)
    (c : changes_obj) (v : pyval) :
  truthy (ModuleParameters.managed want) = true ->
  ModuleParameters.device_reference_of ext d = Ret v ->
  exists link : string,
    v = PDict [("link", PStr link)]
    /\ observe (ModuleManager._update_changed_options ext want []
                  {| pending := d :: rest; changes := c |})
       = (Ret true, [(GET, devices_query, d)],
          {| pending := rest;
             changes := Changes_ (("link", PStr link) :: wanted ext want PNone) |}).
Proof.
  intros Hm Hd.
  destruct (device_reference_of_is_link _ _ _ Hd) as [link ->].
  exists link. split; [reflexivity|].
  unfold ModuleManager._update_changed_options.
  cbn [for_each Parameters.updatables].
  unfold Difference.compare, Difference.__default.
  change (ModuleParameters.getattr ext want "device_address")
    with (ret (ModuleParameters.device_address ext want) : M pyval).
  change (ModuleParameters.getattr ext want "device_reference")
    with (ModuleParameters.device_reference ext want).
  change (ModuleParameters.getattr ext want "device_username")
    with (ret (ModuleParameters.device_username want) : M pyval).
  change (ModuleParameters.getattr ext want "device_password")
    with (ret (ModuleParameters.device_password want) : M pyval).
  change (ModuleParameters.getattr ext want "device_port")
    with (ret (ModuleParameters.device_port want) : M pyval).
  change (ModuleParameters.getattr ext want "managed")
    with (ret (ModuleParameters.managed want) : M pyval).
  change (ModuleParameters.getattr ext want "unit_of_measure")
    with (ret (of_opt_str (_unit_of_measure want)) : M pyval).
  rewrite observe_bind.
  rewrite observe_bind, observe_bind, observe_bind.
  rewrite observe_device_reference, Hd by exact Hm.
  cbn [then_observe app].
  change (py_eqb (PDict [("link", PStr link)])
            (AnsibleF5Parameters.__getattr__ [] "device_reference")) with false.
  cbn [negb]. rewrite observe_ret. cbn [then_observe app is_None].
  rewrite observe_ret. cbn [then_observe app].
  rewrite observe_bind, observe_pure_difference by apply device_address_is_plain.
  cbn [then_observe app].
  rewrite observe_bind, observe_pure_difference by apply device_username_is_plain.
  cbn [then_observe app].
  rewrite observe_bind, observe_pure_difference by apply device_password_is_plain.
  cbn [then_observe app].
  rewrite observe_bind, observe_pure_difference by apply device_port_is_plain.
  cbn [then_observe app].
  rewrite observe_bind, observe_pure_difference by apply managed_is_plain.
  cbn [then_observe app].
  rewrite observe_bind, observe_pure_difference by apply unit_of_measure_is_plain.
  cbn [then_observe app].
  rewrite observe_ret. cbn [then_observe app].
  cbn [AnsibleF5Parameters.__getattr__ dict_get].
  rewrite !py_eqb_None, !orb_diag.
  unfold wanted, AnsibleF5Parameters._filter_params. cbn [filter snd negb is_None].
  assert (Hg : is_None (ModuleParameters.managed want) = false).
  { destruct (ModuleParameters.managed want); try reflexivity. discriminate Hm. }
  rewrite Hg.
  destruct (is_None (ModuleParameters.device_address ext want));
    destruct (is_None (ModuleParameters.device_username want));
    destruct (is_None (ModuleParameters.device_password want));
    destruct (is_None (ModuleParameters.device_port want));
    destruct (is_None (of_opt_str (_unit_of_measure want)));
    vm_compute; reflexivity.
Qed.

Lemma update_flattens_the_reference_witness :
  exists link : string,
    PDict [("link", PStr
      "https://localhost/mgmt/shared/resolver/device-groups/cm-bigip-allBigIpDevices/devices/device")]
    = PDict [("link", PStr link)]
    /\ observe (ModuleManager._update_changed_options sample_ext managed_want []
                  {| pending := [found_response "device"]; changes := UsableChanges_ [] |})
       = (Ret true, [(GET, devices_query, found_response "device")],
          {| pending := [];
             changes := Changes_ (("link", PStr link)
                                  :: wanted sample_ext managed_want PNone) |}).
Proof.
  apply (update_flattens_the_reference sample_ext managed_want
           (found_response "device") [] (UsableChanges_ [])
           (PDict [("link", PStr
              "https://localhost/mgmt/shared/resolver/device-groups/cm-bigip-allBigIpDevices/devices/device")]));
    reflexivity.
Defined.
